(** * datasette-publish-dokploy: the publish workflow, embedded and verified

    A shallow embedding of [datasette_publish_dokploy/__init__.py]:
    the requirement recogniser, the entry-point template and its
    rendering, the dependency list, the subprocess-based HTTP caller,
    the two deployment triggers and the [_publish] workflow itself.

    Conventions of the embedding.
    - A Python [str] is a [string]; each [ascii] stands for the code
      point of the same number, so the strings covered are those over
      the code points U+0000 .. U+00FF.
    - An optional argument ([None] or a value) is an [option]; Python's
      truth test on it is [truthy].
    - The outside world (the staging collaborator of datasette, the
      installed binaries, the exit status and output of the processes
      that are started, the resolution of paths) is an [env] of
      oracles.  A computation takes a [world] (the files of the
      current directory and the directories that exist elsewhere) to
      an [out]: the events it emitted in order (echoes, file writes,
      process invocations), the world it left, and its value or the
      exception it raised.  Failures of the file system other than the
      ones the code tests for are not modelled.  The temporary body
      file of the HTTP caller lives outside this world: its name and
      what is read from it are oracles, and its creation and removal
      are not events.
    - [Setting.convert] takes datasette's registry of settings and its
      reading of booleans as arguments.
    - [Wide] gives the rendering of the entry point once more, over
      strings of arbitrary code points, and the way Python reads the
      string literals of the entry point.
    - The definitions come first, the section "Properties" holds the
      lemmas and the theorems. *)

From Stdlib Require Import String Ascii List ZArith NArith Lia Bool.
From Stdlib Require Import Decimal DecimalString DecimalZ DecimalPos.
From stdpp Require Import gmap strings.

(** ** Python built-ins on [str] *)

Module Py.

(** The double quote and the backslash, named once. *)
Definition DQ : ascii := "034"%char.
Definition BS : ascii := "092"%char.
Definition NL : ascii := "010"%char.

Definition str1 (c : ascii) : string := String c EmptyString.

(** [x or ""] for an argument that may be [None]. *)
Definition or_empty (x : option string) : string :=
  match x with
  | Some s => s
  | None => EmptyString
  end.

(** Truth value of an optional string: [None] and the empty string are
    false, every other string is true. *)
Definition truthy (x : option string) : bool :=
  match x with
  | Some (String _ _) => true
  | _ => false
  end.

(** [c.isspace()] on the code points below 256: TAB..CR, FS..US, the
    space, NEL (U+0085) and the no-break space (U+00A0). *)
Definition isspace (c : ascii) : bool :=
  let n := N_of_ascii c in
  ((9 <=? n) && (n <=? 13) || (28 <=? n) && (n <=? 32)
   || (n =? 133) || (n =? 160))%N.

(** [c.lower()] on the code points below 256: A..Z and the accented
    capitals U+00C0 .. U+00DE (the multiplication sign U+00D7 apart)
    move up by 32. *)
Definition lower_char (c : ascii) : ascii :=
  let n := N_of_ascii c in
  if ((65 <=? n) && (n <=? 90)
      || (192 <=? n) && (n <=? 222) && negb (n =? 215))%N
  then ascii_of_N (n + 32) else c.

Fixpoint lower (s : string) : string :=
  match s with
  | EmptyString => EmptyString
  | String c r => String (lower_char c) (lower r)
  end.

Definition is_empty (s : string) : bool :=
  match s with
  | EmptyString => true
  | String _ _ => false
  end.

(** [s.lstrip(...)] and [s.rstrip(...)] for a set of characters given
    as a predicate. *)
Fixpoint lstrip_by (p : ascii -> bool) (s : string) : string :=
  match s with
  | EmptyString => EmptyString
  | String c r => if p c then lstrip_by p r else s
  end.

Fixpoint rstrip_by (p : ascii -> bool) (s : string) : string :=
  match s with
  | EmptyString => EmptyString
  | String c r =>
      let r' := rstrip_by p r in
      if p c && is_empty r' then EmptyString else String c r'
  end.

(** [s.strip()] *)
Definition strip (s : string) : string :=
  rstrip_by isspace (lstrip_by isspace s).

(** [s.rstrip("/")] *)
Definition rstrip_slash (s : string) : string :=
  rstrip_by (Ascii.eqb "/") s.

(** [s.startswith(p)] *)
Definition startswith (s p : string) : bool := String.prefix p s.

(** [s[i:j]] for [0 <= i <= j]. *)
Definition slice (s : string) (i j : nat) : string :=
  String.substring i (j - i) s.

(** [x in (a, b, ...)] for strings. *)
Definition str_in (x : string) (l : list string) : bool :=
  existsb (String.eqb x) l.

(** [sep.join(l)] *)
Fixpoint join (sep : string) (l : list string) : string :=
  match l with
  | [] => EmptyString
  | [x] => x
  | x :: r => x +:+ sep +:+ join sep r
  end.

(** [str(n)] for an integer. *)
Definition str_of_int (z : Z) : string :=
  NilZero.string_of_int (Z.to_int z).

Definition is_digit (c : ascii) : bool :=
  let n := N_of_ascii c in ((48 <=? n) && (n <=? 57))%N.

Definition digit_value (c : ascii) : Z := Z.of_N (N_of_ascii c) - 48.

(** The digits of [int(s)]: decimal digits, with single underscores
    allowed between two digits.  [after_digit] tells whether the
    previous character was a digit. *)
Fixpoint int_digits (acc : Z) (after_digit : bool) (s : string) : option Z :=
  match s with
  | EmptyString => if after_digit then Some acc else None
  | String c r =>
      if is_digit c then int_digits (10 * acc + digit_value c) true r
      else if Ascii.eqb c "_" && after_digit then int_digits acc false r
      else None
  end.

(** [int(s)]: [None] stands for [ValueError]. *)
Definition int_of_str (s : string) : option Z :=
  match strip s with
  | String c r =>
      if Ascii.eqb c "-" then Z.opp <$> int_digits 0 false r
      else if Ascii.eqb c "+" then int_digits 0 false r
      else int_digits 0 false (String c r)
  | EmptyString => None
  end.

(** [os.path.split(p)[-1]]: what follows the last slash of [p]. *)
Fixpoint last_component (cur : string) (p : string) : string :=
  match p with
  | EmptyString => cur
  | String c r =>
      if Ascii.eqb c "/" then last_component EmptyString r
      else last_component (cur +:+ str1 c) r
  end.

Definition basename (p : string) : string := last_component EmptyString p.

(** Keyword arguments of [str.format]. *)
Fixpoint kwarg (name : string) (kw : list (string * string)) : option string :=
  match kw with
  | [] => None
  | (k, v) :: r => if String.eqb k name then Some v else kwarg name r
  end.

(** [t.format(k1=v1, ...)] for a template whose replacement fields are
    plain keyword names; [{{] and [}}] are the escaped braces.  [field] is
    the name read so far inside an open replacement field.  [None]
    stands for the [KeyError] or [ValueError] that [format] raises. *)
Fixpoint format_from (kw : list (string * string)) (field : option string)
    (t : string) {struct t} : option string :=
  match t with
  | EmptyString =>
      match field with
      | None => Some EmptyString
      | Some _ => None
      end
  | String c r =>
      match field with
      | Some name =>
          if Ascii.eqb c "}" then
            match kwarg name kw with
            | Some v => String.append v <$> format_from kw None r
            | None => None
            end
          else format_from kw (Some (name +:+ str1 c)) r
      | None =>
          if Ascii.eqb c "{" then
            match r with
            | String d r' =>
                if Ascii.eqb d "{" then String d <$> format_from kw None r'
                else format_from kw (Some EmptyString) r
            | EmptyString => None
            end
          else if Ascii.eqb c "}" then
            match r with
            | String d r' =>
                if Ascii.eqb d "}" then String d <$> format_from kw None r'
                else None
            | EmptyString => None
            end
          else String c <$> format_from kw None r
      end
  end.

Definition format (t : string) (kw : list (string * string)) : option string :=
  format_from kw None t.

(** A text given line by line. *)
Definition text_of_lines (ls : list string) : string := join (str1 NL) ls.

End Py.

Import Py.

(** ** The requirement recogniser *)

(** [_looks_like_datasette_requirement(req)] *)
Definition _looks_like_datasette_requirement (req : option string) : bool :=
  let req := lower (strip (or_empty req)) in
  if negb (startswith req "datasette") then false
  else if String.eqb req "datasette" then true
  else
    let next_ch := slice req (String.length "datasette")
                             (String.length "datasette" + 1) in
    str_in next_ch ["="; "<"; ">"; "!"; "~"; "["; " "].

(** The characters that may follow the framework name. *)
Definition follow_chars : list ascii :=
  ["="; "<"; ">"; "!"; "~"; "["; " "]%char.

(** The recognition rule in the words of the specification, on the
    requirement string as it is given. *)
Definition spec_recognized (req : string) : Prop :=
  req = "datasette"
  \/ exists c rest, req = "datasette" +:+ String c rest /\ In c follow_chars.

(** ** Python dictionaries and [json.dumps] *)

Module Json.

(** The values the plugin serialises: a setting is a boolean, an
    integer or a string; the deploy payload holds a string. *)
Inductive value :=
| VBool (b : bool)
| VInt (z : Z)
| VStr (s : string).

(** A [dict] with string keys, in insertion order. *)
Fixpoint dict_set (d : list (string * value)) (k : string) (v : value)
    : list (string * value) :=
  match d with
  | [] => [(k, v)]
  | (k', v') :: r =>
      if String.eqb k' k then (k', v) :: r else (k', v') :: dict_set r k v
  end.

Fixpoint dict_get (d : list (string * value)) (k : string) : option value :=
  match d with
  | [] => None
  | (k', v) :: r => if String.eqb k' k then Some v else dict_get r k
  end.

(** [dict(pairs)]: the pairs are inserted from left to right. *)
Definition dict (pairs : list (string * value)) : list (string * value) :=
  fold_left (fun d kv => dict_set d (fst kv) (snd kv)) pairs [].

(** The value that a sequence of pairs gives last to a key. *)
Definition last_value (pairs : list (string * value)) (k : string)
    : option value :=
  fold_left (fun o kv => if String.eqb (fst kv) k then Some (snd kv) else o)
    pairs None.

Definition hex_digit (n : N) : ascii :=
  if (n <? 10)%N then ascii_of_N (48 + n) else ascii_of_N (87 + n).

(** ['\\u{0:04x}'.format(n)] for [n < 256]. *)
Definition u_escape (n : N) : string :=
  String BS (String "u" (String "0" (String "0"
    (String (hex_digit (n / 16)) (str1 (hex_digit (n mod 16))))))).

(** The replacement of one character in [encode_basestring_ascii]
    ([ensure_ascii] is on by default): the quote, the backslash and
    everything outside [' '..'~'] are escaped. *)
Definition escape_char (c : ascii) : string :=
  let n := N_of_ascii c in
  if (n =? 34)%N then String BS (str1 DQ)
  else if (n =? 92)%N then String BS (str1 BS)
  else if (n =? 8)%N then "\b"
  else if (n =? 12)%N then "\f"
  else if (n =? 10)%N then "\n"
  else if (n =? 13)%N then "\r"
  else if (n =? 9)%N then "\t"
  else if ((32 <=? n) && (n <=? 126))%N then str1 c
  else u_escape n.

Fixpoint escape (s : string) : string :=
  match s with
  | EmptyString => EmptyString
  | String c r => escape_char c +:+ escape r
  end.

(** [json.dumps(s)] for a string. *)
Definition dumps_str (s : string) : string :=
  String DQ (escape s +:+ str1 DQ).

(** [json.dumps(v)] for a value. *)
Definition dumps_value (v : value) : string :=
  match v with
  | VBool true => "true"
  | VBool false => "false"
  | VInt z => str_of_int z
  | VStr s => dumps_str s
  end.

(** [json.dumps(l)] for a list of strings. *)
Definition dumps_list (l : list string) : string :=
  "[" +:+ join ", " (map dumps_str l) +:+ "]".

Definition dumps_item (kv : string * value) : string :=
  dumps_str (fst kv) +:+ ": " +:+ dumps_value (snd kv).

(** [json.dumps(d)] for a dictionary. *)
Definition dumps_dict (d : list (string * value)) : string :=
  "{" +:+ join ", " (map dumps_item d) +:+ "}".

End Json.

Import Json.

(** ** The templates *)

Definition q : string := str1 DQ.

Definition INDEX_PY_lines : list string :=
  [ EmptyString;
    "from datasette.app import Datasette";
    "import json";
    "import pathlib";
    "import os";
    EmptyString;
    "static_mounts = [";
    "    (static, str((pathlib.Path(" +:+ q +:+ "." +:+ q +:+ ") / static).resolve()))";
    "    for static in {statics}";
    "]";
    EmptyString;
    "metadata = dict()";
    "try:";
    "    metadata = json.load(open(" +:+ q +:+ "metadata.json" +:+ q +:+ "))";
    "except Exception:";
    "    pass";
    EmptyString;
    "secret = os.environ.get(" +:+ q +:+ "DATASETTE_SECRET" +:+ q +:+ ")";
    EmptyString;
    "true, false = True, False";
    EmptyString;
    "ds = Datasette(";
    "    [],";
    "    {database_files},";
    "    static_mounts=static_mounts,";
    "    metadata=metadata{extras},";
    "    secret=secret,";
    "    cors=True,";
    "    settings={settings}{crossdb}";
    ")";
    "app = ds.app()";
    EmptyString ].

Definition INDEX_PY : string := strip (text_of_lines INDEX_PY_lines).

Definition DOCKERFILE_lines : list string :=
  [ EmptyString;
    "FROM python:3.12-slim";
    EmptyString;
    "WORKDIR /app";
    EmptyString;
    "COPY requirements.txt ./";
    "RUN pip install --no-cache-dir -r requirements.txt";
    EmptyString;
    "COPY . .";
    EmptyString;
    "ENV PORT=8001";
    "EXPOSE 8001";
    EmptyString;
    "CMD [" +:+ q +:+ "uvicorn" +:+ q +:+ ", " +:+ q +:+ "index:app" +:+ q
      +:+ ", " +:+ q +:+ "--host" +:+ q +:+ ", " +:+ q +:+ "0.0.0.0" +:+ q
      +:+ ", " +:+ q +:+ "--port" +:+ q +:+ ", " +:+ q +:+ "8001" +:+ q +:+ "]";
    EmptyString ].

Definition DOCKERFILE : string :=
  strip (text_of_lines DOCKERFILE_lines) +:+ str1 NL.

Definition github_actions_workflow : string :=
  text_of_lines
  [ "name: Deploy Datasette to Dokploy";
    EmptyString;
    "on:";
    "  push:";
    "    branches: [main]";
    "  workflow_dispatch:";
    EmptyString;
    "permissions:";
    "  contents: read";
    "  packages: write";
    EmptyString;
    "jobs:";
    "  deploy:";
    "    runs-on: ubuntu-latest";
    "    steps:";
    "      - name: Checkout";
    "        uses: actions/checkout@v4";
    EmptyString;
    "      - name: Log in to GHCR";
    "        uses: docker/login-action@v3";
    "        with:";
    "          registry: ghcr.io";
    "          username: ${{ github.actor }}";
    "          password: ${{ secrets.GITHUB_TOKEN }}";
    EmptyString;
    "      - name: Build and push image";
    "        uses: docker/build-push-action@v6";
    "        with:";
    "          context: .";
    "          push: true";
    "          tags: ghcr.io/${{ github.repository }}:latest";
    EmptyString;
    "      - name: Trigger Dokploy deployment";
    "        uses: benbristow/dokploy-deploy-action@0.0.1";
    "        with:";
    "          auth_token: ${{ secrets.DOKPLOY_AUTH_TOKEN }}";
    "          application_id: ${{ secrets.DOKPLOY_APPLICATION_ID }}";
    "          dokploy_url: ${{ secrets.DOKPLOY_URL }}";
    EmptyString ].

(** ** Rendering the entry point *)

(** The [extras] list of [_publish]. *)
Definition extras_of (template_dir plugins_dir : option string) : list string :=
  (if truthy template_dir then ["template_dir=" +:+ q +:+ "templates" +:+ q]
   else [])
  ++ (if truthy plugins_dir then ["plugins_dir=" +:+ q +:+ "plugins" +:+ q]
      else []).

(** The text that [_publish] writes to [index.py]: the call of
    [INDEX_PY.format]. *)
Definition render_index (files : list string) (static : list (string * string))
    (settings : list (string * value)) (template_dir plugins_dir : option string)
    (crossdb : bool) : option string :=
  let extras := extras_of template_dir plugins_dir in
  let statics := map fst static in
  format INDEX_PY
    [ ("database_files", dumps_list (map basename files));
      ("extras", match extras with
                 | [] => EmptyString
                 | _ => ", " +:+ join ", " extras
                 end);
      ("statics", dumps_list statics);
      ("settings", dumps_dict (dict settings));
      ("crossdb", if crossdb then "," +:+ str1 NL +:+ "    crossdb=True"
                  else EmptyString) ].

(** ** The entry point, field by field

    The text that [INDEX_PY.format] produces, written around the five
    values it inserts. *)

Definition entry_tail3 (crossdb : string) : string :=
  crossdb
  +:+ text_of_lines
        [ EmptyString;
          ")";
          "app = ds.app()" ].

Definition entry_tail2 (extras settings crossdb : string) : string :=
  text_of_lines
    [ ",";
      "    static_mounts=static_mounts,";
      "    metadata=metadata" ]
  +:+ extras
  +:+ text_of_lines
        [ ",";
          "    secret=secret,";
          "    cors=True,";
          "    settings=" ]
  +:+ settings
  +:+ entry_tail3 crossdb.

Definition entry_tail1 (database_files extras settings crossdb : string)
    : string :=
  text_of_lines
    [ EmptyString;
      "]";
      EmptyString;
      "metadata = dict()";
      "try:";
      "    metadata = json.load(open(" +:+ q +:+ "metadata.json" +:+ q +:+ "))";
      "except Exception:";
      "    pass";
      EmptyString;
      "secret = os.environ.get(" +:+ q +:+ "DATASETTE_SECRET" +:+ q +:+ ")";
      EmptyString;
      "true, false = True, False";
      EmptyString;
      "ds = Datasette(";
      "    [],";
      "    " ]
  +:+ database_files
  +:+ entry_tail2 extras settings crossdb.

Definition entry_text (statics database_files extras settings crossdb : string)
    : string :=
  text_of_lines
    [ "from datasette.app import Datasette";
      "import json";
      "import pathlib";
      "import os";
      EmptyString;
      "static_mounts = [";
      "    (static, str((pathlib.Path(" +:+ q +:+ "." +:+ q +:+ ") / static).resolve()))";
      "    for static in " ]
  +:+ statics
  +:+ entry_tail1 database_files extras settings crossdb.

(** The [extras] and [crossdb] arguments of the [format] call. *)
Definition extras_text (template_dir plugins_dir : option string) : string :=
  match extras_of template_dir plugins_dir with
  | [] => EmptyString
  | _ => ", " +:+ join ", " (extras_of template_dir plugins_dir)
  end.

Definition crossdb_text (crossdb : bool) : string :=
  if crossdb then "," +:+ str1 NL +:+ "    crossdb=True" else EmptyString.

(** ** The world of a run *)

(** The exceptions that end a run. *)
Inductive exn :=
| ClickException (message : string)
    (* click.ClickException(message) *)
| ClickException_of_CalledProcessError (cmd : list string) (returncode : Z)
    (* click.ClickException(str(ex)) for the CalledProcessError ex *)
| SystemExit (code : Z)
| FileExistsError (path : string)
| FormatError
    (* the KeyError or ValueError of str.format *)
| CollaboratorError (what : string).
    (* whatever temporary_docker_directory raised *)

Inductive result (A : Type) :=
| Ok (a : A)
| Raise (e : exn).
Arguments Ok {A} a.
Arguments Raise {A} e.

(** How [subprocess.run] is called: [check=True], or
    [capture_output=True, text=True]. *)
Inductive run_mode := Check | Capture.

(** What a run does that can be observed from outside. *)
Inductive event :=
| Echo (err : bool) (text : string)
| Write (name content : string)
| Remove (name : string)
| CopyTree (dst : string)
| Run (cmd : list string) (mode : run_mode).

(** The files of the current directory (name to content) and the
    directories that exist elsewhere (absolute path to files). *)
Record world := World {
  cwd : gmap string string;
  disk : gmap string (gmap string string)
}.

(** A finished process. *)
Record completed := Completed {
  returncode : Z;
  stdout : option string;
  stderr : option string
}.

(** The arguments [_publish] hands to [temporary_docker_directory]. *)
Module Tdd.
Record args := Args {
  files : list string;
  name : string;
  metadata : option string;
  extra_options : option string;
  branch : option string;
  template_dir : option string;
  plugins_dir : option string;
  static : list (string * string);
  install : list string;
  spatialite : bool;
  version_note : option string;
  secret : option string;
  extra_metadata : list (string * option string);
  port : Z
}.
End Tdd.

(** The collaborators of the plugin, as oracles. *)
Record env := Env {
  (* str(pathlib.Path(p).resolve()) *)
  resolve : string -> string;
  (* datasette.utils.temporary_docker_directory: the exception it
     raises, or the files of the directory it stages and enters *)
  temporary_docker_directory : Tdd.args -> exn + gmap string string;
  (* shutil.which(binary) finds the binary *)
  which : string -> bool;
  (* what subprocess.run(cmd, ...) returns *)
  run : list string -> completed;
  (* tempfile.NamedTemporaryFile(delete=False).name *)
  body_file_name : string;
  (* what reading the body file gives once cmd has run; None when
     the read raises *)
  read_body_file : list string -> option string
}.

(** The outcome of a computation: the events in order, the world left
    behind and the value returned or the exception raised. *)
Record out (A : Type) := Out {
  events : list event;
  final : world;
  res : result A
}.
Arguments Out {A} events final res.
Arguments events {A} o.
Arguments final {A} o.
Arguments res {A} o.

Definition M (A : Type) : Type := world -> out A.

Definition ret {A} (a : A) : M A := fun w => Out [] w (Ok a).

Definition raise {A} (e : exn) : M A := fun w => Out [] w (Raise e).

Definition bind {A B} (m : M A) (k : A -> M B) : M B := fun w =>
  let o := m w in
  match res o with
  | Ok a =>
      let o' := k a (final o) in
      Out (events o ++ events o') (final o') (res o')
  | Raise e => Out (events o) (final o) (Raise e)
  end.

Notation "'let*' x ':=' m 'in' k" := (bind m (fun x => k))
  (at level 10, x name, m at level 100, k at level 200).
Notation "m '>>' k" := (bind m (fun _ => k))
  (at level 100, k at level 200, right associativity).

Definition emit (ev : event) : M unit := fun w => Out [ev] w (Ok tt).

(** [click.echo(text, err=err)] *)
Definition echo (text : string) (err : bool) : M unit := emit (Echo err text).

(** [os.path.exists(name)] for a file of the current directory. *)
Definition path_exists (name : string) : M bool := fun w =>
  Out [] w (Ok (bool_decide (is_Some (cwd w !! name)))).

(** [os.remove(name)] *)
Definition remove (name : string) : M unit := fun w =>
  Out [Remove name] (World (delete name (cwd w)) (disk w)) (Ok tt).

(** [open(name, "w").write(content)] *)
Definition write (name content : string) : M unit := fun w =>
  Out [Write name content] (World (<[name := content]> (cwd w)) (disk w))
    (Ok tt).

(** [shutil.copytree(".", dst)]: the destination must not exist. *)
Definition copytree (dst : string) : M unit := fun w =>
  match disk w !! dst with
  | Some _ => Out [] w (Raise (FileExistsError dst))
  | None =>
      Out [CopyTree dst] (World (cwd w) (<[dst := cwd w]> (disk w))) (Ok tt)
  end.

(** [run(cmd, check=True)]: a non-zero exit status raises
    [CalledProcessError], which [_publish] turns into a
    [ClickException]. *)
Definition run_check (e : env) (cmd : list string) : M unit :=
  emit (Run cmd Check) >>
  if (returncode (run e cmd) =? 0)%Z then ret tt
  else raise (ClickException_of_CalledProcessError cmd (returncode (run e cmd))).

(** [run(cmd, capture_output=True, text=True)] *)
Definition run_capture (e : env) (cmd : list string) : M completed :=
  emit (Run cmd Capture) >> ret (run e cmd).

(** [with temporary_docker_directory(...): body]: the body runs in the
    staged directory; the previous directory is restored on every way
    out.  The staged directory is a map of its own.  datasette stages
    a file by hard link where it can, so that a write through a staged
    name can reach the file it was staged from: this is not modelled.
    The [cwd] that a run leaves behind is the one it started with by
    this very definition, so nothing about the files the run was
    given can be read off it. *)
Definition with_temporary_docker_directory {A} (e : env) (a : Tdd.args)
    (body : M A) : M A := fun w =>
  match temporary_docker_directory e a with
  | inl x => Out [] w (Raise x)
  | inr staged =>
      let o := body (World staged (disk w)) in
      Out (events o) (World (cwd w) (disk (final o))) (res o)
  end.

(** [datasette.publish.common.fail_if_publish_binary_not_installed] *)
Definition fail_if_publish_binary_not_installed (e : env)
    (binary publish_target install_link : string) : M unit :=
  if which e binary then ret tt
  else
    echo ("Publishing to " +:+ publish_target +:+ " requires " +:+ binary
          +:+ " to be installed and configured") true >>
    echo ("Follow the instructions at " +:+ install_link) true >>
    raise (SystemExit 1).

(** ** The HTTP caller and the two triggers *)

(** [_curl_check(url, method, headers, data)] *)
Definition _curl_check (e : env) (url method : string) (headers : list string)
    (data : option string) : M string :=
  let cmd :=
    [ "curl"; "-sS"; "-X"; method; url; "-o"; body_file_name e;
      "-w"; "%{http_code}" ]
    ++ flat_map (fun header => ["-H"; header]) headers
    ++ match data with
       | Some d => ["-d"; d]
       | None => []
       end in
  let* result := run_capture e cmd in
  let stdout := strip (or_empty (stdout result)) in
  let stderr := strip (or_empty (stderr result)) in
  let status :=
    if is_empty stdout then 0%Z
    else match int_of_str stdout with
         | Some n => n
         | None => 0%Z
         end in
  let body :=
    match read_body_file e cmd with
    | Some b => b
    | None => EmptyString
    end in
  if negb (returncode result =? 0)%Z then
    raise (ClickException
             (if is_empty stderr
              then "curl failed with code " +:+ str_of_int (returncode result)
              else stderr))
  else if ((status <? 200) || (300 <=? status))%Z then
    let msg := if is_empty (strip body) then "(empty response body)"
               else strip body in
    raise (ClickException ("HTTP " +:+ str_of_int status +:+ ": " +:+ msg))
  else ret body.

(** [_trigger_dokploy(dokploy_url, application_id, api_key)] *)
Definition _trigger_dokploy (e : env) (dokploy_url application_id api_key : string)
    : M unit :=
  let url := rstrip_slash dokploy_url +:+ "/api/application.deploy" in
  let payload := dumps_dict (dict [("applicationId", VStr application_id)]) in
  _curl_check e url "POST"
    [ "x-api-key: " +:+ api_key;
      "accept: application/json";
      "content-type: application/json" ]
    (Some payload) >>
  ret tt.

(** [_trigger_webhook(deploy_url, token)] *)
Definition _trigger_webhook (e : env) (deploy_url : string) (token : option string)
    : M unit :=
  let headers :=
    if truthy token then ["Authorization: Bearer " +:+ or_empty token] else [] in
  _curl_check e deploy_url "POST" headers None >>
  ret tt.

(** ** The publish workflow *)

(** The arguments of [_publish]. *)
Record publish_args := PublishArgs {
  files : list string;
  metadata : option string;
  extra_options : option string;
  branch : option string;
  template_dir : option string;
  plugins_dir : option string;
  static : list (string * string);
  install : list string;
  plugin_secret : option string;
  version_note : option string;
  secret : option string;
  title : option string;
  license : option string;
  license_url : option string;
  source : option string;
  source_url : option string;
  about : option string;
  about_url : option string;
  image : option string;
  generate_dir : option string;
  generate_github_actions : bool;
  dokploy_url : option string;
  application_id : option string;
  api_key : option string;
  deploy_url : option string;
  token : option string;
  settings : list (string * value);
  crossdb : bool
}.

Definition conflict_message : string :=
  "Cannot use --branch and --install datasette... at the same time".

Definition image_required_message : string :=
  "--image is required for direct deployment. Use --generate-dir to export files instead.".

(** What [_publish] hands to the staging collaborator. *)
Definition staging_args (a : publish_args) : Tdd.args :=
  let extra_metadata :=
    [ ("title", title a);
      ("license", license a);
      ("license_url", license_url a);
      ("source", source a);
      ("source_url", source_url a);
      ("about", about a);
      ("about_url", about_url a) ] in
  Tdd.Args (files a) "datasette-dokploy" (metadata a) (extra_options a)
    (branch a) (template_dir a) (plugins_dir a) (static a) (install a)
    false (version_note a) (secret a) extra_metadata 8001.

(** [_publish(files, ..., crossdb)] *)
Definition _publish (e : env) (a : publish_args) : M unit :=
  let generate_dir :=
    if truthy (generate_dir a)
    then Some (resolve e (or_empty (generate_dir a)))
    else generate_dir a in
  if generate_github_actions a then
    echo (rstrip_by isspace github_actions_workflow) false
  else
    with_temporary_docker_directory e (staging_args a) (
      (let* there := path_exists "Dockerfile" in
       if there then remove "Dockerfile" else ret tt) >>
      write "Dockerfile" DOCKERFILE >>
      (match render_index (files a) (static a) (settings a)
               (template_dir a) (plugins_dir a) (crossdb a) with
       | Some text => write "index.py" text
       | None => raise FormatError
       end) >>
      let install := install a in
      let datasette_from_install :=
        find (fun req => _looks_like_datasette_requirement (Some req)) install in
      if truthy datasette_from_install && truthy (branch a) then
        raise (ClickException conflict_message)
      else
        let datasette_install :=
          if truthy datasette_from_install then or_empty datasette_from_install
          else "datasette" in
        let datasette_install :=
          if truthy (branch a) && negb (truthy datasette_from_install)
          then "https://github.com/simonw/datasette/archive/"
                 +:+ or_empty (branch a) +:+ ".zip"
          else datasette_install in
        let install :=
          if truthy datasette_from_install
          then List.filter
                 (fun req => negb (_looks_like_datasette_requirement (Some req)))
                 install
          else install in
        write "requirements.txt"
          (join (str1 NL)
             ([datasette_install; "pysqlite3-binary"; "uvicorn"] ++ install)) >>
        if truthy generate_dir then
          copytree (or_empty generate_dir) >>
          echo "Your generated application files have been written to:" true >>
          echo ("    " +:+ or_empty generate_dir +:+ str1 NL) true >>
          echo "To deploy from GitHub Actions:" true >>
          echo "1. Commit and push these files" true >>
          echo "2. Run: datasette publish dokploy --generate-github-actions > .github/workflows/deploy-datasette.yml" true
        else if negb (truthy (image a)) then
          raise (ClickException image_required_message)
        else
          fail_if_publish_binary_not_installed e "docker" "Docker"
            "https://docs.docker.com/get-docker/" >>
          fail_if_publish_binary_not_installed e "curl" "curl"
            "https://curl.se/" >>
          run_check e ["docker"; "build"; "-t"; or_empty (image a); "."] >>
          run_check e ["docker"; "push"; or_empty (image a)] >>
          if truthy (dokploy_url a) && truthy (application_id a)
             && truthy (api_key a)
          then _trigger_dokploy e (or_empty (dokploy_url a))
                 (or_empty (application_id a)) (or_empty (api_key a))
          else if truthy (deploy_url a)
          then _trigger_webhook e (or_empty (deploy_url a)) (token a)
          else ret tt).

(** ** Reading an entry point back

    The reader of the literals that an entry point embeds: a list of
    string literals, and a dictionary display whose values are [true],
    [false], integers and string literals.  It is the reference the
    round trip is measured against; every function returns what it
    read together with the text that follows. *)

Module Reparse.

Definition is_blank (c : ascii) : bool :=
  let n := N_of_ascii c in
  ((n =? 32) || (n =? 9) || (n =? 10) || (n =? 13))%N.

Definition skip_blanks (s : string) : string := lstrip_by is_blank s.

Fixpoint strip_prefix (p s : string) : option string :=
  match p with
  | EmptyString => Some s
  | String c p' =>
      match s with
      | String d s' => if Ascii.eqb c d then strip_prefix p' s' else None
      | EmptyString => None
      end
  end.

(** What follows the first occurrence of [marker]. *)
Fixpoint find_after (marker s : string) : option string :=
  match strip_prefix marker s with
  | Some r => Some r
  | None =>
      match s with
      | EmptyString => None
      | String _ r => find_after marker r
      end
  end.

Definition hex_value (c : ascii) : option N :=
  let n := N_of_ascii c in
  if ((48 <=? n) && (n <=? 57))%N then Some (n - 48)%N
  else if ((97 <=? n) && (n <=? 102))%N then Some (n - 87)%N
  else if ((65 <=? n) && (n <=? 70))%N then Some (n - 55)%N
  else None.

(** The character a two-character escape stands for. *)
Definition unescape (c : ascii) : option ascii :=
  let n := N_of_ascii c in
  if (n =? 34)%N then Some DQ
  else if (n =? 92)%N then Some BS
  else if (n =? 47)%N then Some "/"%char
  else if (n =? 98)%N then Some "008"%char
  else if (n =? 102)%N then Some "012"%char
  else if (n =? 110)%N then Some "010"%char
  else if (n =? 114)%N then Some "013"%char
  else if (n =? 116)%N then Some "009"%char
  else None.

Definition cons_char (c : ascii) (x : option (string * string))
    : option (string * string) :=
  match x with
  | Some (s, r) => Some (String c s, r)
  | None => None
  end.

(** A string literal after its opening quote.  Raw control characters
    are refused; a [\uXXXX] escape must name a code point below 256. *)
Fixpoint string_body (s : string) : option (string * string) :=
  match s with
  | EmptyString => None
  | String c r =>
      if Ascii.eqb c DQ then Some (EmptyString, r)
      else if Ascii.eqb c BS then
        match r with
        | String x r1 =>
            if Ascii.eqb x "u" then
              match r1 with
              | String h1 (String h2 (String h3 (String h4 r2))) =>
                  match hex_value h1, hex_value h2, hex_value h3, hex_value h4 with
                  | Some a, Some b, Some c, Some d =>
                      let n := (((a * 16 + b) * 16 + c) * 16 + d)%N in
                      if (n <? 256)%N
                      then cons_char (ascii_of_N n) (string_body r2)
                      else None
                  | _, _, _, _ => None
                  end
              | _ => None
              end
            else
              match unescape x with
              | Some c' => cons_char c' (string_body r1)
              | None => None
              end
        | EmptyString => None
        end
      else if (N_of_ascii c <? 32)%N then None
      else cons_char c (string_body r)
  end.

Definition string_literal (s : string) : option (string * string) :=
  match s with
  | String c r => if Ascii.eqb c DQ then string_body r else None
  | EmptyString => None
  end.

(** The items of a list after its opening bracket, the list being
    non-empty.  Each item uses up one unit of [fuel]. *)
Fixpoint str_items (fuel : nat) (s : string) : option (list string * string) :=
  match fuel with
  | O => None
  | S fuel =>
      match string_literal (skip_blanks s) with
      | Some (x, r) =>
          match skip_blanks r with
          | String c r' =>
              if Ascii.eqb c "," then
                match str_items fuel r' with
                | Some (xs, r'') => Some (x :: xs, r'')
                | None => None
                end
              else if Ascii.eqb c "]" then Some ([x], r')
              else None
          | EmptyString => None
          end
      | None => None
      end
  end.

(** A list of string literals.  The length of the text is fuel enough:
    every item takes at least two characters. *)
Definition str_list (s : string) : option (list string * string) :=
  match skip_blanks s with
  | String c r =>
      if Ascii.eqb c "[" then
        match skip_blanks r with
        | String d r' =>
            if Ascii.eqb d "]" then Some ([], r')
            else str_items (String.length r) r
        | EmptyString => None
        end
      else None
  | EmptyString => None
  end.

(** The longest run of decimal digits at the head of a text. *)
Fixpoint span_digits (s : string) : string * string :=
  match s with
  | EmptyString => (EmptyString, EmptyString)
  | String c r =>
      if is_digit c then
        let (ds, rest) := span_digits r in (String c ds, rest)
      else (EmptyString, s)
  end.

(** A text that does not go on with a digit. *)
Definition no_digit_ahead (s : string) : bool :=
  match s with
  | String c _ => negb (is_digit c)
  | EmptyString => true
  end.

(** An integer literal: an optional minus sign and a run of digits. *)
Definition number (s : string) : option (Z * string) :=
  match s with
  | String c r =>
      if Ascii.eqb c "-" then
        let (ds, rest) := span_digits r in
        match NilZero.uint_of_string ds with
        | Some u => Some (Z.of_int (Neg u), rest)
        | None => None
        end
      else
        let (ds, rest) := span_digits s in
        match NilZero.uint_of_string ds with
        | Some u => Some (Z.of_int (Pos u), rest)
        | None => None
        end
  | EmptyString => None
  end.

(** A value: a string literal, [true], [false] or an integer. *)
Definition value_literal (s : string) : option (value * string) :=
  match string_literal s with
  | Some (x, r) => Some (VStr x, r)
  | None =>
      match strip_prefix "true" s with
      | Some r => Some (VBool true, r)
      | None =>
          match strip_prefix "false" s with
          | Some r => Some (VBool false, r)
          | None =>
              match number s with
              | Some (z, r) => Some (VInt z, r)
              | None => None
              end
          end
      end
  end.

(** The items of a dictionary display after its opening brace. *)
Fixpoint dict_items (fuel : nat) (s : string)
    : option (list (string * value) * string) :=
  match fuel with
  | O => None
  | S fuel =>
      match string_literal (skip_blanks s) with
      | Some (k, r) =>
          match skip_blanks r with
          | String c r1 =>
              if Ascii.eqb c ":" then
                match value_literal (skip_blanks r1) with
                | Some (v, r2) =>
                    match skip_blanks r2 with
                    | String d r3 =>
                        if Ascii.eqb d "," then
                          match dict_items fuel r3 with
                          | Some (kvs, r4) => Some ((k, v) :: kvs, r4)
                          | None => None
                          end
                        else if Ascii.eqb d "}" then Some ([(k, v)], r3)
                        else None
                    | EmptyString => None
                    end
                | None => None
                end
              else None
          | EmptyString => None
          end
      | None => None
      end
  end.

(** A dictionary display; as in Python, a key given twice keeps its
    last value. *)
Definition dict_display (s : string)
    : option (list (string * value) * string) :=
  match skip_blanks s with
  | String c r =>
      if Ascii.eqb c "{" then
        match skip_blanks r with
        | String d r' =>
            if Ascii.eqb d "}" then Some ([], r')
            else
              match dict_items (String.length r) r with
              | Some (kvs, r'') => Some (dict kvs, r'')
              | None => None
              end
        | EmptyString => None
        end
      else None
  | EmptyString => None
  end.

(** The three literals of an entry point: what [static] ranges over,
    the second argument of [Datasette(...)] and its [settings]
    argument. *)
Definition entry_point (text : string)
    : option (list string * list string * list (string * value)) :=
  match find_after "for static in " text with
  | Some r0 =>
      match str_list r0 with
      | Some (statics, r1) =>
          match find_after ("ds = Datasette(" +:+ str1 NL +:+ "    [],") r1 with
          | Some r2 =>
              match str_list r2 with
              | Some (database_files, r3) =>
                  match find_after "settings=" r3 with
                  | Some r4 =>
                      match dict_display r4 with
                      | Some (settings, _) =>
                          Some (statics, database_files, settings)
                      | None => None
                      end
                  | None => None
                  end
              | None => None
              end
          | None => None
          end
      | None => None
      end
  | None => None
  end.

End Reparse.

(** ** Vocabulary of the statements about the HTTP caller *)

(** The command line that [_curl_check] builds. *)
Definition curl_command (e : env) (url method : string) (headers : list string)
    (data : option string) : list string :=
  [ "curl"; "-sS"; "-X"; method; url; "-o"; body_file_name e;
    "-w"; "%{http_code}" ]
  ++ flat_map (fun header => ["-H"; header]) headers
  ++ match data with
     | Some d => ["-d"; d]
     | None => []
     end.

(** What the client printed, stripped, on its two streams. *)
Definition client_output (p : completed) : string := strip (or_empty (stdout p)).
Definition client_diagnostic (p : completed) : string := strip (or_empty (stderr p)).

(** The status code read from the client's output: 0 when the output
    is empty or is not an integer. *)
Definition status_code (p : completed) : Z :=
  if is_empty (client_output p) then 0%Z
  else match int_of_str (client_output p) with
       | Some n => n
       | None => 0%Z
       end.

(** The response body: what the body file holds, nothing when it
    cannot be read. *)
Definition response_body (e : env) (cmd : list string) : string :=
  match read_body_file e cmd with
  | Some b => b
  | None => EmptyString
  end.

Definition in_2xx (status : Z) : bool := ((200 <=? status) && (status <? 300))%Z.

Definition empty_body_placeholder : string := "(empty response body)".

(** The text that follows [HTTP <status>: ] in an error. *)
Definition body_or_placeholder (body : string) : string :=
  if is_empty (strip body) then empty_body_placeholder else strip body.

(** C6 in the words of the specification, for one call: an error is
    raised exactly when the client fails or the status is outside
    [200,300); after a failed client the error text is its diagnostic
    output (taken up to surrounding white space); after a bad status
    the error text ends with the body or with the placeholder; a
    success returns the body. *)
Definition curl_check_as_specified (e : env) (url method : string)
    (headers : list string) (data : option string) (w : world) : Prop :=
  let cmd := curl_command e url method headers data in
  let p := run e cmd in
  let o := _curl_check e url method headers data w in
  ((exists x, res o = Raise x)
   <-> (returncode p <> 0%Z \/ in_2xx (status_code p) = false))
  /\ (returncode p <> 0%Z ->
      res o = Raise (ClickException (client_diagnostic p)))
  /\ (returncode p = 0%Z -> in_2xx (status_code p) = false ->
      exists prefix,
        res o = Raise (ClickException
                         (prefix +:+ body_or_placeholder (response_body e cmd))))
  /\ (returncode p = 0%Z -> in_2xx (status_code p) = true ->
      res o = Ok (response_body e cmd)).

(** A world with nothing in it, and an environment whose client always
    answers with the given process result and body. *)
Definition empty_world : world := World ∅ ∅.

Definition client_env (p : completed) (body : option string) : env :=
  Env (fun path => "/" +:+ path)
      (fun _ => inr ∅)
      (fun _ => true)
      (fun _ => p)
      "/tmp/body"
      (fun _ => body).

(** The command line of the API trigger. *)
Definition api_trigger_command (e : env) (dokploy_url application_id api_key : string)
    : list string :=
  [ "curl"; "-sS"; "-X"; "POST";
    rstrip_slash dokploy_url +:+ "/api/application.deploy";
    "-o"; body_file_name e; "-w"; "%{http_code}";
    "-H"; "x-api-key: " +:+ api_key;
    "-H"; "accept: application/json";
    "-H"; "content-type: application/json";
    "-d"; "{" +:+ q +:+ "applicationId" +:+ q +:+ ": "
            +:+ dumps_str application_id +:+ "}" ].

(** A string of slashes. *)
Fixpoint slashes (n : nat) : string :=
  match n with
  | O => EmptyString
  | S n => String "/" (slashes n)
  end.

(** The last character of a string is a slash. *)
Fixpoint ends_with_slash (s : string) : bool :=
  match s with
  | EmptyString => false
  | String c EmptyString => Ascii.eqb c "/"
  | String _ r => ends_with_slash r
  end.

(** ** Vocabulary of the statements about [_publish] *)

(** The first requirement of the install list that names the framework. *)
Definition framework_requirement (install : list string) : option string :=
  find (fun req => _looks_like_datasette_requirement (Some req)) install.

(** The install entries that do not name the framework. *)
Definition other_requirements (install : list string) : list string :=
  List.filter (fun req => negb (_looks_like_datasette_requirement (Some req)))
    install.

(** The events that start a process. *)
Definition is_run (ev : event) : bool :=
  match ev with
  | Run _ _ => true
  | _ => false
  end.

(** The events that start the given program. *)
Definition invokes (prog : string) (ev : event) : bool :=
  match ev with
  | Run (p :: _) _ => String.eqb p prog
  | _ => false
  end.

(** The content written to the file [name], write by write. *)
Definition written (name : string) (evs : list event) : list string :=
  flat_map (fun ev => match ev with
                      | Write n c => if String.eqb n name then [c] else []
                      | _ => []
                      end) evs.

(** The events of [_publish] before the dependency list is settled:
    the build recipe is replaced and the entry point written. *)
Definition artifact_events (staged : gmap string string) (text : string)
    : list event :=
  (if bool_decide (is_Some (staged !! "Dockerfile"))
   then [Remove "Dockerfile"] else [])
  ++ [Write "Dockerfile" DOCKERFILE; Write "index.py" text].

(** The entry point of a run. *)
Definition entry_point_of (a : publish_args) : string :=
  entry_text (dumps_list (map fst (static a)))
    (dumps_list (map basename (files a)))
    (extras_text (template_dir a) (plugins_dir a))
    (dumps_dict (dict (settings a)))
    (crossdb_text (crossdb a)).

(** The requirement that stands for the framework in the dependency
    list, and the content of the dependency list. *)
Definition resolved_framework (install : list string) (branch : option string)
    : string :=
  match framework_requirement install with
  | Some req => req
  | None =>
      if truthy branch
      then "https://github.com/simonw/datasette/archive/"
             +:+ or_empty branch +:+ ".zip"
      else "datasette"
  end.

Definition dependency_list (install : list string) (branch : option string)
    : string :=
  join (str1 NL)
    (resolved_framework install branch
     :: "pysqlite3-binary" :: "uvicorn" :: other_requirements install).

(** A branch override together with an explicit framework requirement. *)
Definition conflict (a : publish_args) : bool :=
  truthy (framework_requirement (install a)) && truthy (branch a).

(** Every event of a computation, from any world, satisfies [P]. *)
Definition emits {A} (P : event -> bool) (m : M A) : Prop :=
  forall w, forallb P (events (m w)) = true.

Definition is_write (ev : event) : bool :=
  match ev with
  | Write _ _ => true
  | _ => false
  end.

(** The two process invocations of a build and push of [image]. *)
Definition build_command (image : string) : list string :=
  ["docker"; "build"; "-t"; image; "."].

Definition push_command (image : string) : list string :=
  ["docker"; "push"; image].

(** The command line of the webhook trigger. *)
Definition webhook_command (e : env) (deploy_url : string) (token : option string)
    : list string :=
  [ "curl"; "-sS"; "-X"; "POST"; deploy_url; "-o"; body_file_name e;
    "-w"; "%{http_code}" ]
  ++ (if truthy token then ["-H"; "Authorization: Bearer " +:+ or_empty token]
      else []).

(** The bundle root when [_publish] has written its three files. *)
Definition bundle_of (a : publish_args) (staged : gmap string string)
    : gmap string string :=
  <["requirements.txt" := dependency_list (install a) (branch a)]>
    (<["index.py" := entry_point_of a]>
       (<["Dockerfile" := DOCKERFILE]> staged)).

(** Arguments as the command line gives them, the options that the
    statements do not vary being left out. *)
Definition cli_args (files : list string) (branch : option string)
    (static : list (string * string)) (install : list string)
    (image generate_dir : option string) (generate_github_actions : bool)
    (dokploy_url application_id api_key deploy_url token : option string)
    (settings : list (string * value)) (crossdb : bool) : publish_args :=
  PublishArgs files None None branch None None static install None None None
    None None None None None None None image generate_dir
    generate_github_actions dokploy_url application_id api_key deploy_url token
    settings crossdb.

(** An environment in which every binary is installed, every process
    succeeds with HTTP status 200, and staging delivers [staged]. *)
Definition friendly_env (staged : gmap string string) : env :=
  Env (fun path => "/work/" +:+ path)
      (fun _ => inr staged)
      (fun _ => true)
      (fun _ => Completed 0 (Some "200") (Some EmptyString))
      "/tmp/body"
      (fun _ => Some "ok").

(** C3 in the words of the specification, for one run: the install
    list names the framework and a branch override is given, so the
    run ends with a usage error and starts no process. *)
Definition conflict_as_specified (e : env) (a : publish_args) (w : world)
    : Prop :=
  (exists req, In req (install a)
               /\ _looks_like_datasette_requirement (Some req) = true) ->
  truthy (branch a) = true ->
  (exists message, res (_publish e a w) = Raise (ClickException message))
  /\ forall cmd mode, ~ In (Run cmd mode) (events (_publish e a w)).

(** C8 in the words of the specification, for one run: a
    generate-only directory is set and the workflow mode is not, so
    the run starts no process, succeeds, and leaves the entry point,
    the build recipe, the dependency list and every database file in
    the target directory. *)
Definition generate_only_as_specified (e : env) (a : publish_args) (w : world)
    : Prop :=
  truthy (generate_dir a) = true ->
  generate_github_actions a = false ->
  let o := _publish e a w in
  (forall cmd mode, ~ In (Run cmd mode) (events o))
  /\ res o = Ok tt
  /\ exists tree,
       disk (final o) !! resolve e (or_empty (generate_dir a)) = Some tree
       /\ is_Some (tree !! "index.py")
       /\ is_Some (tree !! "Dockerfile")
       /\ is_Some (tree !! "requirements.txt")
       /\ forall f, In f (files a) -> is_Some (tree !! basename f).

(** The staged directory of the test suite: one database file. *)
Definition staged_test_db : gmap string string := {["test.db" := "data"]}.

(** The runs that the statements below are tried on. *)
Definition conflicting_args (generate_dir : option string)
    (generate_github_actions : bool) : publish_args :=
  cli_args ["test.db"] (Some "main") [] ["datasette==1.0"; "datasette-cluster-map"]
    None generate_dir generate_github_actions None None None None None [] false.

Definition generate_args : publish_args :=
  cli_args ["test.db"] None [] ["datasette-cluster-map"] None (Some "app") false
    None None None None None [] false.

Definition api_deploy_args : publish_args :=
  cli_args ["test.db"] None [] [] (Some "ghcr.io/me/repo:latest") None false
    (Some "https://dokploy.example.com") (Some "app-123") (Some "secret")
    (Some "https://dokploy.example.com/hook/deploy") None [] false.

Definition pinned_args : publish_args :=
  cli_args ["test.db"] None []
    ["datasette-cluster-map"; "Datasette>=1.0"; "uvicorn-extra"]
    None (Some "app") false None None None None None [] false.

(** ** Further vocabulary: strings *)

(** Every character of a string satisfies [p]. *)
Fixpoint all_chars (p : ascii -> bool) (s : string) : bool :=
  match s with
  | EmptyString => true
  | String c r => p c && all_chars p r
  end.

(** Some character of a string satisfies [p]. *)
Definition any_char (p : ascii -> bool) (s : string) : bool :=
  negb (all_chars (fun c => negb (p c)) s).

(** ** The [--setting] option *)

Module Setting.

(** The default of a setting in datasette's [DEFAULT_SETTINGS]: what
    [convert] looks at is its type. *)
Inductive default :=
| DBool (b : bool)
| DInt (z : Z)
| DStr (s : string)
| DOther.

(** How [convert] ends: with the pair it returns, with [self.fail]
    (click's usage error for a bad parameter), or with the
    [ValueError] of [int] that it does not catch. *)
Inductive outcome :=
| Converted (name : string) (v : value)
| Fail (message : string)
| ValueError.

(** [c.isdigit()] on the code points below 256: the decimal digits and
    the superscript digits U+00B2, U+00B3 and U+00B9. *)
Definition isdigit_char (c : ascii) : bool :=
  let n := N_of_ascii c in
  ((48 <=? n) && (n <=? 57) || (n =? 178) || (n =? 179) || (n =? 185))%N.

(** The superscript digits among them: U+00B2, U+00B3 and U+00B9.
    [isdigit] accepts them and [int] does not. *)
Definition superscript_digit (c : ascii) : bool :=
  let n := N_of_ascii c in ((n =? 178) || (n =? 179) || (n =? 185))%N.

(** [s.isdigit()]: at least one character, and digits only. *)
Definition isdigit (s : string) : bool :=
  negb (is_empty s) && all_chars isdigit_char s.

(** [Setting.convert(config, param, ctx)].  The registry
    [DEFAULT_SETTINGS] and [value_as_boolean] belong to datasette and
    are arguments here; [value_as_boolean] gives [None] when it raises
    [ValueAsBooleanError]. *)
Definition convert (DEFAULT_SETTINGS : gmap string default)
    (value_as_boolean : string -> option bool) (config : string * string)
    : outcome :=
  let (name, value) := config in
  match DEFAULT_SETTINGS !! name with
  | None =>
      Fail (name +:+ " is not a valid option (--help-config to see all)")
  | Some default =>
      match default with
      | DBool _ =>
          match value_as_boolean value with
          | Some b => Converted name (VBool b)
          | None =>
              Fail (q +:+ name +:+ q +:+ " should be on/off/true/false/1/0")
          end
      | DInt _ =>
          if negb (isdigit value) then
            Fail (q +:+ name +:+ q +:+ " should be an integer")
          else
            match int_of_str value with
            | Some n => Converted name (VInt n)
            | None => ValueError
            end
      | DStr _ => Converted name (VStr value)
      | DOther => Fail "Invalid option"
      end
  end.

(** A value has the type of a default. *)
Definition same_type (d : default) (v : value) : bool :=
  match d, v with
  | DBool _, VBool _ => true
  | DInt _, VInt _ => true
  | DStr _, VStr _ => true
  | _, _ => false
  end.

End Setting.

(** A registry with one setting of each type, and datasette's reading
    of booleans. *)
Definition sample_settings : gmap string Setting.default :=
  {[ "allow_download" := Setting.DBool true;
     "default_page_size" := Setting.DInt 100;
     "base_url" := Setting.DStr "/" ]}.

Definition sample_value_as_boolean (value : string) : option bool :=
  if negb (str_in (lower value) ["on"; "off"; "true"; "false"; "1"; "0"])
  then None
  else Some (str_in (lower value) ["on"; "true"; "1"]).

(** ** Further vocabulary: runs *)

(** A computation that raises from every world. *)
Definition always_raises {A} (m : M A) : Prop :=
  forall w, exists x, res (m w) = Raise x.

Definition is_remove (ev : event) : bool :=
  match ev with
  | Remove _ => true
  | _ => false
  end.

(** The two diagnostics of [fail_if_publish_binary_not_installed]. *)
Definition missing_binary_events (binary publish_target install_link : string)
    : list event :=
  [ Echo true ("Publishing to " +:+ publish_target +:+ " requires " +:+ binary
               +:+ " to be installed and configured");
    Echo true ("Follow the instructions at " +:+ install_link) ].

(** What a generate-only run prints once the files are copied. *)
Definition generate_messages (target : string) : list event :=
  [ Echo true "Your generated application files have been written to:";
    Echo true ("    " +:+ target +:+ str1 NL);
    Echo true "To deploy from GitHub Actions:";
    Echo true "1. Commit and push these files";
    Echo true "2. Run: datasette publish dokploy --generate-github-actions > .github/workflows/deploy-datasette.yml" ].

(** Arguments for a direct deployment of the image [image]. *)
Definition deploy_args (image : option string) : publish_args :=
  cli_args ["test.db"] None [] [] image None false None None None
    (Some "https://dokploy.example.com/hook/deploy") (Some "tok") [] false.

(** An environment like [friendly_env] in which the binaries found and
    the exit status of each command are chosen. *)
Definition chosen_env (staged : gmap string string) (found : string -> bool)
    (status : list string -> Z) : env :=
  Env (fun path => "/work/" +:+ path)
      (fun _ => inr staged)
      found
      (fun cmd => Completed (status cmd) (Some "200") (Some EmptyString))
      "/tmp/body"
      (fun _ => Some "ok").

(** An environment whose staging collaborator fails. *)
Definition failing_env (x : exn) : env :=
  Env (fun path => "/work/" +:+ path)
      (fun _ => inl x)
      (fun _ => true)
      (fun _ => Completed 0 (Some "200") (Some EmptyString))
      "/tmp/body"
      (fun _ => Some "ok").

(** The steps of [_publish] that follow the writing of
    [requirements.txt]: from the test of [generate_dir] to the
    triggers.  [publish_delivery] shows that they are the tail of
    [_publish]. *)
Definition delivery (e : env) (a : publish_args) : M unit :=
  let generate_dir :=
    if truthy (generate_dir a)
    then Some (resolve e (or_empty (generate_dir a)))
    else generate_dir a in
  if truthy generate_dir then
    copytree (or_empty generate_dir) >>
    echo "Your generated application files have been written to:" true >>
    echo ("    " +:+ or_empty generate_dir +:+ str1 NL) true >>
    echo "To deploy from GitHub Actions:" true >>
    echo "1. Commit and push these files" true >>
    echo "2. Run: datasette publish dokploy --generate-github-actions > .github/workflows/deploy-datasette.yml" true
  else if negb (truthy (image a)) then
    raise (ClickException image_required_message)
  else
    fail_if_publish_binary_not_installed e "docker" "Docker"
      "https://docs.docker.com/get-docker/" >>
    fail_if_publish_binary_not_installed e "curl" "curl"
      "https://curl.se/" >>
    run_check e ["docker"; "build"; "-t"; or_empty (image a); "."] >>
    run_check e ["docker"; "push"; or_empty (image a)] >>
    if truthy (dokploy_url a) && truthy (application_id a)
       && truthy (api_key a)
    then _trigger_dokploy e (or_empty (dokploy_url a))
           (or_empty (application_id a)) (or_empty (api_key a))
    else if truthy (deploy_url a)
    then _trigger_webhook e (or_empty (deploy_url a)) (token a)
    else ret tt.

(** The events of a run up to the choice of a delivery. *)
Definition written_events (a : publish_args) (staged : gmap string string)
    : list event :=
  artifact_events staged (entry_point_of a)
  ++ [Write "requirements.txt" (dependency_list (install a) (branch a))].

(** The keys of a sequence in the order of their first occurrences;
    [seen] holds the keys met so far. *)
Fixpoint first_occurrences (seen keys : list string) : list string :=
  match keys with
  | [] => []
  | k :: r =>
      if existsb (String.eqb k) seen then first_occurrences seen r
      else k :: first_occurrences (seen ++ [k]) r
  end.

(** A printable ASCII character, and a character of a text file made
    of such characters and newlines. *)
Definition printable (c : ascii) : bool :=
  let n := N_of_ascii c in ((32 <=? n) && (n <=? 126))%N.

Definition printable_or_newline (c : ascii) : bool :=
  printable c || Ascii.eqb c NL.

Definition not_slash (c : ascii) : bool := negb (Ascii.eqb c "/").

(** [name] is the last component of the path [f]: it holds no slash,
    and [f] is [name] itself or a text that ends with a slash,
    followed by [name]. *)
Definition last_component_of (f name : string) : Prop :=
  all_chars not_slash name = true
  /\ exists dir,
       f = dir +:+ name
       /\ (dir = EmptyString \/ exists d, dir = d +:+ "/").

(** What the two directory options add to the [Datasette(...)] call. *)
Definition template_directive (template_dir : option string) : string :=
  if truthy template_dir then ", template_dir=" +:+ q +:+ "templates" +:+ q
  else EmptyString.

Definition plugins_directive (plugins_dir : option string) : string :=
  if truthy plugins_dir then ", plugins_dir=" +:+ q +:+ "plugins" +:+ q
  else EmptyString.

(** ** Strings over all code points

    The embedding above keeps to the code points below 256.  What
    [json.dumps] does with the others shows in the entry point, so the
    rendering is given once more over strings of arbitrary code
    points, together with the way Python reads the string literals of
    the entry point when it runs it.  [render_index_of_string] shows
    that this rendering is the one above on the strings that both
    cover. *)

Module Wide.

(** A Python [str]: the list of its code points. *)
Definition str : Type := list N.

Definition of_string (s : string) : str :=
  map N_of_ascii (list_ascii_of_string s).

(** [os.path.split(p)[-1]]: what follows the last slash of [p]. *)
Fixpoint last_component (cur p : str) : str :=
  match p with
  | [] => cur
  | c :: r =>
      if (c =? 47)%N then last_component [] r
      else last_component (cur ++ [c]) r
  end.

Definition basename (p : str) : str := last_component [] p.

Inductive value :=
| VBool (b : bool)
| VInt (z : Z)
| VStr (s : str).

Definition of_value (v : Json.value) : value :=
  match v with
  | Json.VBool b => VBool b
  | Json.VInt z => VInt z
  | Json.VStr s => VStr (of_string s)
  end.

Definition of_static (p : string * string) : str * str :=
  (of_string (fst p), of_string (snd p)).

Definition of_setting (kv : string * Json.value) : str * value :=
  (of_string (fst kv), of_value (snd kv)).

(** A [dict] with [str] keys, in insertion order. *)
Fixpoint dict_set (d : list (str * value)) (k : str) (v : value)
    : list (str * value) :=
  match d with
  | [] => [(k, v)]
  | (k', v') :: r =>
      if bool_decide (k' = k) then (k', v) :: r else (k', v') :: dict_set r k v
  end.

Definition dict (pairs : list (str * value)) : list (str * value) :=
  fold_left (fun d kv => dict_set d (fst kv) (snd kv)) pairs [].

(** ['\\u{0:04x}'.format(n)] for [n < 65536]. *)
Definition u_escape (n : N) : string :=
  String BS (String "u"
    (String (hex_digit (n / 4096))
       (String (hex_digit ((n / 256) mod 16))
          (String (hex_digit ((n / 16) mod 16))
             (str1 (hex_digit (n mod 16))))))).

(** The replacement of one code point in [encode_basestring_ascii]:
    the quote, the backslash and everything outside [' '..'~'] are
    escaped; a code point above U+FFFF is written as the two escapes
    of its surrogate pair. *)
Definition escape_point (n : N) : string :=
  if (n =? 34)%N then String BS (str1 DQ)
  else if (n =? 92)%N then String BS (str1 BS)
  else if (n =? 8)%N then "\b"
  else if (n =? 12)%N then "\f"
  else if (n =? 10)%N then "\n"
  else if (n =? 13)%N then "\r"
  else if (n =? 9)%N then "\t"
  else if ((32 <=? n) && (n <=? 126))%N then str1 (ascii_of_N n)
  else if (n <? 65536)%N then u_escape n
  else
    let m := (n - 65536)%N in
    u_escape (N.lor 55296 (N.land (N.shiftr m 10) 1023))
    +:+ u_escape (N.lor 56320 (N.land m 1023)).

Fixpoint escape (s : str) : string :=
  match s with
  | [] => EmptyString
  | n :: r => escape_point n +:+ escape r
  end.

(** [json.dumps] on a string, a value, a list of strings and a
    dictionary. *)
Definition dumps_str (s : str) : string :=
  String DQ (escape s +:+ str1 DQ).

Definition dumps_value (v : value) : string :=
  match v with
  | VBool true => "true"
  | VBool false => "false"
  | VInt z => str_of_int z
  | VStr s => dumps_str s
  end.

Definition dumps_list (l : list str) : string :=
  "[" +:+ join ", " (map dumps_str l) +:+ "]".

Definition dumps_item (kv : str * value) : string :=
  dumps_str (fst kv) +:+ ": " +:+ dumps_value (snd kv).

Definition dumps_dict (d : list (str * value)) : string :=
  "{" +:+ join ", " (map dumps_item d) +:+ "}".

(** The text that [_publish] writes to [index.py]: the call of
    [INDEX_PY.format].  The two directory options are only tested for
    truth. *)
Definition render_index (files : list str) (static : list (str * str))
    (settings : list (str * value)) (template_dir plugins_dir : option string)
    (crossdb : bool) : option string :=
  let extras := extras_of template_dir plugins_dir in
  let statics := map fst static in
  format INDEX_PY
    [ ("database_files", dumps_list (map basename files));
      ("extras", match extras with
                 | [] => EmptyString
                 | _ => ", " +:+ join ", " extras
                 end);
      ("statics", dumps_list statics);
      ("settings", dumps_dict (dict settings));
      ("crossdb", if crossdb then "," +:+ str1 NL +:+ "    crossdb=True"
                  else EmptyString) ].

(** The code points that Python reads where [json.dumps] wrote one:
    the code point itself, or the two halves of its surrogate pair. *)
Definition as_read_point (n : N) : str :=
  if (n <? 65536)%N then [n]
  else
    let m := (n - 65536)%N in
    [N.lor 55296 (N.land (N.shiftr m 10) 1023); N.lor 56320 (N.land m 1023)].

Definition as_read (s : str) : str := flat_map as_read_point s.

(** No code point above U+FFFF. *)
Definition in_bmp (s : str) : bool := forallb (fun n => (n <? 65536)%N) s.

(** *** How Python reads the literals

    The entry point is run by Python, which reads each [\uXXXX] of a
    string literal as the one code point of that number: two escapes
    that form a surrogate pair stay two code points.  Of the escapes
    of a Python string literal the reader knows those that
    [json.dumps] writes and refuses the others. *)

Definition unescape (c : ascii) : option N :=
  let n := N_of_ascii c in
  if (n =? 34)%N then Some 34%N
  else if (n =? 92)%N then Some 92%N
  else if (n =? 98)%N then Some 8%N
  else if (n =? 102)%N then Some 12%N
  else if (n =? 110)%N then Some 10%N
  else if (n =? 114)%N then Some 13%N
  else if (n =? 116)%N then Some 9%N
  else None.

Definition cons_point (n : N) (x : option (str * string))
    : option (str * string) :=
  match x with
  | Some (s, r) => Some (n :: s, r)
  | None => None
  end.

(** A string literal after its opening quote. *)
Fixpoint string_body (s : string) : option (str * string) :=
  match s with
  | EmptyString => None
  | String c r =>
      if Ascii.eqb c DQ then Some ([], r)
      else if Ascii.eqb c BS then
        match r with
        | String x r1 =>
            if Ascii.eqb x "u" then
              match r1 with
              | String h1 (String h2 (String h3 (String h4 r2))) =>
                  match Reparse.hex_value h1, Reparse.hex_value h2,
                        Reparse.hex_value h3, Reparse.hex_value h4 with
                  | Some a, Some b, Some c, Some d =>
                      cons_point (((a * 16 + b) * 16 + c) * 16 + d)%N
                        (string_body r2)
                  | _, _, _, _ => None
                  end
              | _ => None
              end
            else
              match unescape x with
              | Some n => cons_point n (string_body r1)
              | None => None
              end
        | EmptyString => None
        end
      else if Ascii.eqb c NL then None
      else cons_point (N_of_ascii c) (string_body r)
  end.

Definition string_literal (s : string) : option (str * string) :=
  match s with
  | String c r => if Ascii.eqb c DQ then string_body r else None
  | EmptyString => None
  end.

(** The items of a list display after its opening bracket, the list
    being non-empty.  Each item uses up one unit of [fuel]. *)
Fixpoint str_items (fuel : nat) (s : string) : option (list str * string) :=
  match fuel with
  | O => None
  | S fuel =>
      match string_literal (Reparse.skip_blanks s) with
      | Some (x, r) =>
          match Reparse.skip_blanks r with
          | String c r' =>
              if Ascii.eqb c "," then
                match str_items fuel r' with
                | Some (xs, r'') => Some (x :: xs, r'')
                | None => None
                end
              else if Ascii.eqb c "]" then Some ([x], r')
              else None
          | EmptyString => None
          end
      | None => None
      end
  end.

(** A list display of string literals; the length of the text is fuel
    enough. *)
Definition str_list (s : string) : option (list str * string) :=
  match Reparse.skip_blanks s with
  | String c r =>
      if Ascii.eqb c "[" then
        match Reparse.skip_blanks r with
        | String d r' =>
            if Ascii.eqb d "]" then Some ([], r')
            else str_items (String.length r) r
        | EmptyString => None
        end
      else None
  | EmptyString => None
  end.

(** The two lists of names of an entry point, as Python reads them:
    what [static] ranges over, and the second argument of the
    [Datasette(...)] call. *)
Definition names (text : string) : option (list str * list str) :=
  match Reparse.find_after "for static in " text with
  | Some r0 =>
      match str_list r0 with
      | Some (statics, r1) =>
          match Reparse.find_after
                  ("ds = Datasette(" +:+ str1 NL +:+ "    [],") r1 with
          | Some r2 =>
              match str_list r2 with
              | Some (database_files, _) => Some (statics, database_files)
              | None => None
              end
          | None => None
          end
      | None => None
      end
  | None => None
  end.

(** [name] is the last component of the path [f]: it holds no slash,
    and [f] is [name] itself or a text that ends with a slash,
    followed by [name]. *)
Definition last_component_of (f name : str) : Prop :=
  forallb (fun c => negb (c =? 47)%N) name = true
  /\ exists dir,
       f = dir ++ name /\ (dir = [] \/ exists d, dir = d ++ [47%N]).

End Wide.

(** A database file whose name holds the character U+1F600, and the
    name that an entry point gives it when Python reads it: the two
    halves of the surrogate pair of U+1F600. *)
Definition astral_db : Wide.str := [128512; 46; 100; 98]%N.

Definition astral_db_read : Wide.str := [55357; 56832; 46; 100; 98]%N.

(** * Properties *)

(** ** The templates on the inputs of the test suite *)

Example entry_point_of_generated :
  (text ← render_index ["dbs/test.db"] [("static", "static")]
            [ ("default_page_size", VInt 10); ("sql_time_limit_ms", VInt 2000);
              ("allow_download", VBool true); ("allow_download", VBool false) ]
            None (Some "plugins") true;
   Reparse.entry_point text)
  = Some (["static"], ["test.db"],
          [ ("default_page_size", VInt 10); ("sql_time_limit_ms", VInt 2000);
            ("allow_download", VBool false) ]).
Proof. reflexivity. Qed.

(** The entry point that the test suite expects for one static mount,
    three settings and the cross-database flag. *)
Example render_index_test_generate :
  render_index ["test.db"] [("static", "static")]
    [ ("default_page_size", VInt 10); ("sql_time_limit_ms", VInt 2000);
      ("allow_download", VBool false) ]
    None None true
  = Some (text_of_lines
      [ "from datasette.app import Datasette";
        "import json";
        "import pathlib";
        "import os";
        EmptyString;
        "static_mounts = [";
        "    (static, str((pathlib.Path(" +:+ q +:+ "." +:+ q +:+ ") / static).resolve()))";
        "    for static in [" +:+ q +:+ "static" +:+ q +:+ "]";
        "]";
        EmptyString;
        "metadata = dict()";
        "try:";
        "    metadata = json.load(open(" +:+ q +:+ "metadata.json" +:+ q +:+ "))";
        "except Exception:";
        "    pass";
        EmptyString;
        "secret = os.environ.get(" +:+ q +:+ "DATASETTE_SECRET" +:+ q +:+ ")";
        EmptyString;
        "true, false = True, False";
        EmptyString;
        "ds = Datasette(";
        "    [],";
        "    [" +:+ q +:+ "test.db" +:+ q +:+ "],";
        "    static_mounts=static_mounts,";
        "    metadata=metadata,";
        "    secret=secret,";
        "    cors=True,";
        "    settings={" +:+ q +:+ "default_page_size" +:+ q +:+ ": 10, "
          +:+ q +:+ "sql_time_limit_ms" +:+ q +:+ ": 2000, "
          +:+ q +:+ "allow_download" +:+ q +:+ ": false},";
        "    crossdb=True";
        ")";
        "app = ds.app()" ]).
Proof. reflexivity. Qed.

Example INDEX_PY_head :
  startswith INDEX_PY "from datasette.app import Datasette" = true.
Proof. reflexivity. Qed.

Example render_index_test_db :
  render_index ["test.db"] [] [] None None false
  = Some (strip (text_of_lines
      [ "from datasette.app import Datasette";
        "import json";
        "import pathlib";
        "import os";
        EmptyString;
        "static_mounts = [";
        "    (static, str((pathlib.Path(" +:+ q +:+ "." +:+ q +:+ ") / static).resolve()))";
        "    for static in []";
        "]";
        EmptyString;
        "metadata = dict()";
        "try:";
        "    metadata = json.load(open(" +:+ q +:+ "metadata.json" +:+ q +:+ "))";
        "except Exception:";
        "    pass";
        EmptyString;
        "secret = os.environ.get(" +:+ q +:+ "DATASETTE_SECRET" +:+ q +:+ ")";
        EmptyString;
        "true, false = True, False";
        EmptyString;
        "ds = Datasette(";
        "    [],";
        "    [" +:+ q +:+ "test.db" +:+ q +:+ "],";
        "    static_mounts=static_mounts,";
        "    metadata=metadata,";
        "    secret=secret,";
        "    cors=True,";
        "    settings={}";
        ")";
        "app = ds.app()" ])).
Proof. reflexivity. Qed.

(** ** Properties of the recogniser *)

Lemma startswith_app (p s : string) :
  startswith s p = true <-> exists rest, s = p +:+ rest.
Proof.
  unfold startswith. revert s.
  induction p as [|c p IH]; intros s.
  - split; [intros _; now exists s | now destruct s].
  - destruct s as [|d s]; simpl.
    + split; [discriminate | intros [rest H]; discriminate].
    + destruct (ascii_dec c d) as [->|Hne].
      * rewrite IH. split; intros [rest H]; exists rest.
        -- now rewrite H.
        -- now injection H.
      * split; [discriminate | intros [rest H]].
        simpl in H. injection H as E _. congruence.
Qed.

Lemma str_in_follow (c : ascii) :
  str_in (str1 c) ["="; "<"; ">"; "!"; "~"; "["; " "] = true
  <-> In c follow_chars.
Proof.
  unfold str_in, follow_chars, str1. simpl.
  repeat match goal with
         | |- context [Ascii.eqb c ?d] =>
             destruct (Ascii.eqb_spec c d) as [->|?]
         end; simpl; split; try tauto; try discriminate.
  intros H. exfalso. intuition congruence.
Qed.

Lemma looks_like_normalised (req : option string) :
  _looks_like_datasette_requirement req = true
  <-> spec_recognized (lower (strip (or_empty req))).
Proof.
  unfold _looks_like_datasette_requirement, spec_recognized.
  set (r := lower (strip (or_empty req))). clearbody r.
  destruct (startswith r "datasette") eqn:Hp; simpl.
  - apply startswith_app in Hp as [rest ->].
    destruct rest as [|c rest].
    + simpl. split; [now left | reflexivity].
    + replace (("datasette" +:+ String c rest =? "datasette")%string)
        with false by (symmetry; apply String.eqb_neq; discriminate).
      assert (slice ("datasette" +:+ String c rest) 9 10 = str1 c) as Hn
        by (now destruct rest).
      fold follow_chars.
      change (_ = true) with
        (str_in (slice ("datasette" +:+ String c rest) 9 10)
           ["="; "<"; ">"; "!"; "~"; "["; " "] = true).
      rewrite Hn, str_in_follow. split.
      * intros H. right. now exists c, rest.
      * intros [H|(c' & rest' & H & Hin)]; [discriminate|].
        injection H as -> ->. exact Hin.
  - split; [discriminate|].
    intros H. assert (startswith r "datasette" = true) as Hs; [|congruence].
    apply startswith_app.
    destruct H as [->|(c & rest & -> & _)]; eauto.
Qed.

(** C2 (as amended): a requirement is recognised exactly when, once its
    surrounding white space is stripped and it is lowercased, it is the
    framework name or the framework name followed by one of
    [= < > ! ~ [] or a space; [datasette-foo] is not recognised. *)
Theorem looks_like_datasette_requirement_iff :
  (forall req : option string,
      _looks_like_datasette_requirement req = true
      <-> (lower (strip (or_empty req)) = "datasette"
           \/ exists c rest,
               lower (strip (or_empty req)) = "datasette" +:+ String c rest
               /\ In c follow_chars))
  /\ _looks_like_datasette_requirement (Some "datasette-foo") = false.
Proof.
  split; [exact looks_like_normalised | reflexivity].
Qed.

(** C2 (as stated) fails on the requirement string itself: the
    capitalised, padded requirement [" Datasette==1.0"] is recognised
    although it neither is nor starts with the framework name. *)
Lemma looks_like_datasette_requirement_raw_counterexample :
  _looks_like_datasette_requirement (Some " Datasette==1.0") = true
  /\ ~ spec_recognized " Datasette==1.0".
Proof.
  split; [reflexivity|].
  intros [H|(c & rest & H & _)]; discriminate.
Qed.

(** ** Strings *)

Lemma append_cons (x : ascii) (a b : string) :
  String x a +:+ b = String x (a +:+ b).
Proof. reflexivity. Qed.

Lemma append_assoc (a b c : string) : (a +:+ b) +:+ c = a +:+ (b +:+ c).
Proof.
  induction a as [|x a IH]; [reflexivity|].
  rewrite !append_cons. f_equal. exact IH.
Qed.

Lemma append_nil_r (a : string) : a +:+ EmptyString = a.
Proof.
  induction a as [|x a IH]; [reflexivity|].
  rewrite append_cons. f_equal. exact IH.
Qed.

Lemma length_append (a b : string) :
  String.length (a +:+ b) = String.length a + String.length b.
Proof.
  induction a as [|x a IH]; [reflexivity|].
  rewrite append_cons. simpl. f_equal. exact IH.
Qed.

(** ** The reader inverts [json.dumps] *)

Section Roundtrip.

Import Reparse.

Lemma string_body_escape_char (c : ascii) (t : string) :
  string_body (escape_char c +:+ t) = cons_char c (string_body t).
Proof.
  destruct c as [[] [] [] [] [] [] [] []]; reflexivity.
Qed.

Lemma string_body_escape (s rest : string) :
  string_body (escape s +:+ String DQ rest) = Some (s, rest).
Proof.
  induction s as [|c s IH]; [reflexivity|].
  cbn [escape].
  now rewrite append_assoc, string_body_escape_char, IH.
Qed.

Lemma string_literal_dumps (s rest : string) :
  string_literal (dumps_str s +:+ rest) = Some (s, rest).
Proof.
  unfold dumps_str, str1. rewrite append_cons, append_assoc, append_cons.
  apply string_body_escape.
Qed.

Lemma skip_blanks_dumps_str (s rest : string) :
  skip_blanks (dumps_str s +:+ rest) = dumps_str s +:+ rest.
Proof. reflexivity. Qed.

Lemma length_dumps_str (s : string) : 1 <= String.length (dumps_str s).
Proof. unfold dumps_str. simpl. lia. Qed.

Lemma join_cons2 (sep x y : string) (l : list string) :
  join sep (x :: y :: l) = x +:+ sep +:+ join sep (y :: l).
Proof. reflexivity. Qed.

Lemma str_items_space (fuel : nat) (t : string) :
  str_items fuel (" " +:+ t) = str_items fuel t.
Proof. destruct fuel; reflexivity. Qed.

Lemma str_items_join (l : list string) : forall (x rest : string) (fuel : nat),
  length (x :: l) <= fuel ->
  str_items fuel (join ", " (map dumps_str (x :: l)) +:+ "]" +:+ rest)
  = Some (x :: l, rest).
Proof.
  induction l as [|y l IH]; intros x rest fuel Hf;
    (destruct fuel as [|fuel]; [simpl in Hf; lia|]).
  - cbn [map join str_items]. rewrite skip_blanks_dumps_str, string_literal_dumps.
    reflexivity.
  - cbn [map]. rewrite join_cons2. cbn [str_items].
    rewrite !append_assoc, skip_blanks_dumps_str, string_literal_dumps.
    change (", " +:+ ?t) with (String "," (" " +:+ t)).
    cbn [skip_blanks lstrip_by]. 
    change (is_blank ",") with false. cbv iota.
    change (Ascii.eqb "," ",") with true. cbv iota.
    rewrite str_items_space.
    change (dumps_str y :: map dumps_str l) with (map dumps_str (y :: l)).
    rewrite (IH y rest fuel) by (simpl in Hf |- *; lia). reflexivity.
Qed.

Lemma length_join_dumps (l : list string) :
  length l <= String.length (join ", " (map dumps_str l)).
Proof.
  induction l as [|x l IH]; [simpl; lia|].
  destruct l as [|y l].
  - cbn [map join length]. pose proof (length_dumps_str x). lia.
  - cbn [map]. rewrite join_cons2, !length_append.
    pose proof (length_dumps_str x). cbn [map length] in IH |- *. lia.
Qed.

Lemma str_list_dumps (l : list string) (rest : string) :
  str_list (dumps_list l +:+ rest) = Some (l, rest).
Proof.
  unfold dumps_list. rewrite !append_assoc.
  destruct l as [|x l]; [reflexivity|].
  change ("[" +:+ ?t) with (String "[" t).
  unfold str_list. cbn [skip_blanks lstrip_by].
  change (is_blank "[") with false. cbv iota.
  change (Ascii.eqb "[" "[") with true. cbv iota.
  assert (exists t, skip_blanks (join ", " (map dumps_str (x :: l)) +:+ "]" +:+ rest)
                    = String DQ t) as [t ->].
  { destruct l; eexists; cbn [map join]; rewrite ?append_assoc;
      rewrite skip_blanks_dumps_str; unfold dumps_str; rewrite append_cons;
      reflexivity. }
  change (Ascii.eqb DQ "]") with false. cbv iota.
  apply str_items_join.
  rewrite !length_append. pose proof (length_join_dumps (x :: l)). lia.
Qed.

Lemma span_digits_stop (rest : string) :
  no_digit_ahead rest = true -> span_digits rest = (EmptyString, rest).
Proof.
  destruct rest as [|c r]; [reflexivity|]. cbn.
  intros H. apply negb_true_iff in H. now rewrite H.
Qed.

Lemma span_digits_uint (u : uint) (rest : string) :
  no_digit_ahead rest = true ->
  span_digits (NilEmpty.string_of_uint u +:+ rest)
  = (NilEmpty.string_of_uint u, rest).
Proof.
  intros H. induction u as [|u IH|u IH|u IH|u IH|u IH|u IH|u IH|u IH|u IH|u IH];
    [exact (span_digits_stop rest H)|..];
    cbn [NilEmpty.string_of_uint]; rewrite append_cons; cbn [span_digits];
    rewrite IH; reflexivity.
Qed.

Lemma uint_head (u : uint) :
  u <> Nil ->
  exists c t, NilEmpty.string_of_uint u = String c t /\ is_digit c = true.
Proof.
  destruct u; [congruence|..]; intros _; eexists _, _; split; reflexivity.
Qed.

Lemma string_of_uint_nonnil (u : uint) :
  u <> Nil -> NilZero.string_of_uint u = NilEmpty.string_of_uint u.
Proof. destruct u; [congruence | reflexivity..]. Qed.

Lemma number_uint (u : uint) (rest : string) :
  u <> Nil -> no_digit_ahead rest = true ->
  number (NilEmpty.string_of_uint u +:+ rest) = Some (Z.of_int (Pos u), rest).
Proof.
  intros Hu Hr. pose proof (span_digits_uint u rest Hr) as Hs.
  pose proof (NilZero.usu u Hu) as Hp.
  destruct (uint_head u Hu) as (c & t & Ht & Hc).
  pose proof (string_of_uint_nonnil u Hu) as Hz.
  rewrite Hz in Hp.
  unfold number. rewrite Ht in Hs |- *. rewrite append_cons in Hs |- *.
  replace (Ascii.eqb c "-") with false.
  - rewrite Hs. rewrite <- Ht, Hp. reflexivity.
  - symmetry. apply Ascii.eqb_neq. intros ->. discriminate.
Qed.

Lemma number_str_of_int (z : Z) (rest : string) :
  no_digit_ahead rest = true ->
  number (str_of_int z +:+ rest) = Some (z, rest).
Proof.
  intros Hr. unfold str_of_int.
  destruct z as [|p|p]; cbn [Z.to_int NilZero.string_of_int].
  - change (NilZero.string_of_uint zero) with (NilEmpty.string_of_uint zero).
    rewrite number_uint; [reflexivity | discriminate | exact Hr].
  - pose proof (Unsigned.to_uint_nonnil p) as Hn.
    rewrite (string_of_uint_nonnil _ Hn).
    rewrite number_uint by assumption.
    change (Pos (Pos.to_uint p)) with (Z.to_int (Z.pos p)).
    now rewrite DecimalZ.of_to.
  - pose proof (Unsigned.to_uint_nonnil p) as Hn.
    rewrite (string_of_uint_nonnil _ Hn).
    rewrite append_cons. unfold number.
    change (Ascii.eqb "-" "-") with true. cbv iota.
    rewrite span_digits_uint by exact Hr.
    rewrite <- (string_of_uint_nonnil _ Hn).
    rewrite NilZero.usu by assumption.
    change (Neg (Pos.to_uint p)) with (Z.to_int (Z.neg p)).
    now rewrite DecimalZ.of_to.
Qed.

Lemma str_of_int_head (z : Z) :
  exists c t, str_of_int z = String c t
              /\ (is_digit c = true \/ c = "-"%char).
Proof.
  unfold str_of_int. destruct z as [|p|p]; cbn [Z.to_int NilZero.string_of_int].
  - eexists _, _. split; [reflexivity | now left].
  - destruct (uint_head _ (Unsigned.to_uint_nonnil p)) as (c & t & Ht & Hc).
    exists c, t. split; [|now left].
    rewrite <- Ht. apply string_of_uint_nonnil, Unsigned.to_uint_nonnil.
  - eexists _, _. split; [reflexivity | now right].
Qed.

Lemma value_literal_dumps (v : value) (rest : string) :
  no_digit_ahead rest = true ->
  value_literal (dumps_value v +:+ rest) = Some (v, rest).
Proof.
  intros Hr. destruct v as [[]|z|s].
  - reflexivity.
  - reflexivity.
  - cbn [dumps_value]. unfold value_literal.
    rewrite number_str_of_int by exact Hr.
    destruct (str_of_int_head z) as (c & t & -> & Hc).
    rewrite append_cons.
    destruct Hc as [Hc| ->]; [|reflexivity].
    unfold is_digit in Hc.
    destruct c as [[] [] [] [] [] [] [] []]; try discriminate Hc; reflexivity.
  - cbn [dumps_value]. unfold value_literal.
    now rewrite string_literal_dumps.
Qed.

Lemma skip_blanks_dumps_value (v : value) (t : string) :
  skip_blanks (dumps_value v +:+ t) = dumps_value v +:+ t.
Proof.
  destruct v as [[]|z|s]; try reflexivity.
  cbn [dumps_value]. destruct (str_of_int_head z) as (c & r & -> & Hc).
  rewrite append_cons. unfold skip_blanks. cbn [lstrip_by].
  replace (is_blank c) with false; [reflexivity|].
  destruct Hc as [Hc| ->]; [|reflexivity].
  unfold is_digit in Hc.
  destruct c as [[] [] [] [] [] [] [] []]; try discriminate Hc; reflexivity.
Qed.

Lemma dict_items_space (fuel : nat) (t : string) :
  dict_items fuel (" " +:+ t) = dict_items fuel t.
Proof. destruct fuel; reflexivity. Qed.

Lemma dict_items_one (k : string) (v : value) (tail : string) (fuel : nat) :
  no_digit_ahead tail = true ->
  dict_items (S fuel) (dumps_item (k, v) +:+ tail)
  = match skip_blanks tail with
    | String d r3 =>
        if Ascii.eqb d "," then
          match dict_items fuel r3 with
          | Some (kvs, r4) => Some ((k, v) :: kvs, r4)
          | None => None
          end
        else if Ascii.eqb d "}" then Some ([(k, v)], r3)
        else None
    | EmptyString => None
    end.
Proof.
  intros Ht. unfold dumps_item. cbn [fst snd dict_items].
  rewrite !append_assoc, skip_blanks_dumps_str, string_literal_dumps.
  change (": " +:+ ?t) with (String ":" (" " +:+ t)).
  cbn [skip_blanks lstrip_by].
  change (is_blank ":") with false. cbv iota.
  change (Ascii.eqb ":" ":") with true. cbv iota.
  change (skip_blanks (" " +:+ ?t)) with (skip_blanks t).
  rewrite skip_blanks_dumps_value, value_literal_dumps by exact Ht.
  reflexivity.
Qed.

Lemma dict_items_join (d : list (string * value)) :
  forall (kv : string * value) (rest : string) (fuel : nat),
  length (kv :: d) <= fuel ->
  dict_items fuel (join ", " (map dumps_item (kv :: d)) +:+ "}" +:+ rest)
  = Some (kv :: d, rest).
Proof.
  induction d as [|kv' d IH]; intros [k v] rest fuel Hf;
    (destruct fuel as [|fuel]; [simpl in Hf; lia|]).
  - cbn [map join]. rewrite dict_items_one; reflexivity.
  - cbn [map]. rewrite join_cons2, !append_assoc.
    rewrite dict_items_one by reflexivity.
    change (skip_blanks (", " +:+ ?t)) with (String "," (" " +:+ t)).
    change (Ascii.eqb "," ",") with true. cbv iota.
    rewrite dict_items_space.
    change (dumps_item kv' :: map dumps_item d) with (map dumps_item (kv' :: d)).
    rewrite (IH kv' rest fuel) by (simpl in Hf |- *; lia). reflexivity.
Qed.

Lemma length_dumps_item (kv : string * value) : 1 <= String.length (dumps_item kv).
Proof.
  unfold dumps_item. rewrite length_append.
  pose proof (length_dumps_str (fst kv)). lia.
Qed.

Lemma length_join_items (d : list (string * value)) :
  length d <= String.length (join ", " (map dumps_item d)).
Proof.
  induction d as [|x d IH]; [simpl; lia|].
  destruct d as [|y d].
  - cbn [map join length]. pose proof (length_dumps_item x). lia.
  - cbn [map]. rewrite join_cons2, !length_append.
    pose proof (length_dumps_item x). cbn [map length] in IH |- *. lia.
Qed.

Lemma dict_display_dumps (d : list (string * value)) (rest : string) :
  dict_display (dumps_dict d +:+ rest) = Some (dict d, rest).
Proof.
  unfold dumps_dict. rewrite !append_assoc.
  destruct d as [|kv d]; [reflexivity|].
  change ("{" +:+ ?t) with (String "{" t).
  unfold dict_display. cbn [skip_blanks lstrip_by].
  change (is_blank "{") with false. cbv iota.
  change (Ascii.eqb "{" "{") with true. cbv iota.
  assert (exists t, skip_blanks (join ", " (map dumps_item (kv :: d)) +:+ "}" +:+ rest)
                    = String DQ t) as [t ->].
  { destruct d; eexists; cbn [map join]; unfold dumps_item;
      rewrite ?append_assoc; rewrite skip_blanks_dumps_str; unfold dumps_str;
      rewrite append_cons; reflexivity. }
  change (Ascii.eqb DQ "}") with false. cbv iota.
  rewrite dict_items_join; [reflexivity|].
  rewrite !length_append. pose proof (length_join_items (kv :: d)). lia.
Qed.

Lemma dict_get_set (d : list (string * value)) (k k' : string) (v : value) :
  dict_get (dict_set d k v) k'
  = if String.eqb k k' then Some v else dict_get d k'.
Proof.
  induction d as [|[k0 v0] d IH]; cbn [dict_set dict_get].
  - reflexivity.
  - destruct (String.eqb_spec k0 k) as [->|Hne]; cbn [dict_get].
    + destruct (String.eqb_spec k k'); reflexivity.
    + rewrite IH. destruct (String.eqb_spec k0 k') as [->|Hne'].
      * destruct (String.eqb_spec k k'); [congruence | reflexivity].
      * reflexivity.
Qed.

Lemma dict_get_fold (pairs d : list (string * value)) (k : string) :
  dict_get (fold_left (fun d kv => dict_set d (fst kv) (snd kv)) pairs d) k
  = fold_left (fun o kv => if String.eqb (fst kv) k then Some (snd kv) else o)
      pairs (dict_get d k).
Proof.
  revert d. induction pairs as [|[k0 v0] pairs IH]; intros d; cbn [fold_left].
  - reflexivity.
  - rewrite IH, dict_get_set. reflexivity.
Qed.

Lemma dict_get_dict (pairs : list (string * value)) (k : string) :
  dict_get (dict pairs) k = last_value pairs k.
Proof. apply dict_get_fold. Qed.

Lemma dict_set_fresh (d : list (string * value)) (k : string) (v : value) :
  ~ In k (map fst d) -> dict_set d k v = d ++ [(k, v)].
Proof.
  induction d as [|[k0 v0] d IH]; cbn [dict_set map fst In app]; intros H.
  - reflexivity.
  - destruct (String.eqb_spec k0 k) as [->|Hne]; [tauto|].
    rewrite IH by tauto. reflexivity.
Qed.

Lemma keys_dict_set_present (d : list (string * value)) (k : string) (v : value) :
  In k (map fst d) -> map fst (dict_set d k v) = map fst d.
Proof.
  induction d as [|[k0 v0] d IH]; cbn [dict_set map fst In]; [tauto|].
  intros H. destruct (String.eqb_spec k0 k) as [->|Hne]; cbn [map fst].
  - reflexivity.
  - rewrite IH; [reflexivity | tauto].
Qed.

Lemma NoDup_keys_dict_set (d : list (string * value)) (k : string) (v : value) :
  List.NoDup (map fst d) -> List.NoDup (map fst (dict_set d k v)).
Proof.
  intros H. destruct (in_dec string_dec k (map fst d)) as [Hin|Hout].
  - now rewrite keys_dict_set_present.
  - rewrite dict_set_fresh, map_app by exact Hout.
    apply NoDup_app_remove_l with (l := []). cbn [app].
    apply List.NoDup_rev in H. rewrite <- (rev_involutive (map fst d ++ _)).
    apply List.NoDup_rev. rewrite rev_app_distr. cbn [map fst rev app].
    constructor; [|exact H]. rewrite <- in_rev. exact Hout.
Qed.

Lemma NoDup_keys_fold (pairs d : list (string * value)) :
  List.NoDup (map fst d) ->
  List.NoDup (map fst (fold_left (fun d kv => dict_set d (fst kv) (snd kv)) pairs d)).
Proof.
  revert d. induction pairs as [|kv pairs IH]; intros d H; cbn [fold_left].
  - exact H.
  - apply IH, NoDup_keys_dict_set, H.
Qed.

Lemma NoDup_keys_dict (pairs : list (string * value)) :
  List.NoDup (map fst (dict pairs)).
Proof. apply NoDup_keys_fold. constructor. Qed.

Lemma fold_dict_set_fresh (d acc : list (string * value)) :
  List.NoDup (map fst acc ++ map fst d) ->
  fold_left (fun d kv => dict_set d (fst kv) (snd kv)) d acc = acc ++ d.
Proof.
  revert acc. induction d as [|[k v] d IH]; intros acc H; cbn [fold_left fst snd].
  - now rewrite app_nil_r.
  - cbn [map fst] in H.
    rewrite dict_set_fresh.
    + rewrite IH.
      * now rewrite <- app_assoc.
      * rewrite map_app. cbn [map fst]. now rewrite <- app_assoc.
    + apply NoDup_remove_2 in H. intros Hin. apply H, in_or_app. now left.
Qed.

Lemma dict_of_NoDup (d : list (string * value)) :
  List.NoDup (map fst d) -> dict d = d.
Proof. intros H. unfold dict. now rewrite fold_dict_set_fresh. Qed.

Lemma dict_idempotent (pairs : list (string * value)) :
  dict (dict pairs) = dict pairs.
Proof. apply dict_of_NoDup, NoDup_keys_dict. Qed.

End Roundtrip.

(** ** The entry point and its literals *)

Lemma format_INDEX_PY (S D E T C : string) :
  format INDEX_PY
    [ ("database_files", D); ("extras", E); ("statics", S);
      ("settings", T); ("crossdb", C) ]
  = Some (entry_text S D E T C).
Proof. vm_compute. reflexivity. Qed.

Lemma render_index_text files static settings template_dir plugins_dir crossdb :
  render_index files static settings template_dir plugins_dir crossdb
  = Some (entry_text (dumps_list (map fst static))
            (dumps_list (map basename files))
            (extras_text template_dir plugins_dir)
            (dumps_dict (dict settings))
            (crossdb_text crossdb)).
Proof. unfold render_index. apply format_INDEX_PY. Qed.

Lemma find_statics (S D E T C : string) :
  Reparse.find_after "for static in " (entry_text S D E T C)
  = Some (S +:+ entry_tail1 D E T C).
Proof. vm_compute. reflexivity. Qed.

Lemma find_database_files (D E T C : string) :
  Reparse.find_after ("ds = Datasette(" +:+ str1 NL +:+ "    [],")
    (entry_tail1 D E T C)
  = Some (str1 NL +:+ "    " +:+ D +:+ entry_tail2 E T C).
Proof. vm_compute. reflexivity. Qed.

Lemma find_settings (template_dir plugins_dir : option string) (T C : string) :
  Reparse.find_after "settings="
    (entry_tail2 (extras_text template_dir plugins_dir) T C)
  = Some (T +:+ entry_tail3 C).
Proof.
  unfold extras_text, extras_of.
  destruct (truthy template_dir), (truthy plugins_dir); vm_compute; reflexivity.
Qed.

Lemma str_list_indented (t : string) :
  Reparse.str_list (str1 NL +:+ "    " +:+ t) = Reparse.str_list t.
Proof. reflexivity. Qed.

Lemma entry_point_entry_text (statics dbs : list string)
    (d : list (string * value)) (template_dir plugins_dir : option string)
    (C : string) :
  Reparse.entry_point
    (entry_text (dumps_list statics) (dumps_list dbs)
       (extras_text template_dir plugins_dir) (dumps_dict d) C)
  = Some (statics, dbs, dict d).
Proof.
  unfold Reparse.entry_point.
  rewrite find_statics, str_list_dumps, find_database_files.
  rewrite str_list_indented, str_list_dumps, find_settings.
  now rewrite dict_display_dumps.
Qed.

Lemma join_holds_item {A} (f : A -> string) (sep : string) (x : A) (l : list A) :
  In x l -> exists a e, join sep (map f l) = a +:+ f x +:+ e.
Proof.
  induction l as [|y l IH]; [intros []|].
  intros [->|Hin].
  - destruct l as [|z l].
    + exists EmptyString, EmptyString. cbn [map join].
      now rewrite append_nil_r.
    + exists EmptyString, (sep +:+ join sep (map f (z :: l))). reflexivity.
  - destruct (IH Hin) as (a & e & H). destruct l as [|z l]; [destruct Hin|].
    exists (f y +:+ sep +:+ a), e.
    cbn [map] in H |- *. rewrite join_cons2, H.
    now rewrite !append_assoc.
Qed.

Lemma dumps_dict_holds_item (d : list (string * value)) (kv : string * value) :
  In kv d -> exists a e, dumps_dict d = a +:+ dumps_item kv +:+ e.
Proof.
  intros Hin. destruct (join_holds_item dumps_item ", " kv d Hin) as (a & e & H).
  exists ("{" +:+ a), (e +:+ "}"). unfold dumps_dict. rewrite H.
  now rewrite !append_assoc.
Qed.

Lemma embed_shape (p0 S p1 D p2 E p3 T t : string) :
  p0 +:+ S +:+ p1 +:+ D +:+ p2 +:+ E +:+ p3 +:+ T +:+ t
  = p0 +:+ S +:+ p1 +:+ D +:+ (p2 +:+ E +:+ p3) +:+ T +:+ t.
Proof. now rewrite !append_assoc. Qed.


(** ** The HTTP caller *)

Lemma curl_check_run (e : env) (url method : string) (headers : list string)
    (data : option string) (w : world) :
  let cmd := curl_command e url method headers data in
  let p := run e cmd in
  _curl_check e url method headers data w
  = Out [Run cmd Capture] w
      (if negb (returncode p =? 0)%Z then
         Raise (ClickException
                  (if is_empty (client_diagnostic p)
                   then "curl failed with code " +:+ str_of_int (returncode p)
                   else client_diagnostic p))
       else if in_2xx (status_code p) then Ok (response_body e cmd)
       else Raise (ClickException
                     ("HTTP " +:+ str_of_int (status_code p) +:+ ": "
                      +:+ body_or_placeholder (response_body e cmd)))).
Proof.
  cbv zeta. unfold _curl_check, run_capture, bind, emit, ret.
  fold (curl_command e url method headers data).
  set (cmd := curl_command e url method headers data).
  cbn [res events final app].
  fold (client_output (run e cmd)) (client_diagnostic (run e cmd))
       (response_body e cmd).
  fold (status_code (run e cmd)).
  fold (body_or_placeholder (response_body e cmd)).
  destruct (returncode (run e cmd) =? 0)%Z; cbn [negb raise]; [|reflexivity].
  unfold in_2xx.
  destruct (Z.ltb_spec (status_code (run e cmd)) 200),
           (Z.leb_spec 300 (status_code (run e cmd))),
           (Z.leb_spec 200 (status_code (run e cmd))),
           (Z.ltb_spec (status_code (run e cmd)) 300);
    try lia; reflexivity.
Qed.

Lemma in_2xx_range (status : Z) :
  in_2xx status = true <-> (200 <= status < 300)%Z.
Proof. unfold in_2xx. lia. Qed.

(** C6 (as amended): [_curl_check] starts the client once and raises
    exactly when the client exits non-zero or the status read from its
    output is outside [200,300).  After a non-zero exit the error text
    is the stripped diagnostic output, or [curl failed with code <n>]
    when that is empty; after a bad status it is [HTTP <status>: ]
    followed by the stripped body, or by the placeholder when the
    stripped body is empty; otherwise the body is returned as read. *)
Theorem curl_check_outcome (e : env) (url method : string)
    (headers : list string) (data : option string) (w : world) :
  let cmd := curl_command e url method headers data in
  let p := run e cmd in
  let o := _curl_check e url method headers data w in
  events o = [Run cmd Capture]
  /\ final o = w
  /\ ((exists x, res o = Raise x)
      <-> (returncode p <> 0%Z \/ ~ (200 <= status_code p < 300)%Z))
  /\ (returncode p <> 0%Z ->
      res o = Raise (ClickException
                       (if is_empty (client_diagnostic p)
                        then "curl failed with code "
                               +:+ str_of_int (returncode p)
                        else client_diagnostic p)))
  /\ (returncode p = 0%Z -> ~ (200 <= status_code p < 300)%Z ->
      res o = Raise (ClickException
                       ("HTTP " +:+ str_of_int (status_code p) +:+ ": "
                        +:+ (if is_empty (strip (response_body e cmd))
                             then "(empty response body)"
                             else strip (response_body e cmd)))))
  /\ (returncode p = 0%Z -> (200 <= status_code p < 300)%Z ->
      res o = Ok (response_body e cmd)).
Proof.
  cbv zeta. rewrite curl_check_run. cbn [events final res].
  set (cmd := curl_command e url method headers data).
  rewrite <- in_2xx_range.
  split; [reflexivity|]. split; [reflexivity|].
  destruct (Z.eqb_spec (returncode (run e cmd)) 0) as [Hrc|Hrc]; cbn [negb];
    [destruct (in_2xx (status_code (run e cmd))) eqn:Hs|];
    repeat split; try congruence; try tauto; eauto;
    try (intros [x Hx]; discriminate);
    try (intros [H|H]; [congruence | tauto]).
Qed.

(** C6 (as stated) fails when the client exits non-zero without
    writing to its diagnostic stream: the error text is then
    [curl failed with code 1], not the (empty) diagnostic output. *)
Lemma curl_check_empty_diagnostic_counterexample :
  ~ curl_check_as_specified
      (client_env (Completed 1 (Some EmptyString) (Some EmptyString)) None)
      "https://dokploy.example.com/hook" "POST" [] None empty_world.
Proof.
  intros (_ & H & _). specialize (H ltac:(discriminate)).
  rewrite curl_check_run in H. discriminate H.
Qed.

(** C10: when the client exits zero but its output is empty or is not
    an integer, the status is taken to be 0 and [_curl_check] raises
    [HTTP 0: ] followed by the stripped body or the placeholder. *)
Theorem curl_check_unreadable_status (e : env) (url method : string)
    (headers : list string) (data : option string) (w : world) :
  let cmd := curl_command e url method headers data in
  let p := run e cmd in
  returncode p = 0%Z ->
  (client_output p = EmptyString \/ int_of_str (client_output p) = None) ->
  status_code p = 0%Z
  /\ res (_curl_check e url method headers data w)
     = Raise (ClickException
                ("HTTP 0: "
                 +:+ (if is_empty (strip (response_body e cmd))
                      then "(empty response body)"
                      else strip (response_body e cmd)))).
Proof.
  cbv zeta. intros Hrc Hout.
  assert (status_code (run e (curl_command e url method headers data)) = 0%Z)
    as Hs.
  { unfold status_code. destruct Hout as [-> | ->]; [reflexivity|].
    now destruct (is_empty _). }
  split; [exact Hs|].
  rewrite curl_check_run. cbv zeta. rewrite Hrc, Hs. reflexivity.
Qed.

Lemma curl_check_unreadable_status_witness :
  let e := client_env (Completed 0 (Some "abc") None) (Some "denied") in
  res (_curl_check e "https://dokploy.example.com/hook" "POST" [] None
         empty_world)
  = Raise (ClickException "HTTP 0: denied").
Proof.
  cbv zeta.
  refine (proj2 (curl_check_unreadable_status
                   (client_env (Completed 0 (Some "abc") None) (Some "denied"))
                   "https://dokploy.example.com/hook" "POST" [] None
                   empty_world _ _)).
  - reflexivity.
  - right. reflexivity.
Defined.

(** ** The API trigger *)

Lemma rstrip_slash_cons (c : ascii) (r : string) :
  rstrip_slash (String c r)
  = if Ascii.eqb "/" c && is_empty (rstrip_slash r) then EmptyString
    else String c (rstrip_slash r).
Proof. reflexivity. Qed.

Lemma rstrip_slash_splits (s : string) :
  exists n, s = rstrip_slash s +:+ slashes n.
Proof.
  induction s as [|c r [n IH]]; [now exists 0|].
  rewrite rstrip_slash_cons.
  destruct (Ascii.eqb_spec "/" c) as [<-|Hc]; cbn [andb].
  - destruct (rstrip_slash r) eqn:Hr; cbn [is_empty].
    + exists (S n). rewrite IH. reflexivity.
    + exists n. rewrite append_cons. now f_equal.
  - exists n. rewrite append_cons. now f_equal.
Qed.

Lemma rstrip_slash_no_slash (s : string) :
  ends_with_slash (rstrip_slash s) = false.
Proof.
  induction s as [|c r IH]; [reflexivity|].
  rewrite rstrip_slash_cons.
  destruct (Ascii.eqb_spec "/" c) as [<-|Hc]; cbn [andb].
  - destruct (rstrip_slash r) eqn:Hr; cbn [is_empty]; [reflexivity|].
    exact IH.
  - destruct (rstrip_slash r) eqn:Hr; [|exact IH].
    cbn [ends_with_slash]. apply Ascii.eqb_neq. congruence.
Qed.

Lemma trigger_dokploy_events (e : env) (dokploy_url application_id api_key : string)
    (w : world) :
  events (_trigger_dokploy e dokploy_url application_id api_key w)
  = [Run (api_trigger_command e dokploy_url application_id api_key) Capture].
Proof.
  unfold _trigger_dokploy, bind. rewrite curl_check_run. cbv zeta.
  cbn [events res final].
  assert (curl_command e (rstrip_slash dokploy_url +:+ "/api/application.deploy")
            "POST"
            ["x-api-key: " +:+ api_key; "accept: application/json";
             "content-type: application/json"]
            (Some (dumps_dict (dict [("applicationId", VStr application_id)])))
          = api_trigger_command e dokploy_url application_id api_key) as ->.
  { unfold curl_command, api_trigger_command. cbn [flat_map app].
    repeat f_equal. }
  match goal with
  | |- context [if ?b then _ else _] => destruct b
  end; [reflexivity|].
  match goal with
  | |- context [if ?b then _ else _] => destruct b
  end; reflexivity.
Qed.

(** C7: the API trigger starts the client exactly once, for a POST to
    [dokploy_url] without its trailing slashes followed by
    [/api/application.deploy], with the three headers and with the
    JSON object that binds [applicationId] to the application id. *)
Theorem trigger_dokploy_request (e : env)
    (dokploy_url application_id api_key : string) (w : world) :
  events (_trigger_dokploy e dokploy_url application_id api_key w)
  = [ Run [ "curl"; "-sS"; "-X"; "POST";
            rstrip_slash dokploy_url +:+ "/api/application.deploy";
            "-o"; body_file_name e; "-w"; "%{http_code}";
            "-H"; "x-api-key: " +:+ api_key;
            "-H"; "accept: application/json";
            "-H"; "content-type: application/json";
            "-d"; "{" +:+ q +:+ "applicationId" +:+ q +:+ ": "
                    +:+ dumps_str application_id +:+ "}" ]
        Capture ]
  /\ (exists n, dokploy_url = rstrip_slash dokploy_url +:+ slashes n)
  /\ ends_with_slash (rstrip_slash dokploy_url) = false
  /\ Reparse.dict_display
       ("{" +:+ q +:+ "applicationId" +:+ q +:+ ": "
          +:+ dumps_str application_id +:+ "}")
     = Some ([("applicationId", VStr application_id)], EmptyString).
Proof.
  split; [apply trigger_dokploy_events|].
  split; [apply rstrip_slash_splits|].
  split; [apply rstrip_slash_no_slash|].
  pose proof (dict_display_dumps [("applicationId", VStr application_id)]
                EmptyString) as H.
  rewrite append_nil_r in H.
  unfold dumps_dict, dumps_item in H.
  cbn [map join fst snd dumps_value] in H.
  rewrite !append_assoc in H. exact H.
Qed.

Example trigger_dokploy_test :
  events (_trigger_dokploy (client_env (Completed 0 (Some "200") (Some EmptyString)) None)
            "https://dokploy.example.com/" "app-123" "secret" empty_world)
  = [ Run [ "curl"; "-sS"; "-X"; "POST";
            "https://dokploy.example.com/api/application.deploy";
            "-o"; "/tmp/body"; "-w"; "%{http_code}";
            "-H"; "x-api-key: secret";
            "-H"; "accept: application/json";
            "-H"; "content-type: application/json";
            "-d"; "{" +:+ q +:+ "applicationId" +:+ q +:+ ": "
                    +:+ q +:+ "app-123" +:+ q +:+ "}" ]
        Capture ].
Proof. reflexivity. Qed.

(** ** Running a computation step by step *)

Lemma bind_ok {A B} (m : M A) (k : A -> M B) (w w1 : world)
    (evs : list event) (a : A) :
  m w = Out evs w1 (Ok a) ->
  events (bind m k w) = evs ++ events (k a w1)
  /\ final (bind m k w) = final (k a w1)
  /\ res (bind m k w) = res (k a w1).
Proof. intros H. unfold bind. rewrite H. now cbn. Qed.

Lemma replace_dockerfile (c : gmap string string) (d : gmap string (gmap string string)) :
  bind (path_exists "Dockerfile")
    (fun there => if there then remove "Dockerfile" else ret tt) (World c d)
  = Out (if bool_decide (is_Some (c !! "Dockerfile"))
         then [Remove "Dockerfile"] else [])
      (World (delete "Dockerfile" c) d) (Ok tt).
Proof.
  unfold bind, path_exists, remove, ret. cbn [res events final cwd disk app].
  case_bool_decide as H; [reflexivity|].
  cbn. f_equal. f_equal. symmetry. apply delete_id.
  now apply eq_None_not_Some.
Qed.

(** The first three steps inside the staged directory. *)
Lemma artifacts_run (k : M unit) (c : gmap string string)
    (d : gmap string (gmap string string)) (rendered : option string)
    (text : string) :
  rendered = Some text ->
  let m :=
    bind (bind (path_exists "Dockerfile")
            (fun there => if there then remove "Dockerfile" else ret tt))
      (fun _ => bind (write "Dockerfile" DOCKERFILE)
         (fun _ => bind (match rendered with
                         | Some text => write "index.py" text
                         | None => raise FormatError
                         end)
            (fun _ => k))) in
  let o := k (World (<["index.py" := text]> (<["Dockerfile" := DOCKERFILE]> c)) d) in
  events (m (World c d)) = artifact_events c text ++ events o
  /\ final (m (World c d)) = final o
  /\ res (m (World c d)) = res o.
Proof.
  intros ->. cbv zeta.
  destruct (bind_ok _ (fun _ => bind (write "Dockerfile" DOCKERFILE)
         (fun _ => bind (write "index.py" text) (fun _ => k))) _ _ _ _
         (replace_dockerfile c d)) as (E1 & F1 & R1).
  rewrite E1, F1, R1. clear E1 F1 R1.
  destruct (bind_ok (write "Dockerfile" DOCKERFILE)
              (fun _ => bind (write "index.py" text) (fun _ => k))
              (World (delete "Dockerfile" c) d) _ _ _ eq_refl) as (E2 & F2 & R2).
  rewrite E2, F2, R2. clear E2 F2 R2. cbn [cwd disk].
  rewrite insert_delete_eq.
  destruct (bind_ok (write "index.py" text) (fun _ => k)
              (World (<["Dockerfile" := DOCKERFILE]> c) d) _ _ _ eq_refl)
    as (E3 & F3 & R3).
  rewrite E3, F3, R3. cbn [cwd disk]. unfold artifact_events.
  rewrite <- !app_assoc. auto.
Qed.

(** ** The publish workflow *)

Lemma recognised_nonempty (req : string) :
  _looks_like_datasette_requirement (Some req) = true -> truthy (Some req) = true.
Proof. destruct req; [discriminate | reflexivity]. Qed.

Lemma framework_requirement_truthy (install : list string) :
  truthy (framework_requirement install)
  = existsb (fun req => _looks_like_datasette_requirement (Some req)) install.
Proof.
  unfold framework_requirement.
  induction install as [|r l IH]; [reflexivity|].
  cbn [find existsb].
  destruct (_looks_like_datasette_requirement (Some r)) eqn:Hr.
  - now rewrite (recognised_nonempty r Hr).
  - exact IH.
Qed.

Lemma framework_requirement_named (install : list string) :
  (exists req, In req install
               /\ _looks_like_datasette_requirement (Some req) = true)
  <-> truthy (framework_requirement install) = true.
Proof.
  rewrite framework_requirement_truthy, existsb_exists. reflexivity.
Qed.

Lemma artifact_events_quiet (staged : gmap string string) (text : string)
    (cmd : list string) (mode : run_mode) :
  ~ In (Run cmd mode) (artifact_events staged text).
Proof.
  unfold artifact_events. rewrite in_app_iff.
  intros [H|H].
  - destruct (bool_decide _); cbn in H; intuition discriminate.
  - cbn in H. intuition discriminate.
Qed.

(** Entering [_publish] once the workflow mode is off and the staging
    collaborator has delivered [staged]: the goal is brought to the
    point where the dependency list is settled. *)
Ltac enter_publish a Hg Hs :=
  unfold _publish; rewrite Hg; unfold with_temporary_docker_directory;
  rewrite Hs; cbv zeta; cbn [events final res];
  match goal with
  | |- context [bind (bind (path_exists "Dockerfile") _)
                  (fun _ => bind (write "Dockerfile" DOCKERFILE)
                     (fun _ => bind _ (fun _ => ?K))) (World ?c ?d)] =>
      let E := fresh "E" in
      let F := fresh "F" in
      let R := fresh "R" in
      destruct (artifacts_run K c d
                  (render_index (files a) (static a) (settings a)
                     (template_dir a) (plugins_dir a) (crossdb a))
                  (entry_point_of a) (render_index_text _ _ _ _ _ _))
        as (E & F & R);
      cbv zeta in E, F, R; rewrite ?E, ?F, ?R; clear E F R
  end;
  fold (framework_requirement (install a)).

(** C3 (as amended): when the install list names the framework and a
    branch override is given, no process is started, whatever the
    mode; and the run ends with the usage error unless it is in
    workflow mode (which prints the workflow and succeeds) or the
    staging collaborator fails (whose exception is passed on). *)
Theorem branch_conflict_is_usage_error (e : env) (a : publish_args) (w : world) :
  (exists req, In req (install a)
               /\ _looks_like_datasette_requirement (Some req) = true) ->
  truthy (branch a) = true ->
  let o := _publish e a w in
  (forall cmd mode, ~ In (Run cmd mode) (events o))
  /\ res o
     = (if generate_github_actions a then Ok tt
        else match temporary_docker_directory e (staging_args a) with
             | inl x => Raise x
             | inr _ => Raise (ClickException conflict_message)
             end).
Proof.
  intros Hreq Hb. apply framework_requirement_named in Hreq. cbv zeta.
  destruct (generate_github_actions a) eqn:Hg.
  - unfold _publish. rewrite Hg. cbn. split; [|reflexivity].
    intros cmd mode [H|[]]. discriminate H.
  - destruct (temporary_docker_directory e (staging_args a)) as [x|staged] eqn:Hs.
    + unfold _publish. rewrite Hg. unfold with_temporary_docker_directory.
      rewrite Hs. cbn. split; [tauto | reflexivity].
    + split.
      * enter_publish a Hg Hs. rewrite Hreq, Hb. cbn [andb raise events].
        rewrite app_nil_r. apply artifact_events_quiet.
      * enter_publish a Hg Hs. rewrite Hreq, Hb. reflexivity.
Qed.

(** *** What a computation emits *)

Lemma emits_ret {A} (P : event -> bool) (a : A) : emits P (ret a).
Proof. intros w. reflexivity. Qed.

Lemma emits_raise {A} (P : event -> bool) (x : exn) : emits P (@raise A x).
Proof. intros w. reflexivity. Qed.

Lemma emits_emit (P : event -> bool) (ev : event) :
  P ev = true -> emits P (emit ev).
Proof. intros H w. cbn. now rewrite H. Qed.

Lemma emits_bind {A B} (P : event -> bool) (m : M A) (k : A -> M B) :
  emits P m -> (forall a, emits P (k a)) -> emits P (bind m k).
Proof.
  intros Hm Hk w. unfold bind. specialize (Hm w).
  destruct (res (m w)) as [a|x]; cbn [events]; [|exact Hm].
  rewrite forallb_app, Hm. apply Hk.
Qed.

Lemma emits_copytree (P : event -> bool) (dst : string) :
  P (CopyTree dst) = true -> emits P (copytree dst).
Proof.
  intros H w. unfold copytree. destruct (disk w !! dst); cbn; [reflexivity|].
  now rewrite H.
Qed.

Lemma emits_run_check (P : event -> bool) (e : env) (cmd : list string) :
  P (Run cmd Check) = true -> emits P (run_check e cmd).
Proof.
  intros H. unfold run_check. apply emits_bind; [now apply emits_emit|].
  intros _. destruct (_ =? _)%Z; [apply emits_ret | apply emits_raise].
Qed.

Lemma emits_curl_check (P : event -> bool) (e : env) (url method : string)
    (headers : list string) (data : option string) :
  P (Run (curl_command e url method headers data) Capture) = true ->
  emits P (_curl_check e url method headers data).
Proof.
  intros H w. rewrite curl_check_run. cbv zeta. cbn [events forallb].
  now rewrite H.
Qed.

Lemma emits_fail_if (P : event -> bool) (e : env) (b t l : string) :
  (forall err text, P (Echo err text) = true) ->
  emits P (fail_if_publish_binary_not_installed e b t l).
Proof.
  intros H. unfold fail_if_publish_binary_not_installed, echo.
  destruct (which e b); [apply emits_ret|].
  repeat (apply emits_bind; [now apply emits_emit | intros _]).
  apply emits_raise.
Qed.

Lemma emits_trigger_dokploy (P : event -> bool) (e : env) (u i k : string) :
  (forall cmd mode, P (Run cmd mode) = true) ->
  emits P (_trigger_dokploy e u i k).
Proof.
  intros H. unfold _trigger_dokploy.
  apply emits_bind; [now apply emits_curl_check | intros _; apply emits_ret].
Qed.

Lemma emits_trigger_webhook (P : event -> bool) (e : env) (d : string)
    (t : option string) :
  (forall cmd mode, P (Run cmd mode) = true) ->
  emits P (_trigger_webhook e d t).
Proof.
  intros H. unfold _trigger_webhook.
  apply emits_bind; [now apply emits_curl_check | intros _; apply emits_ret].
Qed.

Lemma emits_write (P : event -> bool) (name content : string) :
  P (Write name content) = true -> emits P (write name content).
Proof. intros H w. cbn. now rewrite H. Qed.

Lemma emits_remove (P : event -> bool) (name : string) :
  P (Remove name) = true -> emits P (remove name).
Proof. intros H w. cbn. now rewrite H. Qed.

Lemma emits_path_exists (P : event -> bool) (name : string) :
  emits P (path_exists name).
Proof. intros w. reflexivity. Qed.

Lemma emits_staged {A} (P : event -> bool) (e : env) (args : Tdd.args)
    (body : M A) :
  emits P body -> emits P (with_temporary_docker_directory e args body).
Proof.
  intros H w. unfold with_temporary_docker_directory.
  destruct (temporary_docker_directory e args); [reflexivity | apply H].
Qed.

Lemma written_app (name : string) (l1 l2 : list event) :
  written name (l1 ++ l2) = written name l1 ++ written name l2.
Proof. unfold written. apply flat_map_app. Qed.

Lemma written_no_write (name : string) (evs : list event) :
  forallb (fun ev => negb (is_write ev)) evs = true -> written name evs = [].
Proof.
  induction evs as [|ev evs IH]; [reflexivity|].
  cbn [forallb]. intros [H1 H2]%andb_true_iff.
  unfold written. cbn [flat_map]. fold (written name evs). rewrite (IH H2).
  destruct ev; try reflexivity. discriminate H1.
Qed.

Lemma written_artifacts (staged : gmap string string) (text : string) :
  written "requirements.txt" (artifact_events staged text) = [].
Proof.
  unfold artifact_events. rewrite written_app.
  destruct (bool_decide _); reflexivity.
Qed.

(** *** The dependency list *)

Lemma find_none_filter {A} (p : A -> bool) (l : list A) :
  find p l = None -> List.filter (fun x => negb (p x)) l = l.
Proof.
  induction l as [|x l IH]; [reflexivity|].
  cbn [find List.filter]. destruct (p x); [discriminate|].
  intros H. cbn [negb]. now rewrite IH.
Qed.

Lemma framework_requirement_some (install : list string) (req : string) :
  framework_requirement install = Some req -> truthy (Some req) = true.
Proof.
  intros H. apply find_some in H as [_ H]. now apply recognised_nonempty.
Qed.

Lemma requirements_settled (install : list string) (branch : option string) :
  truthy (framework_requirement install) && truthy branch = false ->
  let datasette_from_install := framework_requirement install in
  join (str1 NL)
    ([ if truthy branch && negb (truthy datasette_from_install)
       then "https://github.com/simonw/datasette/archive/"
              +:+ or_empty branch +:+ ".zip"
       else if truthy datasette_from_install
            then or_empty datasette_from_install
            else "datasette";
       "pysqlite3-binary"; "uvicorn" ]
     ++ (if truthy datasette_from_install
         then List.filter
                (fun req => negb (_looks_like_datasette_requirement (Some req)))
                install
         else install))
  = dependency_list install branch.
Proof.
  cbv zeta. unfold dependency_list, resolved_framework, other_requirements.
  destruct (framework_requirement install) as [req|] eqn:Hf.
  - rewrite (framework_requirement_some _ _ Hf). cbn [andb negb or_empty].
    intros ->. rewrite andb_false_r. reflexivity.
  - intros _. cbn [truthy negb]. rewrite andb_true_r.
    rewrite (find_none_filter _ _ Hf).
    destruct (truthy branch); reflexivity.
Qed.

(** One structural step in showing what a computation emits. *)
Ltac emits_step :=
  lazymatch goal with
  | |- emits _ (bind _ _) => apply emits_bind; [|intros ?]
  | |- emits _ (ret _) => apply emits_ret
  | |- emits _ (raise _) => apply emits_raise
  | |- emits _ (echo _ _) => apply emits_emit; reflexivity
  | |- emits _ (write _ _) => apply emits_write; reflexivity
  | |- emits _ (remove _) => apply emits_remove; reflexivity
  | |- emits _ (path_exists _) => apply emits_path_exists
  | |- emits _ (copytree _) => apply emits_copytree; reflexivity
  | |- emits _ (run_check _ _) => apply emits_run_check; reflexivity
  | |- emits _ (fail_if_publish_binary_not_installed _ _ _ _) =>
      apply emits_fail_if; intros; reflexivity
  | |- emits _ (_trigger_dokploy _ _ _ _) =>
      apply emits_trigger_dokploy; intros; reflexivity
  | |- emits _ (_trigger_webhook _ _ _) =>
      apply emits_trigger_webhook; intros; reflexivity
  | |- emits _ (if ?b then _ else _) => destruct b
  | |- emits _ (match ?x with Some _ => _ | None => _ end) => destruct x
  end.

Ltac emits_auto := repeat emits_step.

(** Running the next step of a sequence whose outcome [H] gives. *)
Ltac run_step H :=
  match goal with
  | |- context [bind ?m ?k ?w] =>
      let E := fresh "E" in
      let F := fresh "F" in
      let R := fresh "R" in
      destruct (bind_ok m k w _ _ _ H) as (E & F & R);
      rewrite ?E, ?F, ?R; clear E F R; cbv beta
  end.

(** The same for a step that computes to its outcome. *)
Ltac run_refl :=
  match goal with
  | |- context [bind ?m ?k ?w] =>
      let E := fresh "E" in
      let F := fresh "F" in
      let R := fresh "R" in
      destruct (bind_ok m k w _ _ _ eq_refl) as (E & F & R);
      rewrite ?E, ?F, ?R; clear E F R; cbv beta
  end.

(** C4: outside the conflict of a branch with an explicit framework
    requirement, the one text written to [requirements.txt] is the
    newline-joined list of the resolved framework requirement, the two
    fixed helper packages and the install entries that do not name
    the framework, in their original order. *)
Theorem dependency_list_written (e : env) (a : publish_args) (w : world)
    (staged : gmap string string) :
  generate_github_actions a = false ->
  temporary_docker_directory e (staging_args a) = inr staged ->
  conflict a = false ->
  written "requirements.txt" (events (_publish e a w))
  = [ join (str1 NL)
        ((match find (fun req => _looks_like_datasette_requirement (Some req))
                  (install a) with
          | Some req => req
          | None =>
              if truthy (branch a)
              then "https://github.com/simonw/datasette/archive/"
                     +:+ or_empty (branch a) +:+ ".zip"
              else "datasette"
          end)
         :: "pysqlite3-binary" :: "uvicorn"
         :: List.filter
              (fun req => negb (_looks_like_datasette_requirement (Some req)))
              (install a)) ].
Proof.
  intros Hg Hs Hc. unfold conflict in Hc.
  enter_publish a Hg Hs. rewrite Hc.
  run_refl. rewrite (requirements_settled _ _ Hc).
  rewrite !written_app, written_artifacts.
  change (written "requirements.txt" (Write "requirements.txt" ?c :: ?l))
    with (c :: written "requirements.txt" l).
  cbn [app]. f_equal.
  apply written_no_write.
  match goal with
  | |- forallb ?P (events (?m ?w)) = true =>
      cut (emits P m); [intros Hm; apply Hm|]
  end.
  emits_auto.
Qed.

Lemma no_run_events (evs : list event) :
  forallb (fun ev => negb (is_run ev)) evs = true ->
  forall cmd mode, ~ In (Run cmd mode) evs.
Proof.
  intros H cmd mode Hin.
  rewrite forallb_forall in H. specialize (H _ Hin). discriminate H.
Qed.

Lemma filter_invokes_artifacts (prog : string) (staged : gmap string string)
    (text : string) :
  List.filter (invokes prog) (artifact_events staged text) = [].
Proof. unfold artifact_events. now destruct (bool_decide _). Qed.

Lemma run_check_ok (e : env) (cmd : list string) (w : world) :
  returncode (run e cmd) = 0%Z ->
  run_check e cmd w = Out [Run cmd Check] w (Ok tt).
Proof. intros H. unfold run_check, bind, emit, ret. cbn. now rewrite H. Qed.

Lemma fail_if_installed (e : env) (b t l : string) (w : world) :
  which e b = true ->
  fail_if_publish_binary_not_installed e b t l w = Out [] w (Ok tt).
Proof. intros H. unfold fail_if_publish_binary_not_installed. now rewrite H. Qed.

Lemma trigger_webhook_run (e : env) (deploy_url : string) (token : option string)
    (w : world) :
  events (_trigger_webhook e deploy_url token w)
  = [Run (webhook_command e deploy_url token) Capture].
Proof.
  unfold _trigger_webhook, bind. rewrite curl_check_run. cbv zeta.
  cbn [events res final].
  assert (curl_command e deploy_url "POST"
            (if truthy token then ["Authorization: Bearer " +:+ or_empty token]
             else []) None
          = webhook_command e deploy_url token) as ->.
  { unfold curl_command, webhook_command. destruct (truthy token); reflexivity. }
  match goal with
  | |- context [if ?b then _ else _] => destruct b
  end; [reflexivity|].
  match goal with
  | |- context [if ?b then _ else _] => destruct b
  end; reflexivity.
Qed.

(** The run of [_publish] up to the choice of a trigger, in direct
    deployment with a build and a push that succeed. *)
Lemma deploy_run (e : env) (a : publish_args) (w : world)
    (staged : gmap string string) :
  generate_github_actions a = false ->
  temporary_docker_directory e (staging_args a) = inr staged ->
  conflict a = false ->
  truthy (generate_dir a) = false ->
  truthy (image a) = true ->
  which e "docker" = true ->
  which e "curl" = true ->
  returncode (run e (build_command (or_empty (image a)))) = 0%Z ->
  returncode (run e (push_command (or_empty (image a)))) = 0%Z ->
  let trigger : M unit :=
    if truthy (dokploy_url a) && truthy (application_id a) && truthy (api_key a)
    then _trigger_dokploy e (or_empty (dokploy_url a))
           (or_empty (application_id a)) (or_empty (api_key a))
    else if truthy (deploy_url a)
         then _trigger_webhook e (or_empty (deploy_url a)) (token a)
         else ret tt in
  let o := trigger (World (bundle_of a staged) (disk w)) in
  events (_publish e a w)
  = artifact_events staged (entry_point_of a)
    ++ Write "requirements.txt" (dependency_list (install a) (branch a))
       :: Run (build_command (or_empty (image a))) Check
       :: Run (push_command (or_empty (image a))) Check
       :: events o
  /\ res (_publish e a w) = res o.
Proof.
  intros Hg Hs Hc Hgd Hi Hd Hcurl Hb Hp. unfold conflict in Hc. cbv zeta.
  split.
  - enter_publish a Hg Hs. rewrite Hc, Hgd, Hgd, Hi. cbn [negb].
    run_refl. rewrite (requirements_settled _ _ Hc).
    run_step (fail_if_installed e "docker" "Docker"
                "https://docs.docker.com/get-docker/"
                (World (bundle_of a staged) (disk w)) Hd).
    run_step (fail_if_installed e "curl" "curl" "https://curl.se/"
                (World (bundle_of a staged) (disk w)) Hcurl).
    run_step (run_check_ok e _ (World (bundle_of a staged) (disk w)) Hb).
    run_step (run_check_ok e _ (World (bundle_of a staged) (disk w)) Hp).
    reflexivity.
  - enter_publish a Hg Hs. rewrite Hc, Hgd, Hgd, Hi. cbn [negb].
    run_refl. rewrite (requirements_settled _ _ Hc).
    run_step (fail_if_installed e "docker" "Docker"
                "https://docs.docker.com/get-docker/"
                (World (bundle_of a staged) (disk w)) Hd).
    run_step (fail_if_installed e "curl" "curl" "https://curl.se/"
                (World (bundle_of a staged) (disk w)) Hcurl).
    run_step (run_check_ok e _ (World (bundle_of a staged) (disk w)) Hb).
    run_step (run_check_ok e _ (World (bundle_of a staged) (disk w)) Hp).
    reflexivity.
Qed.

(** C5: after a build and a push that succeed in direct deployment,
    the two docker invocations are the build and the push, and the
    HTTP client is started by one trigger at most: by the API trigger
    when the URL, the application id and the API key are all given
    (non-empty), whether or not a webhook URL is given too; else by
    the webhook trigger when a webhook URL is given; else not at all,
    and the run succeeds. *)
Theorem trigger_selection (e : env) (a : publish_args) (w : world)
    (staged : gmap string string) :
  generate_github_actions a = false ->
  temporary_docker_directory e (staging_args a) = inr staged ->
  conflict a = false ->
  truthy (generate_dir a) = false ->
  truthy (image a) = true ->
  which e "docker" = true ->
  which e "curl" = true ->
  returncode (run e (build_command (or_empty (image a)))) = 0%Z ->
  returncode (run e (push_command (or_empty (image a)))) = 0%Z ->
  let o := _publish e a w in
  let w' := World (bundle_of a staged) (disk w) in
  let http := List.filter (invokes "curl") (events o) in
  let api :=
    truthy (dokploy_url a) && truthy (application_id a) && truthy (api_key a) in
  List.filter (invokes "docker") (events o)
  = [ Run (build_command (or_empty (image a))) Check;
      Run (push_command (or_empty (image a))) Check ]
  /\ (api = true ->
      http = [ Run (api_trigger_command e (or_empty (dokploy_url a))
                      (or_empty (application_id a)) (or_empty (api_key a)))
                 Capture ]
      /\ res o = res (_trigger_dokploy e (or_empty (dokploy_url a))
                        (or_empty (application_id a)) (or_empty (api_key a)) w'))
  /\ (api = false -> truthy (deploy_url a) = true ->
      http = [ Run (webhook_command e (or_empty (deploy_url a)) (token a))
                 Capture ]
      /\ res o = res (_trigger_webhook e (or_empty (deploy_url a)) (token a) w'))
  /\ (api = false -> truthy (deploy_url a) = false ->
      http = [] /\ res o = Ok tt).
Proof.
  intros Hg Hs Hc Hgd Hi Hd Hcurl Hb Hp. cbv zeta.
  destruct (deploy_run e a w staged Hg Hs Hc Hgd Hi Hd Hcurl Hb Hp) as [E R].
  cbv zeta in E, R. rewrite E, R. clear E R.
  rewrite !List.filter_app, !filter_invokes_artifacts. cbn [app].
  change (List.filter (invokes ?p) (Write ?n ?c :: ?l))
    with (List.filter (invokes p) l).
  unfold build_command, push_command.
  cbn [List.filter invokes String.eqb Ascii.eqb Bool.eqb].
  destruct (truthy (dokploy_url a) && truthy (application_id a)
            && truthy (api_key a)) eqn:Hapi.
  - rewrite trigger_dokploy_events. repeat split; try discriminate.
  - destruct (truthy (deploy_url a)) eqn:Hw.
    + rewrite trigger_webhook_run. repeat split; try discriminate.
    + repeat split; try discriminate.
Qed.

Lemma is_Some_insert (m : gmap string string) (k k' v : string) :
  is_Some (m !! k) -> is_Some (<[k' := v]> m !! k).
Proof.
  intros H. destruct (decide (k' = k)) as [->|Hne].
  - rewrite lookup_insert_eq. eauto.
  - now rewrite lookup_insert_ne.
Qed.

(** The run of [_publish] once the dependency list is written, in
    generate-only mode. *)
Lemma generate_run (e : env) (a : publish_args) (w : world)
    (staged : gmap string string) :
  generate_github_actions a = false ->
  temporary_docker_directory e (staging_args a) = inr staged ->
  conflict a = false ->
  truthy (generate_dir a) = true ->
  truthy (Some (resolve e (or_empty (generate_dir a)))) = true ->
  disk w !! resolve e (or_empty (generate_dir a)) = None ->
  res (_publish e a w) = Ok tt
  /\ final (_publish e a w)
     = World (cwd w)
         (<[resolve e (or_empty (generate_dir a)) := bundle_of a staged]> (disk w)).
Proof.
  intros Hg Hs Hc Hgd Hr Hfree. unfold conflict in Hc.
  assert (copytree (resolve e (or_empty (generate_dir a)))
            (World (bundle_of a staged) (disk w))
          = Out [CopyTree (resolve e (or_empty (generate_dir a)))]
              (World (bundle_of a staged)
                 (<[resolve e (or_empty (generate_dir a)) := bundle_of a staged]>
                    (disk w)))
              (Ok tt)) as Hcopy.
  { unfold copytree. cbn [disk cwd]. now rewrite Hfree. }
  split.
  - enter_publish a Hg Hs. rewrite Hc, Hgd, Hr.
    run_refl. rewrite (requirements_settled _ _ Hc).
    cbn [or_empty]. run_step Hcopy. do 4 run_refl. reflexivity.
  - enter_publish a Hg Hs. rewrite Hc, Hgd, Hr.
    run_refl. rewrite (requirements_settled _ _ Hc).
    cbn [or_empty]. run_step Hcopy. do 4 run_refl. reflexivity.
Qed.

Lemma generate_quiet (e : env) (a : publish_args) :
  generate_github_actions a = false ->
  truthy (generate_dir a) = true ->
  truthy (Some (resolve e (or_empty (generate_dir a)))) = true ->
  emits (fun ev => negb (is_run ev)) (_publish e a).
Proof.
  intros Hg Hgd Hr. unfold _publish. rewrite Hg. cbv zeta. rewrite Hgd, Hr.
  apply emits_staged.
  emits_auto.
Qed.

(** C8 (as amended): with a generate-only directory set and the
    workflow mode off, no process is ever started; and when staging
    succeeds and holds the database files, there is no conflict of a
    branch with a framework requirement, and the target directory does
    not exist yet, the run succeeds and the target directory holds the
    entry point, the build recipe, the dependency list and every
    database file. *)
Theorem generate_only (e : env) (a : publish_args) (w : world)
    (staged : gmap string string) :
  generate_github_actions a = false ->
  truthy (generate_dir a) = true ->
  resolve e (or_empty (generate_dir a)) <> EmptyString ->
  let o := _publish e a w in
  let target := resolve e (or_empty (generate_dir a)) in
  (forall cmd mode, ~ In (Run cmd mode) (events o))
  /\ (temporary_docker_directory e (staging_args a) = inr staged ->
      (forall f, In f (files a) -> is_Some (staged !! basename f)) ->
      conflict a = false ->
      disk w !! target = None ->
      res o = Ok tt
      /\ exists tree,
           disk (final o) !! target = Some tree
           /\ tree !! "index.py" = Some (entry_point_of a)
           /\ tree !! "Dockerfile" = Some DOCKERFILE
           /\ tree !! "requirements.txt"
              = Some (dependency_list (install a) (branch a))
           /\ forall f, In f (files a) -> is_Some (tree !! basename f)).
Proof.
  intros Hg Hgd Hne. cbv zeta.
  assert (truthy (Some (resolve e (or_empty (generate_dir a)))) = true) as Hr
    by (destruct (resolve e (or_empty (generate_dir a))) eqn:E;
        [congruence | reflexivity]).
  split.
  - apply no_run_events, (generate_quiet e a Hg Hgd Hr).
  - intros Hs Hfiles Hc Hfree.
    destruct (generate_run e a w staged Hg Hs Hc Hgd Hr Hfree) as [R F].
    split; [exact R|]. rewrite F. cbn [disk].
    exists (bundle_of a staged). rewrite lookup_insert_eq.
    split; [reflexivity|]. unfold bundle_of.
    split; [|split; [|split]].
    + rewrite lookup_insert_ne by discriminate. apply lookup_insert_eq.
    + rewrite !lookup_insert_ne by discriminate. apply lookup_insert_eq.
    + apply lookup_insert_eq.
    + intros f Hf. do 3 apply is_Some_insert. now apply Hfiles.
Qed.

(** *** The statements on concrete runs *)

(** C3 (as stated) fails in workflow mode: the run prints the workflow
    and succeeds although a branch and a framework requirement are
    both given. *)
Lemma branch_conflict_workflow_counterexample :
  ~ conflict_as_specified (friendly_env staged_test_db)
      (conflicting_args None true) empty_world.
Proof.
  intros H. destruct H as [[message Hm] _].
  - exists "datasette==1.0". split; [now left | reflexivity].
  - reflexivity.
  - vm_compute in Hm. discriminate Hm.
Qed.

Lemma branch_conflict_is_usage_error_witness :
  res (_publish (friendly_env staged_test_db) (conflicting_args None false)
         empty_world)
  = Raise (ClickException conflict_message).
Proof.
  exact (proj2 (branch_conflict_is_usage_error (friendly_env staged_test_db)
                  (conflicting_args None false) empty_world
                  (ex_intro _ "datasette==1.0" (conj (or_introl eq_refl) eq_refl))
                  eq_refl)).
Defined.

Lemma dependency_list_written_witness :
  written "requirements.txt"
    (events (_publish (friendly_env staged_test_db) pinned_args empty_world))
  = [ text_of_lines [ "Datasette>=1.0"; "pysqlite3-binary"; "uvicorn";
                      "datasette-cluster-map"; "uvicorn-extra" ] ].
Proof.
  exact (dependency_list_written (friendly_env staged_test_db) pinned_args
           empty_world staged_test_db eq_refl eq_refl eq_refl).
Defined.

Lemma trigger_selection_witness :
  List.filter (invokes "curl")
    (events (_publish (friendly_env staged_test_db) api_deploy_args empty_world))
  = [ Run (api_trigger_command (friendly_env staged_test_db)
             "https://dokploy.example.com" "app-123" "secret") Capture ].
Proof.
  exact (proj1 (proj1 (proj2 (trigger_selection (friendly_env staged_test_db)
                                api_deploy_args empty_world staged_test_db
                                eq_refl eq_refl eq_refl eq_refl eq_refl eq_refl
                                eq_refl eq_refl eq_refl))
                  eq_refl)).
Defined.

(** C8 (as stated) fails when a branch and a framework requirement
    are both given: the usage error comes before the copy, and the
    target directory is not written. *)
Lemma generate_only_conflict_counterexample :
  ~ generate_only_as_specified (friendly_env staged_test_db)
      (conflicting_args (Some "app") false) empty_world.
Proof.
  intros H. destruct (H eq_refl eq_refl) as (_ & R & _).
  vm_compute in R. discriminate R.
Qed.

Lemma generate_only_witness :
  res (_publish (friendly_env staged_test_db) generate_args empty_world) = Ok tt
  /\ exists tree,
       disk (final (_publish (friendly_env staged_test_db) generate_args
                      empty_world)) !! "/work/app" = Some tree
       /\ tree !! "index.py" = Some (entry_point_of generate_args)
       /\ tree !! "Dockerfile" = Some DOCKERFILE
       /\ tree !! "requirements.txt"
          = Some (text_of_lines [ "datasette"; "pysqlite3-binary"; "uvicorn";
                                  "datasette-cluster-map" ])
       /\ forall f, In f ["test.db"] -> is_Some (tree !! basename f).
Proof.
  refine (proj2 (generate_only (friendly_env staged_test_db) generate_args
                   empty_world staged_test_db eq_refl eq_refl _)
            eq_refl _ eq_refl eq_refl).
  - discriminate.
  - intros f [<-|[]]. eexists. reflexivity.
Defined.

(** * Further properties *)

(** ** Stripping and lowercasing *)

Lemma isspace_lower_char (c : ascii) : isspace (lower_char c) = isspace c.
Proof. destruct c as [[] [] [] [] [] [] [] []]; reflexivity. Qed.

Lemma lower_char_idempotent (c : ascii) :
  lower_char (lower_char c) = lower_char c.
Proof. destruct c as [[] [] [] [] [] [] [] []]; reflexivity. Qed.

Lemma lower_idempotent (s : string) : lower (lower s) = lower s.
Proof.
  induction s as [|c s IH]; [reflexivity|].
  cbn [lower]. now rewrite lower_char_idempotent, IH.
Qed.

Lemma is_empty_lower (s : string) : is_empty (lower s) = is_empty s.
Proof. now destruct s. Qed.

Lemma lstrip_lower (s : string) :
  lstrip_by isspace (lower s) = lower (lstrip_by isspace s).
Proof.
  induction s as [|c s IH]; [reflexivity|].
  cbn [lower lstrip_by]. rewrite isspace_lower_char.
  destruct (isspace c); [exact IH | reflexivity].
Qed.

Lemma rstrip_lower (s : string) :
  rstrip_by isspace (lower s) = lower (rstrip_by isspace s).
Proof.
  induction s as [|c s IH]; [reflexivity|].
  cbn [lower rstrip_by]. rewrite isspace_lower_char, IH, is_empty_lower.
  destruct (isspace c && is_empty (rstrip_by isspace s)); reflexivity.
Qed.

Lemma strip_lower (s : string) : strip (lower s) = lower (strip s).
Proof. unfold strip. now rewrite lstrip_lower, rstrip_lower. Qed.

Lemma rstrip_nonempty_last (p : ascii -> bool) (s : string) :
  is_empty (rstrip_by p s) = all_chars p s.
Proof.
  induction s as [|c s IH]; [reflexivity|].
  cbn [rstrip_by all_chars]. rewrite IH.
  destruct (p c), (all_chars p s); reflexivity.
Qed.

Lemma rstrip_idempotent (p : ascii -> bool) (s : string) :
  rstrip_by p (rstrip_by p s) = rstrip_by p s.
Proof.
  induction s as [|c s IH]; [reflexivity|].
  cbn [rstrip_by].
  destruct (p c && is_empty (rstrip_by p s)) eqn:H; [reflexivity|].
  cbn [rstrip_by]. rewrite IH, H. reflexivity.
Qed.

Lemma lstrip_head (p : ascii -> bool) (s : string) :
  match lstrip_by p s with
  | String c _ => p c = false
  | EmptyString => True
  end.
Proof.
  induction s as [|c s IH]; [exact I|].
  cbn [lstrip_by]. destruct (p c) eqn:H; [exact IH | exact H].
Qed.

Lemma rstrip_keeps_head (p : ascii -> bool) (c : ascii) (s : string) :
  p c = false -> rstrip_by p (String c s) = String c (rstrip_by p s).
Proof. intros H. cbn [rstrip_by]. now rewrite H. Qed.

Lemma lstrip_of_head (p : ascii -> bool) (c : ascii) (s : string) :
  p c = false -> lstrip_by p (String c s) = String c s.
Proof. intros H. cbn [lstrip_by]. now rewrite H. Qed.

Lemma strip_idempotent (s : string) : strip (strip s) = strip s.
Proof.
  unfold strip. pose proof (lstrip_head isspace s) as H.
  destruct (lstrip_by isspace s) as [|c r]; [reflexivity|].
  rewrite (rstrip_keeps_head _ _ _ H), (lstrip_of_head _ _ _ H).
  rewrite (rstrip_keeps_head _ _ _ H). f_equal. apply rstrip_idempotent.
Qed.

Lemma strip_blank (s : string) :
  all_chars isspace s = true -> strip s = EmptyString.
Proof.
  intros H. unfold strip.
  assert (lstrip_by isspace s = EmptyString) as ->; [|reflexivity].
  induction s as [|c s IH]; [reflexivity|].
  cbn [all_chars] in H. apply andb_true_iff in H as [Hc Hs].
  cbn [lstrip_by]. rewrite Hc. now apply IH.
Qed.

(** ** More on the requirement recogniser *)

(** X1: the recogniser looks through case and surrounding white space:
    lowercasing or stripping a requirement does not change the
    answer. *)
Theorem looks_like_ignores_case_and_padding (s : string) :
  _looks_like_datasette_requirement (Some (lower s))
  = _looks_like_datasette_requirement (Some s)
  /\ _looks_like_datasette_requirement (Some (strip s))
     = _looks_like_datasette_requirement (Some s).
Proof.
  unfold _looks_like_datasette_requirement. cbn [or_empty].
  now rewrite strip_lower, lower_idempotent, strip_idempotent.
Qed.

(** X2: a missing, empty or blank requirement is not recognised. *)
Theorem looks_like_rejects_blank (s : string) :
  all_chars isspace s = true ->
  _looks_like_datasette_requirement (Some s) = false
  /\ _looks_like_datasette_requirement None = false.
Proof.
  intros H. split; [|reflexivity].
  unfold _looks_like_datasette_requirement. cbn [or_empty].
  now rewrite (strip_blank s H).
Qed.

Lemma looks_like_rejects_blank_witness :
  _looks_like_datasette_requirement (Some "   ") = false
  /\ _looks_like_datasette_requirement None = false.
Proof. apply (looks_like_rejects_blank "   "). reflexivity. Defined.

Lemma lower_char_follow (c : ascii) :
  In (lower_char c) follow_chars -> In c follow_chars.
Proof.
  unfold follow_chars. cbn [In].
  destruct c as [[] [] [] [] [] [] [] []]; cbn;
    intuition (try discriminate; auto).
Qed.

(** X3: the framework name followed by any other character (a letter,
    a digit, a hyphen, an underscore, ...) is the name of another
    package and is never recognised, whatever follows. *)
Theorem looks_like_rejects_longer_names (c : ascii) (rest : string) :
  isspace c = false ->
  ~ In c follow_chars ->
  _looks_like_datasette_requirement (Some ("datasette" +:+ String c rest))
  = false.
Proof.
  intros Hs Hc.
  destruct (_looks_like_datasette_requirement _) eqn:E; [|reflexivity].
  exfalso. apply looks_like_normalised in E. cbn [or_empty] in E.
  assert (exists r, strip ("datasette" +:+ String c rest)
                    = "datasette" +:+ String c r) as [r Hr].
  { unfold strip.
    change (lstrip_by isspace ("datasette" +:+ String c rest))
      with ("datasette" +:+ String c rest).
    exists (rstrip_by isspace rest).
    change ("datasette" +:+ String c ?x)
      with (String "d" (String "a" (String "t" (String "a" (String "s"
             (String "e" (String "t" (String "t" (String "e" (String c x)))))))))).
    repeat (rewrite rstrip_keeps_head by reflexivity; f_equal).
    now rewrite (rstrip_keeps_head _ _ _ Hs). }
  rewrite Hr in E.
  change (lower ("datasette" +:+ String c r))
    with ("datasette" +:+ String (lower_char c) (lower r)) in E.
  destruct E as [E|(c' & rest' & E & Hin)]; [discriminate|].
  injection E as E _. subst c'. apply Hc, lower_char_follow, Hin.
Qed.

Lemma looks_like_rejects_longer_names_witness :
  _looks_like_datasette_requirement (Some "datasette_leaflet>=0.2") = false.
Proof.
  apply (looks_like_rejects_longer_names "_" "leaflet>=0.2").
  - reflexivity.
  - cbn. intuition discriminate.
Defined.

(** ** The [--setting] option *)

Lemma digit_value_range (c : ascii) :
  is_digit c = true -> (0 <= digit_value c <= 9)%Z.
Proof.
  destruct c as [[] [] [] [] [] [] [] []]; try discriminate; cbv; intuition discriminate.
Qed.

Lemma int_digits_nonneg (s : string) : forall (acc : Z) (b : bool) (n : Z),
  (0 <= acc)%Z -> int_digits acc b s = Some n -> (0 <= n)%Z.
Proof.
  induction s as [|c s IH]; intros acc b n Hacc H; cbn [int_digits] in H.
  - destruct b; [|discriminate]. now injection H as <-.
  - destruct (is_digit c) eqn:Hd.
    + pose proof (digit_value_range c Hd).
      eapply IH; [|exact H]. lia.
    + destruct (Ascii.eqb c "_" && b); [|discriminate].
      eapply IH; [|exact H]. exact Hacc.
Qed.

Lemma isdigit_no_space (s : string) :
  Setting.isdigit s = true -> strip s = s.
Proof.
  unfold Setting.isdigit. intros [_ H]%andb_true_iff. unfold strip.
  assert (forall c, Setting.isdigit_char c = true -> isspace c = false) as Hc.
  { intros c. destruct c as [[] [] [] [] [] [] [] []]; cbv; congruence. }
  destruct s as [|c s]; [reflexivity|].
  cbn [all_chars] in H. apply andb_true_iff in H as [H1 H2].
  rewrite (lstrip_of_head _ _ _ (Hc _ H1)).
  rewrite (rstrip_keeps_head _ _ _ (Hc _ H1)). f_equal.
  induction s as [|d s IH]; [reflexivity|].
  cbn [all_chars] in H2. apply andb_true_iff in H2 as [H3 H4].
  rewrite (rstrip_keeps_head _ _ _ (Hc _ H3)). f_equal. now apply IH.
Qed.

Lemma isdigit_unsigned (s : string) :
  Setting.isdigit s = true -> int_of_str s = int_digits 0 false s.
Proof.
  intros H. unfold int_of_str. rewrite (isdigit_no_space s H).
  unfold Setting.isdigit in H. apply andb_true_iff in H as [He H].
  destruct s as [|c s]; [discriminate He|].
  cbn [all_chars] in H. apply andb_true_iff in H as [Hc _].
  destruct c as [[] [] [] [] [] [] [] []]; try discriminate Hc; reflexivity.
Qed.

(** X4: whatever [convert] returns is a setting of the registry under
    its own name, with a value of the registered type; an integer
    value is never negative.  An unknown name is refused with a
    message that names it. *)
Theorem convert_sound (DEFAULT_SETTINGS : gmap string Setting.default)
    (value_as_boolean : string -> option bool) (name value : string) :
  (forall n v,
      Setting.convert DEFAULT_SETTINGS value_as_boolean (name, value)
      = Setting.Converted n v ->
      n = name
      /\ (exists d, DEFAULT_SETTINGS !! name = Some d
                    /\ Setting.same_type d v = true)
      /\ (forall z, v = VInt z -> (0 <= z)%Z))
  /\ (DEFAULT_SETTINGS !! name = None ->
      Setting.convert DEFAULT_SETTINGS value_as_boolean (name, value)
      = Setting.Fail
          (name +:+ " is not a valid option (--help-config to see all)")).
Proof.
  split.
  - intros n v. unfold Setting.convert.
    destruct (DEFAULT_SETTINGS !! name) as [[b|z0|s|]|] eqn:Hd;
      try discriminate.
    + destruct (value_as_boolean value); [|discriminate].
      intros [= <- <-]. repeat split; eauto. discriminate.
    + destruct (Setting.isdigit value) eqn:Hi; [|discriminate]. cbn [negb].
      rewrite (isdigit_unsigned _ Hi).
      destruct (int_digits 0 false value) as [m|] eqn:Hm; [|discriminate].
      intros [= <- <-]. repeat split; eauto.
      intros z [= <-]. now apply (int_digits_nonneg _ _ _ _ (Z.le_refl 0) Hm).
    + intros [= <- <-]. repeat split; eauto. discriminate.
  - intros H. unfold Setting.convert. now rewrite H.
Qed.

Lemma int_digits_uint_acc (u : uint) : forall acc : positive,
  int_digits (Z.pos acc) true (NilEmpty.string_of_uint u)
  = Some (Z.pos (Pos.of_uint_acc u acc)).
Proof.
  induction u as [|u IH|u IH|u IH|u IH|u IH|u IH|u IH|u IH|u IH|u IH];
    intros acc; [reflexivity|..];
    cbn [NilEmpty.string_of_uint int_digits Pos.of_uint_acc];
    (match goal with
     | |- context [if is_digit ?c then _ else _] =>
         change (is_digit c) with true
     end);
    cbv iota; rewrite <- IH; f_equal; unfold digit_value; cbn; lia.
Qed.

Lemma int_digits_uint (u : uint) :
  int_digits 0 true (NilEmpty.string_of_uint u)
  = Some (Z.of_N (Pos.of_uint u)).
Proof.
  induction u as [|u IH|u IH|u IH|u IH|u IH|u IH|u IH|u IH|u IH|u IH];
    [reflexivity | exact IH |..];
    cbn [NilEmpty.string_of_uint int_digits Pos.of_uint];
    (match goal with
     | |- context [if is_digit ?c then _ else _] =>
         change (is_digit c) with true
     end);
    cbv iota; apply (int_digits_uint_acc u).
Qed.

Lemma int_digits_uint_start (u : uint) :
  u <> Nil ->
  int_digits 0 false (NilEmpty.string_of_uint u)
  = Some (Z.of_N (Pos.of_uint u)).
Proof.
  intros Hu. rewrite <- int_digits_uint. destruct u; [congruence | reflexivity..].
Qed.

Lemma isdigit_uint (u : uint) :
  all_chars Setting.isdigit_char (NilEmpty.string_of_uint u) = true.
Proof. induction u; [reflexivity | exact IHu..]. Qed.

Lemma str_of_int_nonneg (n : Z) :
  (0 <= n)%Z ->
  Setting.isdigit (str_of_int n) = true
  /\ int_of_str (str_of_int n) = Some n.
Proof.
  intros Hn. destruct n as [|p|p]; [split; reflexivity | | lia].
  assert (Setting.isdigit (str_of_int (Z.pos p)) = true) as Hd.
  { unfold str_of_int, Setting.isdigit. cbn [Z.to_int NilZero.string_of_int].
    pose proof (Unsigned.to_uint_nonnil p) as Hp.
    rewrite (string_of_uint_nonnil _ Hp), isdigit_uint.
    destruct (Pos.to_uint p); [congruence | reflexivity..]. }
  split; [exact Hd|]. rewrite (isdigit_unsigned _ Hd).
  unfold str_of_int. cbn [Z.to_int NilZero.string_of_int].
  pose proof (Unsigned.to_uint_nonnil p) as Hp.
  rewrite (string_of_uint_nonnil _ Hp), (int_digits_uint_start _ Hp).
  now rewrite DecimalPos.Unsigned.of_to.
Qed.

(** X5: an integer setting given as the decimal text of a number that
    is not negative converts to that number; the decimal text of a
    negative number is refused as not an integer.  Python's [int]
    refuses a text of more than 4300 digits, which [int_of_str] does
    not model: the statement stays within that limit. *)
Theorem convert_integer (DEFAULT_SETTINGS : gmap string Setting.default)
    (value_as_boolean : string -> option bool) (name : string) (d n : Z) :
  DEFAULT_SETTINGS !! name = Some (Setting.DInt d) ->
  String.length (str_of_int n) <= 4300 ->
  Setting.convert DEFAULT_SETTINGS value_as_boolean (name, str_of_int n)
  = if (0 <=? n)%Z then Setting.Converted name (VInt n)
    else Setting.Fail (q +:+ name +:+ q +:+ " should be an integer").
Proof.
  intros H _. unfold Setting.convert. rewrite H.
  destruct (Z.leb_spec 0 n) as [Hn|Hn].
  - destruct (str_of_int_nonneg n Hn) as [-> ->]. reflexivity.
  - destruct n as [|p|p]; try lia. reflexivity.
Qed.

Lemma convert_integer_witness :
  Setting.convert sample_settings sample_value_as_boolean
    ("default_page_size", "2000")
  = Setting.Converted "default_page_size" (VInt 2000).
Proof.
  apply (convert_integer sample_settings sample_value_as_boolean
           "default_page_size" 100 2000).
  - reflexivity.
  - vm_compute. lia.
Defined.

Lemma int_digits_superscript (s : string) : forall (acc : Z) (b : bool),
  all_chars Setting.isdigit_char s = true ->
  all_chars is_digit s = false ->
  int_digits acc b s = None.
Proof.
  induction s as [|c s IH]; intros acc b Hd Ha; [discriminate Ha|].
  cbn [all_chars] in Hd, Ha. apply andb_true_iff in Hd as [Hc Hs].
  cbn [int_digits]. destruct (is_digit c) eqn:Hx.
  - cbn [andb] in Ha. now apply IH.
  - replace (Ascii.eqb c "_") with false; [reflexivity|].
    destruct c as [[] [] [] [] [] [] [] []]; try discriminate Hc; reflexivity.
Qed.

Lemma superscript_not_decimal (value : string) :
  any_char Setting.superscript_digit value = true ->
  all_chars is_digit value = false.
Proof.
  unfold any_char. intros H. apply negb_true_iff in H.
  induction value as [|c s IH]; [discriminate H|].
  cbn [all_chars] in H |- *. apply andb_false_iff in H as [H|H].
  - apply negb_false_iff in H. apply andb_false_iff. left.
    destruct c as [[] [] [] [] [] [] [] []]; try discriminate H; reflexivity.
  - apply andb_false_iff. right. now apply IH.
Qed.

(** X6: on the strings over the code points below 256, a value that
    [isdigit] lets through and that holds a superscript digit
    (U+00B2, U+00B3 or U+00B9) makes [int] raise [ValueError];
    [convert] does not catch it, so the run ends with that error and
    not with a usage error. *)
Theorem convert_superscript_digit (DEFAULT_SETTINGS : gmap string Setting.default)
    (value_as_boolean : string -> option bool) (name value : string) (d : Z) :
  DEFAULT_SETTINGS !! name = Some (Setting.DInt d) ->
  Setting.isdigit value = true ->
  any_char Setting.superscript_digit value = true ->
  Setting.convert DEFAULT_SETTINGS value_as_boolean (name, value)
  = Setting.ValueError.
Proof.
  intros H Hd Ha. apply superscript_not_decimal in Ha.
  unfold Setting.convert. rewrite H, Hd. cbn [negb].
  rewrite (isdigit_unsigned _ Hd), int_digits_superscript; [reflexivity| |exact Ha].
  unfold Setting.isdigit in Hd. now apply andb_true_iff in Hd as [_ Hd].
Qed.

Lemma convert_superscript_digit_witness :
  Setting.convert sample_settings sample_value_as_boolean
    ("default_page_size", String "1" (String "178" EmptyString))
  = Setting.ValueError.
Proof.
  exact (convert_superscript_digit sample_settings sample_value_as_boolean
           "default_page_size" (String "1" (String "178" EmptyString)) 100
           eq_refl eq_refl eq_refl).
Defined.

(** ** The two triggers *)

(** X7: the webhook trigger starts the client exactly once, for a POST
    to the webhook URL as given, without a body; the bearer token is
    sent in an [Authorization] header when a non-empty token is
    given, and no header is sent otherwise. *)
Theorem trigger_webhook_request (e : env) (deploy_url : string)
    (token : option string) (w : world) :
  events (_trigger_webhook e deploy_url token w)
  = [ Run ([ "curl"; "-sS"; "-X"; "POST"; deploy_url;
             "-o"; body_file_name e; "-w"; "%{http_code}" ]
           ++ match token with
              | Some (String c t) =>
                  ["-H"; "Authorization: Bearer " +:+ String c t]
              | _ => []
              end)
        Capture ].
Proof.
  rewrite trigger_webhook_run. unfold webhook_command.
  destruct token as [[|c t]|]; reflexivity.
Qed.

Lemma trigger_dokploy_res (e : env) (u i k : string) (w : world) :
  let o := _curl_check e (rstrip_slash u +:+ "/api/application.deploy") "POST"
             [ "x-api-key: " +:+ k; "accept: application/json";
               "content-type: application/json" ]
             (Some (dumps_dict (dict [("applicationId", VStr i)]))) w in
  res (_trigger_dokploy e u i k w)
  = match res o with
    | Ok _ => Ok tt
    | Raise x => Raise x
    end
  /\ final (_trigger_dokploy e u i k w) = final o.
Proof.
  cbv zeta. unfold _trigger_dokploy, bind.
  destruct (res (_curl_check _ _ _ _ _ _)); split; reflexivity.
Qed.

Lemma trigger_webhook_res (e : env) (d : string) (t : option string) (w : world) :
  let o := _curl_check e d "POST"
             (if truthy t then ["Authorization: Bearer " +:+ or_empty t] else [])
             None w in
  res (_trigger_webhook e d t w)
  = match res o with
    | Ok _ => Ok tt
    | Raise x => Raise x
    end
  /\ final (_trigger_webhook e d t w) = final o.
Proof.
  cbv zeta. unfold _trigger_webhook, bind.
  destruct (res (_curl_check _ _ _ _ _ _)); split; reflexivity.
Qed.

(** X8: both triggers succeed exactly when the client exits zero with
    a status in [200,300); the response body is then dropped.
    Otherwise they fail with the error of the HTTP caller: after a
    zero exit, [HTTP <status>: ] and the stripped body or the
    placeholder. *)
Theorem trigger_outcomes (e : env) (dokploy_url application_id api_key : string)
    (deploy_url : string) (token : option string) (w : world) :
  let api := run e (api_trigger_command e dokploy_url application_id api_key) in
  let hook := run e (webhook_command e deploy_url token) in
  let failure (p : completed) (cmd : list string) : result unit :=
    Raise (ClickException
             (if negb (returncode p =? 0)%Z
              then (if is_empty (client_diagnostic p)
                    then "curl failed with code " +:+ str_of_int (returncode p)
                    else client_diagnostic p)
              else "HTTP " +:+ str_of_int (status_code p) +:+ ": "
                   +:+ body_or_placeholder (response_body e cmd))) in
  res (_trigger_dokploy e dokploy_url application_id api_key w)
  = (if (returncode api =? 0)%Z && in_2xx (status_code api) then Ok tt
     else failure api
            (api_trigger_command e dokploy_url application_id api_key))
  /\ res (_trigger_webhook e deploy_url token w)
     = (if (returncode hook =? 0)%Z && in_2xx (status_code hook) then Ok tt
        else failure hook (webhook_command e deploy_url token)).
Proof.
  cbv zeta.
  destruct (trigger_dokploy_res e dokploy_url application_id api_key w) as [R1 _].
  destruct (trigger_webhook_res e deploy_url token w) as [R2 _].
  cbv zeta in R1, R2. rewrite R1, R2. clear R1 R2.
  rewrite !curl_check_run. cbv zeta. cbn [res final].
  assert (curl_command e (rstrip_slash dokploy_url +:+ "/api/application.deploy")
            "POST"
            ["x-api-key: " +:+ api_key; "accept: application/json";
             "content-type: application/json"]
            (Some (dumps_dict (dict [("applicationId", VStr application_id)])))
          = api_trigger_command e dokploy_url application_id api_key) as ->
    by (unfold curl_command, api_trigger_command; repeat f_equal).
  assert (curl_command e deploy_url "POST"
            (if truthy token then ["Authorization: Bearer " +:+ or_empty token]
             else []) None
          = webhook_command e deploy_url token) as ->
    by (unfold curl_command, webhook_command; destruct (truthy token); reflexivity).
  repeat split;
    match goal with
    | |- context [(returncode ?p =? 0)%Z] =>
        destruct (returncode p =? 0)%Z; cbn [negb andb]; [|reflexivity];
        destruct (in_2xx (status_code p)); reflexivity
    end.
Qed.

(** ** More on the publish workflow *)

Lemma world_eta (w : world) : World (cwd w) (disk w) = w.
Proof. now destruct w. Qed.

Lemma bind_raise_eq {A B} (m : M A) (k : A -> M B) (w w1 : world)
    (evs : list event) (x : exn) :
  m w = Out evs w1 (Raise x) -> bind m k w = Out evs w1 (Raise x).
Proof. intros H. unfold bind. now rewrite H. Qed.

Lemma out_eta_eq {A} (o : out A) : o = Out (events o) (final o) (res o).
Proof. now destruct o. Qed.

(** Entering [_publish] up to the point where the three files are
    written and the mode of delivery is chosen. *)
Ltac to_delivery a Hg Hs Hc :=
  enter_publish a Hg Hs; rewrite Hc; run_refl;
  rewrite (requirements_settled _ _ Hc).



Lemma staging_failure_propagates_eq (e : env) (a : publish_args) (w : world)
    (x : exn) :
  generate_github_actions a = false ->
  temporary_docker_directory e (staging_args a) = inl x ->
  _publish e a w = Out [] w (Raise x).
Proof.
  intros Hg Hs. unfold _publish. rewrite Hg.
  unfold with_temporary_docker_directory. now rewrite Hs.
Qed.

(** X10: when the staging collaborator fails, its exception ends the
    run unchanged: [_publish] itself writes, prints and starts
    nothing. *)
Theorem staging_failure_propagates (e : env) (a : publish_args) (w : world)
    (x : exn) :
  generate_github_actions a = false ->
  temporary_docker_directory e (staging_args a) = inl x ->
  _publish e a w = Out [] w (Raise x).
Proof.
  intros Hg Hs. unfold _publish. rewrite Hg.
  unfold with_temporary_docker_directory. now rewrite Hs.
Qed.

Lemma staging_failure_propagates_witness :
  _publish (failing_env (CollaboratorError "no such file")) generate_args
    empty_world
  = Out [] empty_world (Raise (CollaboratorError "no such file")).
Proof.
  exact (staging_failure_propagates
           (failing_env (CollaboratorError "no such file")) generate_args
           empty_world (CollaboratorError "no such file") eq_refl eq_refl).
Defined.

(** *** Direct deployment: what stops a run *)

(** X12: a direct deployment without an image stops with the usage
    error that points to the generate-only mode, after the three
    files are written in the staged directory and before any process
    is started; the world is left as it was. *)
Theorem image_required (e : env) (a : publish_args) (w : world)
    (staged : gmap string string) :
  generate_github_actions a = false ->
  temporary_docker_directory e (staging_args a) = inr staged ->
  conflict a = false ->
  truthy (generate_dir a) = false ->
  truthy (image a) = false ->
  _publish e a w
  = Out (artifact_events staged (entry_point_of a)
         ++ [Write "requirements.txt" (dependency_list (install a) (branch a))])
      w
      (Raise (ClickException
                "--image is required for direct deployment. Use --generate-dir to export files instead.")).
Proof.
  intros Hg Hs Hc Hgd Hi. unfold conflict in Hc.
  rewrite (out_eta_eq (_publish e a w)). f_equal.
  - to_delivery a Hg Hs Hc. rewrite Hgd, Hgd, Hi. reflexivity.
  - to_delivery a Hg Hs Hc. rewrite Hgd, Hgd, Hi. cbn [negb raise final disk].
    apply world_eta.
  - to_delivery a Hg Hs Hc. rewrite Hgd, Hgd, Hi. reflexivity.
Qed.

Lemma image_required_witness :
  res (_publish (friendly_env staged_test_db) (deploy_args None) empty_world)
  = Raise (ClickException
             "--image is required for direct deployment. Use --generate-dir to export files instead.").
Proof.
  exact (f_equal res
           (image_required (friendly_env staged_test_db) (deploy_args None)
              empty_world staged_test_db
              eq_refl eq_refl eq_refl eq_refl eq_refl)).
Defined.

Lemma fail_if_missing (e : env) (b t l : string) (w : world) :
  which e b = false ->
  fail_if_publish_binary_not_installed e b t l w
  = Out (missing_binary_events b t l) w (Raise (SystemExit 1)).
Proof. intros H. unfold fail_if_publish_binary_not_installed. now rewrite H. Qed.

Lemma run_check_failed (e : env) (cmd : list string) (w : world) :
  returncode (run e cmd) <> 0%Z ->
  run_check e cmd w
  = Out [Run cmd Check] w
      (Raise (ClickException_of_CalledProcessError cmd (returncode (run e cmd)))).
Proof.
  intros H. unfold run_check, bind, emit, raise. cbn.
  destruct (Z.eqb_spec (returncode (run e cmd)) 0); [contradiction | reflexivity].
Qed.

(** Stopping at a step that raises. *)
Ltac stop_at H :=
  match goal with
  | |- context [bind ?m ?k ?w] => rewrite (bind_raise_eq m k w _ _ _ H)
  end.

(** X13: a direct deployment checks for the container engine and then
    for the HTTP client before it starts anything: when one of them
    is missing the run prints the two diagnostics that name the tool
    and where to get it, and exits with status 1 without having
    started a process. *)
Theorem missing_binary (e : env) (a : publish_args) (w : world)
    (staged : gmap string string) :
  generate_github_actions a = false ->
  temporary_docker_directory e (staging_args a) = inr staged ->
  conflict a = false ->
  truthy (generate_dir a) = false ->
  truthy (image a) = true ->
  let written :=
    artifact_events staged (entry_point_of a)
    ++ [Write "requirements.txt" (dependency_list (install a) (branch a))] in
  (which e "docker" = false ->
   _publish e a w
   = Out (written
          ++ missing_binary_events "docker" "Docker"
               "https://docs.docker.com/get-docker/")
       w (Raise (SystemExit 1)))
  /\ (which e "docker" = true -> which e "curl" = false ->
      _publish e a w
      = Out (written ++ missing_binary_events "curl" "curl" "https://curl.se/")
          w (Raise (SystemExit 1))).
Proof.
  intros Hg Hs Hc Hgd Hi. unfold conflict in Hc. cbv zeta. split.
  - intros Hd. rewrite (out_eta_eq (_publish e a w)).
    pose proof (fail_if_missing e "docker" "Docker"
                  "https://docs.docker.com/get-docker/"
                  (World (bundle_of a staged) (disk w)) Hd) as Hm.
    f_equal.
    + to_delivery a Hg Hs Hc. rewrite Hgd, Hgd, Hi. cbn [negb].
      stop_at Hm. cbn [events]. now rewrite <- app_assoc.
    + to_delivery a Hg Hs Hc. rewrite Hgd, Hgd, Hi. cbn [negb].
      stop_at Hm. cbn [final disk]. apply world_eta.
    + to_delivery a Hg Hs Hc. rewrite Hgd, Hgd, Hi. cbn [negb].
      stop_at Hm. reflexivity.
  - intros Hd Hcurl. rewrite (out_eta_eq (_publish e a w)).
    pose proof (fail_if_installed e "docker" "Docker"
                  "https://docs.docker.com/get-docker/"
                  (World (bundle_of a staged) (disk w)) Hd) as Hok.
    pose proof (fail_if_missing e "curl" "curl" "https://curl.se/"
                  (World (bundle_of a staged) (disk w)) Hcurl) as Hm.
    f_equal.
    + to_delivery a Hg Hs Hc. rewrite Hgd, Hgd, Hi. cbn [negb].
      run_step Hok. stop_at Hm. cbn [events app]. now rewrite <- app_assoc.
    + to_delivery a Hg Hs Hc. rewrite Hgd, Hgd, Hi. cbn [negb].
      run_step Hok. stop_at Hm. cbn [final disk]. apply world_eta.
    + to_delivery a Hg Hs Hc. rewrite Hgd, Hgd, Hi. cbn [negb].
      run_step Hok. stop_at Hm. reflexivity.
Qed.

Lemma missing_binary_witness :
  res (_publish
         (chosen_env staged_test_db (fun b => negb (String.eqb b "curl"))
            (fun _ => 0%Z))
         (deploy_args (Some "ghcr.io/me/repo:latest")) empty_world)
  = Raise (SystemExit 1).
Proof.
  exact (f_equal res
           (proj2
              (missing_binary
                 (chosen_env staged_test_db
                    (fun b => negb (String.eqb b "curl")) (fun _ => 0%Z))
                 (deploy_args (Some "ghcr.io/me/repo:latest")) empty_world
                 staged_test_db eq_refl eq_refl eq_refl eq_refl eq_refl)
              eq_refl eq_refl)).
Defined.

(** The run of [_publish] in terms of its delivery. *)
Lemma publish_delivery (e : env) (a : publish_args) (w : world)
    (staged : gmap string string) :
  generate_github_actions a = false ->
  temporary_docker_directory e (staging_args a) = inr staged ->
  conflict a = false ->
  let o := delivery e a (World (bundle_of a staged) (disk w)) in
  _publish e a w
  = Out (written_events a staged ++ events o) (World (cwd w) (disk (final o)))
      (res o).
Proof.
  intros Hg Hs Hc. unfold conflict in Hc. cbv zeta.
  rewrite (out_eta_eq (_publish e a w)). f_equal.
  - to_delivery a Hg Hs Hc. unfold written_events. now rewrite <- app_assoc.
  - to_delivery a Hg Hs Hc. reflexivity.
  - to_delivery a Hg Hs Hc. reflexivity.
Qed.

Lemma publish_conflict (e : env) (a : publish_args) (w : world)
    (staged : gmap string string) :
  generate_github_actions a = false ->
  temporary_docker_directory e (staging_args a) = inr staged ->
  conflict a = true ->
  _publish e a w
  = Out (artifact_events staged (entry_point_of a)) w
      (Raise (ClickException conflict_message)).
Proof.
  intros Hg Hs Hc. unfold conflict in Hc.
  rewrite (out_eta_eq (_publish e a w)). f_equal.
  - enter_publish a Hg Hs. rewrite Hc. cbn [raise events]. apply app_nil_r.
  - enter_publish a Hg Hs. rewrite Hc. cbn [raise final disk]. apply world_eta.
  - enter_publish a Hg Hs. rewrite Hc. reflexivity.
Qed.

(** The delivery of a direct deployment, once the image is given and
    both binaries are found. *)
Lemma delivery_direct (e : env) (a : publish_args) (w : world) :
  truthy (generate_dir a) = false ->
  truthy (image a) = true ->
  which e "docker" = true ->
  which e "curl" = true ->
  delivery e a w
  = (run_check e (build_command (or_empty (image a))) >>
     run_check e (push_command (or_empty (image a))) >>
     if truthy (dokploy_url a) && truthy (application_id a)
        && truthy (api_key a)
     then _trigger_dokploy e (or_empty (dokploy_url a))
            (or_empty (application_id a)) (or_empty (api_key a))
     else if truthy (deploy_url a)
     then _trigger_webhook e (or_empty (deploy_url a)) (token a)
     else ret tt) w.
Proof.
  intros Hgd Hi Hd Hc. unfold delivery. cbv zeta. rewrite Hgd, Hgd, Hi.
  cbn [negb]. rewrite (out_eta_eq (bind _ _ w)).
  rewrite (out_eta_eq (bind (run_check _ _) _ w)).
  f_equal.
  - run_step (fail_if_installed e "docker" "Docker"
                "https://docs.docker.com/get-docker/" w Hd).
    run_step (fail_if_installed e "curl" "curl" "https://curl.se/" w Hc).
    reflexivity.
  - run_step (fail_if_installed e "docker" "Docker"
                "https://docs.docker.com/get-docker/" w Hd).
    run_step (fail_if_installed e "curl" "curl" "https://curl.se/" w Hc).
    reflexivity.
  - run_step (fail_if_installed e "docker" "Docker"
                "https://docs.docker.com/get-docker/" w Hd).
    run_step (fail_if_installed e "curl" "curl" "https://curl.se/" w Hc).
    reflexivity.
Qed.

(** X14: when the build fails, the push is not attempted and no trigger
    is called; when the build succeeds and the push fails, no trigger
    is called.  The run ends with the failure of the command, and the
    world is left as it was. *)
Theorem build_or_push_failure (e : env) (a : publish_args) (w : world)
    (staged : gmap string string) :
  generate_github_actions a = false ->
  temporary_docker_directory e (staging_args a) = inr staged ->
  conflict a = false ->
  truthy (generate_dir a) = false ->
  truthy (image a) = true ->
  which e "docker" = true ->
  which e "curl" = true ->
  let build := build_command (or_empty (image a)) in
  let push := push_command (or_empty (image a)) in
  (returncode (run e build) <> 0%Z ->
   _publish e a w
   = Out (written_events a staged ++ [Run build Check]) w
       (Raise (ClickException_of_CalledProcessError build
                 (returncode (run e build)))))
  /\ (returncode (run e build) = 0%Z -> returncode (run e push) <> 0%Z ->
      _publish e a w
      = Out (written_events a staged ++ [Run build Check; Run push Check]) w
          (Raise (ClickException_of_CalledProcessError push
                    (returncode (run e push))))).
Proof.
  intros Hg Hs Hc Hgd Hi Hd Hcurl. cbv zeta.
  rewrite (publish_delivery e a w staged Hg Hs Hc). cbv zeta.
  rewrite (delivery_direct e a _ Hgd Hi Hd Hcurl).
  split.
  - intros Hb.
    rewrite (bind_raise_eq _ _ _ _ _ _ (run_check_failed e _ _ Hb)).
    cbn [events final res disk]. now rewrite world_eta.
  - intros Hb Hp.
    rewrite (out_eta_eq (bind _ _ _)).
    destruct (bind_ok (run_check e (build_command (or_empty (image a))))
                (fun _ => bind (run_check e (push_command (or_empty (image a))))
                   (fun _ => if truthy (dokploy_url a) && truthy (application_id a)
                                && truthy (api_key a)
                             then _trigger_dokploy e (or_empty (dokploy_url a))
                                    (or_empty (application_id a))
                                    (or_empty (api_key a))
                             else if truthy (deploy_url a)
                             then _trigger_webhook e (or_empty (deploy_url a))
                                    (token a)
                             else ret tt))
                _ _ _ _ (run_check_ok e _ (World (bundle_of a staged) (disk w)) Hb))
      as (E & F & R).
    rewrite E, F, R.
    rewrite (bind_raise_eq _ _ _ _ _ _ (run_check_failed e _ _ Hp)).
    cbn [events final res disk app]. now rewrite world_eta.
Qed.

Lemma build_or_push_failure_witness :
  res (_publish
         (chosen_env staged_test_db (fun _ => true)
            (fun cmd => match cmd with
                        | _ :: "push" :: _ => 1%Z
                        | _ => 0%Z
                        end))
         (deploy_args (Some "ghcr.io/me/repo:latest")) empty_world)
  = Raise (ClickException_of_CalledProcessError
             ["docker"; "push"; "ghcr.io/me/repo:latest"] 1).
Proof.
  exact (f_equal res
           (proj2
              (build_or_push_failure
                 (chosen_env staged_test_db (fun _ => true)
                    (fun cmd => match cmd with
                                | _ :: "push" :: _ => 1%Z
                                | _ => 0%Z
                                end))
                 (deploy_args (Some "ghcr.io/me/repo:latest")) empty_world
                 staged_test_db
                 eq_refl eq_refl eq_refl eq_refl eq_refl eq_refl eq_refl)
              eq_refl ltac:(vm_compute; discriminate))).
Defined.

Lemma copytree_exists (t : string) (w : world) (old : gmap string string) :
  disk w !! t = Some old -> copytree t w = Out [] w (Raise (FileExistsError t)).
Proof. intros H. unfold copytree. now rewrite H. Qed.

Lemma copytree_fresh (t : string) (w : world) :
  disk w !! t = None ->
  copytree t w
  = Out [CopyTree t] (World (cwd w) (<[t := cwd w]> (disk w))) (Ok tt).
Proof. intros H. unfold copytree. now rewrite H. Qed.

(** X15: in generate-only mode the bundle is copied once, after the
    three files are written.  A target that exists already makes the
    run fail with [FileExistsError]: the target is left as it was and
    the hints are not printed.  Otherwise the bundle becomes the
    target directory and the five hints, which name the resolved
    target, go to the diagnostic stream. *)
Theorem generate_delivery (e : env) (a : publish_args) (w : world)
    (staged : gmap string string) :
  generate_github_actions a = false ->
  temporary_docker_directory e (staging_args a) = inr staged ->
  conflict a = false ->
  truthy (generate_dir a) = true ->
  resolve e (or_empty (generate_dir a)) <> EmptyString ->
  let target := resolve e (or_empty (generate_dir a)) in
  _publish e a w
  = match disk w !! target with
    | Some _ =>
        Out (written_events a staged) w (Raise (FileExistsError target))
    | None =>
        Out (written_events a staged ++ CopyTree target :: generate_messages target)
          (World (cwd w) (<[target := bundle_of a staged]> (disk w)))
          (Ok tt)
    end.
Proof.
  intros Hg Hs Hc Hgd Hne. cbv zeta.
  assert (truthy (Some (resolve e (or_empty (generate_dir a)))) = true) as Hr
    by (destruct (resolve e (or_empty (generate_dir a))) eqn:E;
        [congruence | reflexivity]).
  rewrite (publish_delivery e a w staged Hg Hs Hc). cbv zeta.
  unfold delivery. cbv zeta. rewrite Hgd, Hr. cbn [or_empty].
  destruct (disk w !! resolve e (or_empty (generate_dir a))) as [old|] eqn:Hd.
  - rewrite (bind_raise_eq _ _ _ _ _ _
               (copytree_exists _ (World (bundle_of a staged) (disk w)) old Hd)).
    cbn [events final res disk]. now rewrite app_nil_r, world_eta.
  - pose proof (copytree_fresh _ (World (bundle_of a staged) (disk w)) Hd)
      as Hcopy.
    f_equal.
    + f_equal. run_step Hcopy. do 4 run_refl. reflexivity.
    + f_equal. run_step Hcopy. do 4 run_refl. reflexivity.
    + run_step Hcopy. do 4 run_refl. reflexivity.
Qed.

Lemma generate_delivery_witness :
  res (_publish (friendly_env staged_test_db) generate_args
         (World ∅ {["/work/app" := ∅]}))
  = Raise (FileExistsError "/work/app").
Proof.
  exact (f_equal res
           (generate_delivery (friendly_env staged_test_db) generate_args
              (World ∅ {["/work/app" := ∅]}) staged_test_db
              eq_refl eq_refl eq_refl eq_refl ltac:(discriminate))).
Defined.

(** *** What holds of every run *)

Lemma emits_bind_raises {A B} (P : event -> bool) (m : M A) (k : A -> M B) :
  always_raises m -> emits P m -> emits P (bind m k).
Proof.
  intros Hr Hm w. unfold bind. destruct (Hr w) as [x ->]. apply Hm.
Qed.

Lemma run_check_raises (e : env) (cmd : list string) :
  returncode (run e cmd) <> 0%Z -> always_raises (run_check e cmd).
Proof. intros H w. rewrite (run_check_failed e cmd w H). eauto. Qed.

Lemma emits_artifacts (P : event -> bool) (staged : gmap string string)
    (text : string) :
  (forall n, P (Remove n) = true) -> (forall n c, P (Write n c) = true) ->
  forallb P (artifact_events staged text) = true.
Proof.
  intros Hr Hw. unfold artifact_events. rewrite forallb_app.
  destruct (bool_decide _); cbn; now rewrite ?Hr, ?Hw.
Qed.

Lemma emits_written (P : event -> bool) (a : publish_args)
    (staged : gmap string string) :
  (forall n, P (Remove n) = true) -> (forall n c, P (Write n c) = true) ->
  forallb P (written_events a staged) = true.
Proof.
  intros Hr Hw. unfold written_events.
  rewrite forallb_app, emits_artifacts by assumption. cbn. now rewrite Hw.
Qed.

(** The run of [_publish], case by case, up to its delivery. *)
Lemma publish_cases (e : env) (a : publish_args) (w : world) :
  (exists text, _publish e a w = Out [Echo false text] w (Ok tt))
  \/ (exists x, _publish e a w = Out [] w (Raise x))
  \/ (exists staged,
        _publish e a w
        = Out (artifact_events staged (entry_point_of a)) w
            (Raise (ClickException conflict_message)))
  \/ (exists staged,
        let o := delivery e a (World (bundle_of a staged) (disk w)) in
        _publish e a w
        = Out (written_events a staged ++ events o)
            (World (cwd w) (disk (final o))) (res o)).
Proof.
  destruct (generate_github_actions a) eqn:Hg.
  - left. eexists. unfold _publish. now rewrite Hg.
  - destruct (temporary_docker_directory e (staging_args a)) as [x|staged] eqn:Hs.
    + right; left. exists x. now apply staging_failure_propagates_eq.
    + destruct (conflict a) eqn:Hc.
      * right; right; left. exists staged. now apply publish_conflict.
      * right; right; right. exists staged. now apply publish_delivery.
Qed.

(** No HTTP client is started by a delivery whose build or push
    fails. *)
Lemma delivery_no_http (e : env) (a : publish_args) :
  returncode (run e (build_command (or_empty (image a)))) <> 0%Z
  \/ returncode (run e (push_command (or_empty (image a)))) <> 0%Z ->
  emits (fun ev => negb (invokes "curl" ev)) (delivery e a).
Proof.
  intros H. unfold delivery. cbv zeta.
  emits_step; [emits_auto|].
  emits_step; [emits_auto|].
  emits_step; [emits_step|]. emits_step; [emits_step|].
  destruct (Z.eq_dec (returncode (run e (build_command (or_empty (image a))))) 0%Z)
    as [Hb|Hb].
  - emits_step; [emits_step|].
    destruct H as [H|H]; [contradiction|].
    apply emits_bind_raises; [now apply run_check_raises | emits_step].
  - apply emits_bind_raises; [now apply run_check_raises | emits_step].
Qed.

(** X16: in every run, the HTTP client is started only after the build
    and the push have both succeeded. *)
Theorem http_only_after_build_and_push (e : env) (a : publish_args) (w : world)
    (ev : event) :
  In ev (events (_publish e a w)) ->
  invokes "curl" ev = true ->
  returncode (run e (build_command (or_empty (image a)))) = 0%Z
  /\ returncode (run e (push_command (or_empty (image a)))) = 0%Z.
Proof.
  intros Hin Hev.
  destruct (Z.eq_dec (returncode (run e (build_command (or_empty (image a))))) 0%Z)
    as [Hb|Hb];
    [destruct (Z.eq_dec (returncode (run e (push_command (or_empty (image a))))) 0%Z)
       as [Hp|Hp]; [now split|]|];
    exfalso;
    (assert (forallb (fun ev => negb (invokes "curl" ev))
               (events (_publish e a w)) = true) as Hq;
     [|rewrite forallb_forall in Hq; specialize (Hq _ Hin);
       rewrite Hev in Hq; discriminate Hq]);
    (destruct (publish_cases e a w)
       as [[t ->]|[[x ->]|[[staged ->]|[staged ->]]]];
     [ reflexivity
     | reflexivity
     | apply emits_artifacts; reflexivity
     | cbn [events]; rewrite forallb_app, emits_written by reflexivity;
       apply delivery_no_http; tauto ]).
Qed.

Lemma http_only_after_build_and_push_witness :
  returncode (run (friendly_env staged_test_db)
                (build_command (or_empty (image api_deploy_args)))) = 0%Z
  /\ returncode (run (friendly_env staged_test_db)
                   (push_command (or_empty (image api_deploy_args)))) = 0%Z.
Proof.
  refine (http_only_after_build_and_push (friendly_env staged_test_db)
            api_deploy_args empty_world
            (Run (api_trigger_command (friendly_env staged_test_db)
                    "https://dokploy.example.com" "app-123" "secret") Capture)
            _ eq_refl).
  vm_compute. tauto.
Defined.

(** X17: in every run, the files of the bundle are settled before
    anything is delivered: the events split into a first part that
    starts no process and copies nothing, and a second part that
    writes no file of the bundle and removes none. *)
Theorem files_before_delivery (e : env) (a : publish_args) (w : world) :
  exists first second,
    events (_publish e a w) = first ++ second
    /\ forallb (fun ev => negb (is_run ev)
                          && match ev with CopyTree _ => false | _ => true end)
         first = true
    /\ forallb (fun ev => negb (is_write ev) && negb (is_remove ev)) second
       = true.
Proof.
  destruct (publish_cases e a w)
    as [[t ->]|[[x ->]|[[staged ->]|[staged ->]]]].
  - exists [Echo false t], []. repeat split.
  - exists [], []. repeat split.
  - eexists _, []. cbn [events]. rewrite app_nil_r.
    repeat split. apply emits_artifacts; reflexivity.
  - eexists _, _. cbn [events]. split; [reflexivity|].
    split; [apply emits_written; reflexivity|].
    match goal with
    | |- forallb ?P (events (?m ?w)) = true =>
        cut (emits P m); [intros Hm; apply Hm|]
    end.
    unfold delivery. cbv zeta. emits_auto.
Qed.

(** ** More on the dependency list *)

Lemma looks_like_other_head (c : ascii) (rest : string) :
  isspace c = false -> lower_char c <> "d"%char ->
  _looks_like_datasette_requirement (Some (String c rest)) = false.
Proof.
  intros Hs Hc. unfold _looks_like_datasette_requirement, strip.
  cbn [or_empty]. rewrite (lstrip_of_head _ _ _ Hs), (rstrip_keeps_head _ _ _ Hs).
  cbn [lower]. unfold startswith. cbn [String.prefix].
  destruct (ascii_dec "d" (lower_char c)) as [E|E]; [congruence | reflexivity].
Qed.

Lemma other_requirements_not_recognised (install : list string) :
  forallb (fun req => negb (_looks_like_datasette_requirement (Some req)))
    (other_requirements install) = true.
Proof.
  unfold other_requirements. apply forallb_forall.
  intros r Hr. now apply filter_In in Hr as [_ Hr].
Qed.

(** X18: outside the conflict, the list written to [requirements.txt]
    names the framework on its first line at most: no later line is a
    framework requirement, every install entry that is not one is
    kept, and the first line is a framework requirement exactly when
    no branch stands in for it. *)
Theorem one_framework_requirement (e : env) (a : publish_args) (w : world)
    (staged : gmap string string) :
  generate_github_actions a = false ->
  temporary_docker_directory e (staging_args a) = inr staged ->
  conflict a = false ->
  exists first rest,
    written "requirements.txt" (events (_publish e a w))
    = [join (str1 NL) (first :: rest)]
    /\ forallb (fun req => negb (_looks_like_datasette_requirement (Some req)))
         rest = true
    /\ (forall req, In req (install a) ->
          _looks_like_datasette_requirement (Some req) = false -> In req rest)
    /\ _looks_like_datasette_requirement (Some first) = negb (truthy (branch a)).
Proof.
  intros Hg Hs Hc.
  exists (resolved_framework (install a) (branch a)),
         ("pysqlite3-binary" :: "uvicorn" :: other_requirements (install a)).
  split; [|split; [|split]].
  - rewrite (publish_delivery e a w staged Hg Hs Hc). cbv zeta. cbn [events].
    unfold written_events. rewrite !written_app, written_artifacts.
    cbn [app]. change (written "requirements.txt" [Write "requirements.txt" ?c])
      with [c].
    cbn [app]. f_equal. apply written_no_write.
    match goal with
    | |- forallb ?P (events (?m ?w)) = true =>
        cut (emits P m); [intros Hm; apply Hm|]
    end.
    unfold delivery. cbv zeta. emits_auto.
  - cbn [forallb]. rewrite other_requirements_not_recognised. reflexivity.
  - intros req Hin Hreq. do 2 right. unfold other_requirements.
    apply filter_In. split; [exact Hin | now rewrite Hreq].
  - unfold conflict in Hc. unfold resolved_framework.
    destruct (framework_requirement (install a)) as [req|] eqn:Hf.
    + pose proof (framework_requirement_some _ _ Hf) as Ht.
      rewrite Ht in Hc. cbn [andb] in Hc. rewrite Hc.
      unfold framework_requirement in Hf. now apply find_some in Hf as [_ Hf].
    + destruct (truthy (branch a)); [|reflexivity].
      now apply looks_like_other_head.
Qed.

Lemma one_framework_requirement_witness :
  exists first rest,
    written "requirements.txt"
      (events (_publish (friendly_env staged_test_db) pinned_args empty_world))
    = [join (str1 NL) (first :: rest)]
    /\ forallb (fun req => negb (_looks_like_datasette_requirement (Some req)))
         rest = true
    /\ (forall req, In req (install pinned_args) ->
          _looks_like_datasette_requirement (Some req) = false -> In req rest)
    /\ _looks_like_datasette_requirement (Some first)
       = negb (truthy (branch pinned_args)).
Proof.
  exact (one_framework_requirement (friendly_env staged_test_db) pinned_args
           empty_world staged_test_db eq_refl eq_refl eq_refl).
Defined.

(** ** More on the entry point *)

(** X19: the two directory options and the cross-database flag add to
    the [Datasette(...)] call exactly this: after [metadata=metadata],
    the fixed directive [template_dir="templates"] when a template
    directory is given and the fixed directive [plugins_dir="plugins"]
    when a plugins directory is given (the paths themselves never
    appear); and after the settings, as the last argument,
    [crossdb=True] when the flag is set. *)
Theorem entry_point_directives (files : list string)
    (static : list (string * string)) (settings : list (string * value))
    (template_dir plugins_dir : option string) (crossdb : bool) :
  exists before,
    render_index files static settings template_dir plugins_dir crossdb
    = Some
        (before
         +:+ text_of_lines
               [ ",";
                 "    static_mounts=static_mounts,";
                 "    metadata=metadata" ]
         +:+ template_directive template_dir
         +:+ plugins_directive plugins_dir
         +:+ text_of_lines
               [ ",";
                 "    secret=secret,";
                 "    cors=True,";
                 "    settings=" ]
         +:+ dumps_dict (dict settings)
         +:+ (if crossdb
              then text_of_lines [","; "    crossdb=True"]
              else EmptyString)
         +:+ text_of_lines [EmptyString; ")"; "app = ds.app()"]).
Proof.
  rewrite render_index_text.
  assert (extras_text template_dir plugins_dir
          = template_directive template_dir +:+ plugins_directive plugins_dir)
    as ->.
  { unfold extras_text, extras_of, template_directive, plugins_directive.
    destruct (truthy template_dir), (truthy plugins_dir); reflexivity. }
  assert (crossdb_text crossdb
          = if crossdb then text_of_lines [","; "    crossdb=True"]
            else EmptyString) as -> by now destruct crossdb.
  unfold entry_text, entry_tail1, entry_tail2, entry_tail3.
  match goal with
  | |- context [?A +:+ dumps_list (map fst static) +:+ ?B
                +:+ dumps_list (map basename files) +:+ _] =>
      exists (A +:+ dumps_list (map fst static) +:+ B
              +:+ dumps_list (map basename files))
  end.
  f_equal. now rewrite !append_assoc.
Qed.

(** ** More on the literals of the entry point *)

Lemma all_chars_app (p : ascii -> bool) (a b : string) :
  all_chars p (a +:+ b) = all_chars p a && all_chars p b.
Proof.
  induction a as [|c a IH]; [reflexivity|].
  rewrite append_cons. cbn [all_chars]. rewrite IH. apply andb_assoc.
Qed.

Lemma all_chars_join (p : ascii -> bool) (sep : string) (l : list string) :
  all_chars p sep = true ->
  Forall (fun s => all_chars p s = true) l ->
  all_chars p (join sep l) = true.
Proof.
  intros Hsep. induction 1 as [|x l Hx Hl IH]; [reflexivity|].
  destruct l as [|y l]; [exact Hx|].
  change (join sep (x :: y :: l)) with (x +:+ sep +:+ join sep (y :: l)).
  now rewrite !all_chars_app, Hx, Hsep, IH.
Qed.

Lemma printable_escape_char (c : ascii) :
  all_chars printable (escape_char c) = true.
Proof. destruct c as [[] [] [] [] [] [] [] []]; reflexivity. Qed.

Lemma printable_escape (s : string) : all_chars printable (escape s) = true.
Proof.
  induction s as [|c s IH]; [reflexivity|].
  cbn [escape]. now rewrite all_chars_app, printable_escape_char, IH.
Qed.

Lemma printable_dumps_str (s : string) :
  all_chars printable (dumps_str s) = true.
Proof.
  unfold dumps_str. cbn [all_chars].
  now rewrite all_chars_app, printable_escape.
Qed.

Lemma printable_uint (u : uint) :
  all_chars printable (NilEmpty.string_of_uint u) = true.
Proof. induction u; cbn [NilEmpty.string_of_uint all_chars]; auto. Qed.

Lemma printable_str_of_int (z : Z) : all_chars printable (str_of_int z) = true.
Proof.
  unfold str_of_int. destruct (Z.to_int z) as [u|u]; cbn [NilZero.string_of_int].
  - destruct u; try reflexivity;
      cbn [NilZero.string_of_uint NilEmpty.string_of_uint all_chars];
      apply printable_uint.
  - cbn [all_chars].
    destruct u; try reflexivity;
      cbn [NilZero.string_of_uint NilEmpty.string_of_uint all_chars];
      apply printable_uint.
Qed.

Lemma printable_dumps_value (v : value) :
  all_chars printable (dumps_value v) = true.
Proof.
  destruct v as [[]|z|s]; [reflexivity | reflexivity | |].
  - apply printable_str_of_int.
  - apply printable_dumps_str.
Qed.

Lemma printable_dumps_list (l : list string) :
  all_chars printable (dumps_list l) = true.
Proof.
  unfold dumps_list. rewrite !all_chars_app, all_chars_join; [reflexivity.. |].
  apply Forall_map, Forall_forall. intros s _. apply printable_dumps_str.
Qed.

Lemma printable_dumps_dict (d : list (string * value)) :
  all_chars printable (dumps_dict d) = true.
Proof.
  unfold dumps_dict. rewrite !all_chars_app, all_chars_join; [reflexivity.. |].
  apply Forall_map, Forall_forall. intros [k v] _. unfold dumps_item.
  now rewrite !all_chars_app, printable_dumps_str, printable_dumps_value.
Qed.

Lemma printable_weaken (s : string) :
  all_chars printable s = true -> all_chars printable_or_newline s = true.
Proof.
  induction s as [|c s IH]; [reflexivity|]. cbn [all_chars].
  intros [Hc Hs]%andb_true_iff. rewrite IH by exact Hs.
  unfold printable_or_newline. now rewrite Hc.
Qed.

Lemma entry_text_chars (S D E T C : string) :
  all_chars printable_or_newline (entry_text S D E T C)
  = all_chars printable_or_newline S && all_chars printable_or_newline D
    && all_chars printable_or_newline E && all_chars printable_or_newline T
    && all_chars printable_or_newline C.
Proof.
  unfold entry_text, entry_tail1, entry_tail2, entry_tail3.
  rewrite !all_chars_app.
  repeat match goal with
         | |- context [all_chars printable_or_newline (text_of_lines ?l)] =>
             change (all_chars printable_or_newline (text_of_lines l)) with true
         end.
  cbn [andb]. rewrite !andb_true_r, !andb_assoc. reflexivity.
Qed.

(** X20: whatever the file names, static labels and settings are, the
    entry point is a text of printable ASCII characters and newlines:
    [json.dumps] escapes every other character of a name or a value. *)
Theorem entry_point_is_ascii (files : list string)
    (static : list (string * string)) (settings : list (string * value))
    (template_dir plugins_dir : option string) (crossdb : bool) :
  exists text,
    render_index files static settings template_dir plugins_dir crossdb
    = Some text
    /\ all_chars printable_or_newline text = true.
Proof.
  rewrite render_index_text. eexists. split; [reflexivity|].
  rewrite entry_text_chars.
  rewrite !(printable_weaken _ (printable_dumps_list _)).
  rewrite (printable_weaken _ (printable_dumps_dict _)).
  unfold extras_text, extras_of, crossdb_text.
  destruct (truthy template_dir), (truthy plugins_dir), crossdb; reflexivity.
Qed.

Lemma keys_fold_dict_set (pairs d : list (string * value)) :
  map fst (fold_left (fun d kv => dict_set d (fst kv) (snd kv)) pairs d)
  = map fst d ++ first_occurrences (map fst d) (map fst pairs).
Proof.
  revert d. induction pairs as [|[k v] pairs IH]; intros d;
    cbn [fold_left map fst snd first_occurrences].
  - now rewrite app_nil_r.
  - rewrite IH.
    destruct (existsb (String.eqb k) (map fst d)) eqn:Hk.
    + rewrite keys_dict_set_present; [reflexivity|].
      apply existsb_exists in Hk as (x & Hin & Hx).
      now apply String.eqb_eq in Hx as ->.
    + rewrite dict_set_fresh.
      * rewrite map_app. cbn [map fst]. now rewrite <- app_assoc.
      * intros Hin. apply not_true_iff_false in Hk. apply Hk.
        apply existsb_exists. exists k. split; [exact Hin|].
        apply String.eqb_refl.
Qed.

(** X21: the settings literal of the entry point lists each setting
    name once, in the order in which the names first occur in the
    [--setting] sequence; a repeated name keeps its first position
    (and, by [dict], takes its last value). *)
Theorem settings_key_order (files : list string)
    (static : list (string * string)) (settings : list (string * value))
    (template_dir plugins_dir : option string) (crossdb : bool) :
  exists text statics database_files d,
    render_index files static settings template_dir plugins_dir crossdb
    = Some text
    /\ Reparse.entry_point text = Some (statics, database_files, d)
    /\ map fst d = first_occurrences [] (map fst settings)
    /\ List.NoDup (map fst d).
Proof.
  rewrite render_index_text. do 4 eexists. split; [reflexivity|].
  rewrite entry_point_entry_text, dict_idempotent.
  split; [reflexivity|]. split.
  - unfold dict. now rewrite keys_fold_dict_set.
  - apply NoDup_keys_dict.
Qed.

Lemma last_component_no_slash (cur p : string) :
  all_chars not_slash cur = true ->
  all_chars not_slash (last_component cur p) = true.
Proof.
  revert cur. induction p as [|c p IH]; intros cur Hcur; [exact Hcur|].
  cbn [last_component]. destruct (Ascii.eqb c "/") eqn:Hc.
  - now apply IH.
  - apply IH. rewrite all_chars_app, Hcur. cbn [all_chars str1].
    unfold not_slash. now rewrite Hc.
Qed.

Lemma last_component_split (p : string) : forall dir cur : string,
  (dir = EmptyString \/ exists d, dir = d +:+ "/") ->
  exists dir',
    dir +:+ cur +:+ p = dir' +:+ last_component cur p
    /\ (dir' = EmptyString \/ exists d, dir' = d +:+ "/").
Proof.
  induction p as [|c p IH]; intros dir cur Hdir.
  - exists dir. now rewrite append_nil_r.
  - cbn [last_component]. destruct (Ascii.eqb_spec c "/") as [->|Hc].
    + destruct (IH (dir +:+ cur +:+ "/") EmptyString) as (dir' & E & H).
      { right. exists (dir +:+ cur). now rewrite append_assoc. }
      exists dir'. split; [|exact H]. rewrite <- E.
      now rewrite !append_assoc.
    + destruct (IH dir (cur +:+ str1 c) Hdir) as (dir' & E & H).
      exists dir'. split; [|exact H]. rewrite <- E.
      now rewrite !append_assoc.
Qed.

Lemma basename_last_component (f : string) : last_component_of f (basename f).
Proof.
  split; [now apply last_component_no_slash|].
  destruct (last_component_split f EmptyString EmptyString) as (dir & E & H);
    [now left|].
  exists dir. split; [exact E | exact H].
Qed.

(** X22: the entry point names every database file by its last path
    component: the names read back from it are those of the files
    given, one for each and in their order, and each of them is what
    follows the last slash of its file (the file itself when it holds
    no slash). *)
Theorem database_files_by_name (files : list string)
    (static : list (string * string)) (settings : list (string * value))
    (template_dir plugins_dir : option string) (crossdb : bool) :
  exists text statics names d,
    render_index files static settings template_dir plugins_dir crossdb
    = Some text
    /\ Reparse.entry_point text = Some (statics, names, d)
    /\ Forall2 last_component_of files names.
Proof.
  rewrite render_index_text. do 4 eexists. split; [reflexivity|].
  rewrite entry_point_entry_text. split; [reflexivity|].
  induction files as [|f files IH]; cbn [map]; constructor; [|exact IH].
  apply basename_last_component.
Qed.

(** X24: on names, labels and settings over the code points below
    256, the entry point holds the list of static labels, the list of
    the last path components of the database files and the settings
    dictionary as literals, and reading the three literals back gives
    these three values; the dictionary has each setting name once,
    with the value of its last occurrence; and a boolean setting
    appears in the text as lowercase [true] or [false]. *)
Theorem entry_point_roundtrip (files : list string)
    (static : list (string * string)) (settings : list (string * value))
    (template_dir plugins_dir : option string) (crossdb : bool) :
  exists text labels names d,
    render_index files static settings template_dir plugins_dir crossdb
    = Some text
    /\ (exists a b c e,
          text = a +:+ dumps_list labels +:+ b +:+ dumps_list names
                   +:+ c +:+ dumps_dict d +:+ e)
    /\ Reparse.entry_point text = Some (labels, names, d)
    /\ labels = map fst static
    /\ Forall2 last_component_of files names
    /\ List.NoDup (map fst d)
    /\ (forall k, dict_get d k = last_value settings k)
    /\ (forall k b, In (k, VBool b) d ->
          exists a e,
            dumps_dict d
            = a +:+ dumps_str k +:+ ": "
                +:+ (if b then "true" else "false") +:+ e).
Proof.
  exists (entry_text (dumps_list (map fst static))
            (dumps_list (map basename files))
            (extras_text template_dir plugins_dir)
            (dumps_dict (dict settings)) (crossdb_text crossdb)),
    (map fst static), (map basename files), (dict settings).
  split; [apply render_index_text|].
  split; [|split; [|split; [|split; [|split; [|split]]]]].
  - unfold entry_text, entry_tail1, entry_tail2.
    do 4 eexists. apply embed_shape.
  - now rewrite entry_point_entry_text, dict_idempotent.
  - reflexivity.
  - induction files as [|f files IH]; cbn [map]; constructor; [|exact IH].
    apply basename_last_component.
  - apply NoDup_keys_dict.
  - apply dict_get_dict.
  - intros k b Hin. destruct (dumps_dict_holds_item _ _ Hin) as (a & e & H).
    exists a, e. rewrite H. unfold dumps_item. cbn [fst snd dumps_value].
    rewrite !append_assoc. now destruct b.
Qed.

(** ** Strings over all code points *)

Lemma of_string_app (a b : string) :
  Wide.of_string (a +:+ b) = Wide.of_string a ++ Wide.of_string b.
Proof.
  unfold Wide.of_string. induction a as [|c a IH]; [reflexivity|].
  rewrite append_cons. cbn [list_ascii_of_string map app]. now rewrite IH.
Qed.

Lemma of_string_inj (a b : string) :
  Wide.of_string a = Wide.of_string b -> a = b.
Proof.
  unfold Wide.of_string. revert b.
  induction a as [|c a IH]; intros [|d b]; cbn [list_ascii_of_string map];
    try discriminate; [reflexivity|].
  intros [= Hc Hr]. rewrite (IH _ Hr). f_equal.
  rewrite <- (ascii_N_embedding c), <- (ascii_N_embedding d). now rewrite Hc.
Qed.

Lemma escape_point_char (c : ascii) :
  Wide.escape_point (N_of_ascii c) = escape_char c.
Proof. destruct c as [[] [] [] [] [] [] [] []]; vm_compute; reflexivity. Qed.

Lemma escape_of_string (s : string) :
  Wide.escape (Wide.of_string s) = escape s.
Proof.
  induction s as [|c s IH]; [reflexivity|].
  change (Wide.of_string (String c s)) with (N_of_ascii c :: Wide.of_string s).
  cbn [Wide.escape escape]. now rewrite escape_point_char, IH.
Qed.

Lemma dumps_str_of_string (s : string) :
  Wide.dumps_str (Wide.of_string s) = dumps_str s.
Proof. unfold Wide.dumps_str, dumps_str. now rewrite escape_of_string. Qed.

Lemma dumps_list_of_string (l : list string) :
  Wide.dumps_list (map Wide.of_string l) = dumps_list l.
Proof.
  unfold Wide.dumps_list, dumps_list. rewrite map_map.
  now rewrite (map_ext _ _ dumps_str_of_string).
Qed.

Lemma last_component_of_string (p : string) : forall cur : string,
  Wide.last_component (Wide.of_string cur) (Wide.of_string p)
  = Wide.of_string (last_component cur p).
Proof.
  induction p as [|c p IH]; intros cur; [reflexivity|].
  change (Wide.of_string (String c p)) with (N_of_ascii c :: Wide.of_string p).
  cbn [Wide.last_component last_component].
  replace (N_of_ascii c =? 47)%N with (Ascii.eqb c "/").
  - destruct (Ascii.eqb c "/"); [exact (IH EmptyString)|].
    rewrite <- IH, of_string_app. reflexivity.
  - destruct c as [[] [] [] [] [] [] [] []]; reflexivity.
Qed.

Lemma basename_of_string (p : string) :
  Wide.basename (Wide.of_string p) = Wide.of_string (basename p).
Proof. exact (last_component_of_string p EmptyString). Qed.

Lemma dumps_value_of_value (v : value) :
  Wide.dumps_value (Wide.of_value v) = dumps_value v.
Proof. destruct v as [[]|z|s]; try reflexivity. apply dumps_str_of_string. Qed.

Lemma dumps_item_of_setting (kv : string * value) :
  Wide.dumps_item (Wide.of_setting kv) = dumps_item kv.
Proof.
  unfold Wide.dumps_item, dumps_item, Wide.of_setting. cbn [fst snd].
  now rewrite dumps_str_of_string, dumps_value_of_value.
Qed.

Lemma dict_set_of_setting (d : list (string * value)) (k : string) (v : value) :
  Wide.dict_set (map Wide.of_setting d) (Wide.of_string k) (Wide.of_value v)
  = map Wide.of_setting (dict_set d k v).
Proof.
  induction d as [|[k' v'] d IH]; [reflexivity|].
  cbn [map Wide.dict_set dict_set]. unfold Wide.of_setting at 1. cbn [fst snd].
  destruct (String.eqb_spec k' k) as [->|Hne].
  - rewrite bool_decide_eq_true_2 by reflexivity. reflexivity.
  - rewrite bool_decide_eq_false_2 by (intros H; now apply of_string_inj in H).
    cbn [map]. now rewrite IH.
Qed.

Lemma fold_dict_of_setting (pairs : list (string * value)) :
  forall d : list (string * value),
    fold_left (fun d kv => Wide.dict_set d (fst kv) (snd kv))
      (map Wide.of_setting pairs) (map Wide.of_setting d)
    = map Wide.of_setting
        (fold_left (fun d kv => dict_set d (fst kv) (snd kv)) pairs d).
Proof.
  induction pairs as [|[k v] pairs IH]; intros d; [reflexivity|].
  cbn [map fold_left].
  change (fst (Wide.of_setting (k, v))) with (Wide.of_string k).
  change (snd (Wide.of_setting (k, v))) with (Wide.of_value v).
  cbn [fst snd]. now rewrite dict_set_of_setting, IH.
Qed.

Lemma dict_of_setting (pairs : list (string * value)) :
  Wide.dict (map Wide.of_setting pairs) = map Wide.of_setting (dict pairs).
Proof. exact (fold_dict_of_setting pairs []). Qed.

Lemma dumps_dict_of_setting (d : list (string * value)) :
  Wide.dumps_dict (map Wide.of_setting d) = dumps_dict d.
Proof.
  unfold Wide.dumps_dict, dumps_dict. rewrite map_map.
  now rewrite (map_ext _ _ dumps_item_of_setting).
Qed.

(** On the strings over the code points below 256 the rendering over
    all code points is the rendering of the embedding. *)
Lemma render_index_of_string (files : list string)
    (static : list (string * string)) (settings : list (string * value))
    (template_dir plugins_dir : option string) (crossdb : bool) :
  Wide.render_index (map Wide.of_string files) (map Wide.of_static static)
    (map Wide.of_setting settings) template_dir plugins_dir crossdb
  = render_index files static settings template_dir plugins_dir crossdb.
Proof.
  unfold Wide.render_index, render_index. cbv zeta.
  rewrite !map_map.
  rewrite (map_ext (fun f => Wide.basename (Wide.of_string f))
             (fun f => Wide.of_string (basename f)) basename_of_string).
  rewrite <- (map_map basename Wide.of_string), dumps_list_of_string.
  change (fun x => fst (Wide.of_static x))
    with (fun x : string * string => Wide.of_string (fst x)).
  rewrite <- (map_map fst Wide.of_string), dumps_list_of_string.
  now rewrite dict_of_setting, dumps_dict_of_setting.
Qed.

Lemma wide_render_index_text (files : list Wide.str)
    (static : list (Wide.str * Wide.str))
    (settings : list (Wide.str * Wide.value))
    (template_dir plugins_dir : option string) (crossdb : bool) :
  Wide.render_index files static settings template_dir plugins_dir crossdb
  = Some (entry_text (Wide.dumps_list (map fst static))
            (Wide.dumps_list (map Wide.basename files))
            (extras_text template_dir plugins_dir)
            (Wide.dumps_dict (Wide.dict settings))
            (crossdb_text crossdb)).
Proof. unfold Wide.render_index. apply format_INDEX_PY. Qed.

(** C1: a database file whose name holds a character above U+FFFF is
    not named in the entry point as given.  [json.dumps] writes
    U+1F600 as the two escapes of its surrogate pair, and Python,
    which runs the entry point, reads two escapes as two code points:
    the name read back is not the name of the file. *)
Theorem entry_point_astral_name :
  exists text,
    Wide.render_index [astral_db] [] [] None None false = Some text
    /\ (exists before after,
          text = before +:+ "[" +:+ q +:+ "\ud83d\ude00.db" +:+ q +:+ "]"
                 +:+ after)
    /\ Wide.names text = Some ([], [astral_db_read])
    /\ astral_db_read <> Wide.basename astral_db.
Proof.
  rewrite wide_render_index_text. eexists. split; [reflexivity|].
  split; [|split].
  - unfold entry_text, entry_tail1.
    match goal with
    | |- context [?A +:+ ?S +:+ ?B +:+ Wide.dumps_list ?l +:+ ?t] =>
        exists (A +:+ S +:+ B), t;
        replace (Wide.dumps_list l)
          with ("[" +:+ q +:+ "\ud83d\ude00.db" +:+ q +:+ "]")
          by (vm_compute; reflexivity)
    end.
    now rewrite !append_assoc.
  - vm_compute. reflexivity.
  - vm_compute. discriminate.
Qed.

(** *** What Python reads back *)

Lemma hex_value_digit (d : N) :
  (d < 16)%N -> Reparse.hex_value (hex_digit d) = Some d.
Proof.
  intros H.
  assert (In d [0; 1; 2; 3; 4; 5; 6; 7; 8; 9; 10; 11; 12; 13; 14; 15]%N) as Hin.
  { cbn [In]. lia. }
  cbn [In] in Hin.
  repeat (destruct Hin as [<-|Hin]; [reflexivity|]). destruct Hin.
Qed.

Lemma hex4_value (v : N) :
  (v < 65536)%N ->
  ((((v / 4096) * 16 + (v / 256) mod 16) * 16 + (v / 16) mod 16) * 16
   + v mod 16 = v)%N.
Proof. intros H. zify. Z.to_euclidean_division_equations. lia. Qed.

Lemma string_body_u_escape (v : N) (t : string) :
  (v < 65536)%N ->
  Wide.string_body (Wide.u_escape v +:+ t)
  = Wide.cons_point v (Wide.string_body t).
Proof.
  intros H. unfold Wide.u_escape, str1. rewrite !append_cons.
  change (EmptyString +:+ t) with t.
  cbn [Wide.string_body].
  change (Ascii.eqb BS DQ) with false. change (Ascii.eqb BS BS) with true.
  change (Ascii.eqb "u" "u") with true. cbv iota.
  rewrite !hex_value_digit.
  - now rewrite hex4_value.
  - apply N.mod_upper_bound. discriminate.
  - apply N.mod_upper_bound. discriminate.
  - apply N.mod_upper_bound. discriminate.
  - apply N.Div0.div_lt_upper_bound. exact H.
Qed.

Lemma log2_below_16 (a : N) : (a < 65536)%N -> (N.log2 a < 16)%N.
Proof.
  intros H. destruct (N.eq_dec a 0%N) as [->|Hz]; [reflexivity|].
  apply N.log2_lt_pow2; [lia | exact H].
Qed.

Lemma surrogate_bound (a m : N) :
  (a < 65536)%N -> (N.lor a (N.land m 1023) < 65536)%N.
Proof.
  intros Ha.
  assert (N.land m 1023 < 65536)%N as Hm.
  { change 1023%N with (N.ones 10). rewrite N.land_ones.
    pose proof (N.mod_upper_bound m (2 ^ 10)) as H.
    change (2 ^ 10)%N with 1024%N in H |- *. lia. }
  destruct (N.eq_dec (N.lor a (N.land m 1023)) 0%N) as [->|Hz]; [reflexivity|].
  change 65536%N with (2 ^ 16)%N. apply N.log2_lt_pow2; [lia|].
  rewrite N.log2_lor. apply N.max_lub_lt; now apply log2_below_16.
Qed.

Lemma string_body_escape_point (n : N) (t : string) :
  Wide.string_body (Wide.escape_point n +:+ t)
  = fold_right Wide.cons_point (Wide.string_body t) (Wide.as_read_point n).
Proof.
  unfold Wide.as_read_point.
  destruct (N.ltb_spec n 256) as [Hs|Hl].
  - replace (n <? 65536)%N with true by (symmetry; apply N.ltb_lt; lia).
    rewrite <- (N_ascii_embedding n Hs).
    destruct (ascii_of_N n) as [[] [] [] [] [] [] [] []]; reflexivity.
  - unfold Wide.escape_point.
    repeat match goal with
           | |- context [(n =? ?k)%N] =>
               replace (n =? k)%N with false
                 by (symmetry; apply N.eqb_neq; lia)
           end.
    replace (n <=? 126)%N with false by (symmetry; apply N.leb_gt; lia).
    rewrite andb_false_r.
    destruct (N.ltb_spec n 65536) as [Hb|Ha]; cbv zeta.
    + cbn [fold_right]. now apply string_body_u_escape.
    + cbn [fold_right]. rewrite append_assoc.
      rewrite !string_body_u_escape; [reflexivity|..];
        now apply surrogate_bound.
Qed.

Lemma string_body_wide_escape (s : Wide.str) (rest : string) :
  Wide.string_body (Wide.escape s +:+ String DQ rest)
  = Some (Wide.as_read s, rest).
Proof.
  induction s as [|n s IH]; [reflexivity|].
  cbn [Wide.escape]. rewrite append_assoc, string_body_escape_point, IH.
  unfold Wide.as_read. cbn [flat_map].
  generalize (Wide.as_read_point n). intros l.
  induction l as [|x l IHl]; [reflexivity|].
  cbn [fold_right app]. now rewrite IHl.
Qed.

Lemma wide_string_literal_dumps (s : Wide.str) (rest : string) :
  Wide.string_literal (Wide.dumps_str s +:+ rest) = Some (Wide.as_read s, rest).
Proof.
  unfold Wide.dumps_str, str1. rewrite append_cons, append_assoc, append_cons.
  apply string_body_wide_escape.
Qed.

Lemma as_read_in_bmp (s : Wide.str) :
  Wide.in_bmp s = true -> Wide.as_read s = s.
Proof.
  unfold Wide.in_bmp, Wide.as_read.
  induction s as [|n s IH]; [reflexivity|].
  cbn [forallb flat_map]. intros [Hn Hs]%andb_true_iff.
  unfold Wide.as_read_point at 1. rewrite Hn. cbn [app]. now rewrite IH.
Qed.

Lemma skip_blanks_wide_dumps_str (s : Wide.str) (rest : string) :
  Reparse.skip_blanks (Wide.dumps_str s +:+ rest) = Wide.dumps_str s +:+ rest.
Proof. reflexivity. Qed.

Lemma length_wide_dumps_str (s : Wide.str) :
  1 <= String.length (Wide.dumps_str s).
Proof. unfold Wide.dumps_str. simpl. lia. Qed.

Lemma wide_str_items_space (fuel : nat) (t : string) :
  Wide.str_items fuel (" " +:+ t) = Wide.str_items fuel t.
Proof. destruct fuel; reflexivity. Qed.

Lemma wide_str_items_join (l : list Wide.str) :
  forall (x : Wide.str) (rest : string) (fuel : nat),
    length (x :: l) <= fuel ->
    Wide.str_items fuel
      (join ", " (map Wide.dumps_str (x :: l)) +:+ "]" +:+ rest)
    = Some (map Wide.as_read (x :: l), rest).
Proof.
  induction l as [|y l IH]; intros x rest fuel Hf;
    (destruct fuel as [|fuel]; [simpl in Hf; lia|]).
  - cbn [map join Wide.str_items].
    rewrite skip_blanks_wide_dumps_str, wide_string_literal_dumps.
    reflexivity.
  - cbn [map]. rewrite join_cons2. cbn [Wide.str_items].
    rewrite !append_assoc, skip_blanks_wide_dumps_str, wide_string_literal_dumps.
    change (", " +:+ ?t) with (String "," (" " +:+ t)).
    cbn [Reparse.skip_blanks lstrip_by].
    change (Reparse.is_blank ",") with false. cbv iota.
    change (Ascii.eqb "," ",") with true. cbv iota.
    rewrite wide_str_items_space.
    change (Wide.dumps_str y :: map Wide.dumps_str l)
      with (map Wide.dumps_str (y :: l)).
    rewrite (IH y rest fuel) by (simpl in Hf |- *; lia). reflexivity.
Qed.

Lemma length_join_wide_dumps (l : list Wide.str) :
  length l <= String.length (join ", " (map Wide.dumps_str l)).
Proof.
  induction l as [|x l IH]; [simpl; lia|].
  destruct l as [|y l].
  - cbn [map join length]. pose proof (length_wide_dumps_str x). lia.
  - cbn [map]. rewrite join_cons2, !length_append.
    pose proof (length_wide_dumps_str x). cbn [map length] in IH |- *. lia.
Qed.

Lemma wide_str_list_dumps (l : list Wide.str) (rest : string) :
  Wide.str_list (Wide.dumps_list l +:+ rest) = Some (map Wide.as_read l, rest).
Proof.
  unfold Wide.dumps_list. rewrite !append_assoc.
  destruct l as [|x l]; [reflexivity|].
  change ("[" +:+ ?t) with (String "[" t).
  unfold Wide.str_list. cbn [Reparse.skip_blanks lstrip_by].
  change (Reparse.is_blank "[") with false. cbv iota.
  change (Ascii.eqb "[" "[") with true. cbv iota.
  assert (exists t,
             Reparse.skip_blanks
               (join ", " (map Wide.dumps_str (x :: l)) +:+ "]" +:+ rest)
             = String DQ t) as [t ->].
  { destruct l; eexists; cbn [map join]; rewrite ?append_assoc;
      rewrite skip_blanks_wide_dumps_str; unfold Wide.dumps_str;
      rewrite append_cons; reflexivity. }
  change (Ascii.eqb DQ "]") with false. cbv iota.
  apply wide_str_items_join.
  rewrite !length_append. pose proof (length_join_wide_dumps (x :: l)). lia.
Qed.

Lemma wide_str_list_indented (t : string) :
  Wide.str_list (str1 NL +:+ "    " +:+ t) = Wide.str_list t.
Proof. reflexivity. Qed.

Lemma names_entry_text (statics dbs : list Wide.str) (E T C : string) :
  Wide.names
    (entry_text (Wide.dumps_list statics) (Wide.dumps_list dbs) E T C)
  = Some (map Wide.as_read statics, map Wide.as_read dbs).
Proof.
  unfold Wide.names.
  rewrite find_statics, wide_str_list_dumps, find_database_files.
  now rewrite wide_str_list_indented, wide_str_list_dumps.
Qed.

Lemma length_as_read (s : Wide.str) :
  length s <= length (Wide.as_read s)
  /\ (length (Wide.as_read s) = length s -> Wide.in_bmp s = true).
Proof.
  unfold Wide.as_read, Wide.in_bmp.
  induction s as [|n s [IH1 IH2]]; [split; [cbn; lia | reflexivity]|].
  cbn [flat_map forallb length]. rewrite length_app.
  assert (length (Wide.as_read_point n) = if (n <? 65536)%N then 1 else 2)
    as -> by (unfold Wide.as_read_point; now destruct (n <? 65536)%N).
  destruct (n <? 65536)%N; cbn [andb]; split; try lia.
  intros H. apply IH2. lia.
Qed.

Lemma as_read_fixed (s : Wide.str) :
  Wide.as_read s = s <-> Wide.in_bmp s = true.
Proof.
  split; [|apply as_read_in_bmp].
  intros H. apply length_as_read. now rewrite H.
Qed.

Lemma wide_last_component_no_slash (p : Wide.str) : forall cur : Wide.str,
  forallb (fun c => negb (c =? 47)%N) cur = true ->
  forallb (fun c => negb (c =? 47)%N) (Wide.last_component cur p) = true.
Proof.
  induction p as [|c p IH]; intros cur Hcur; [exact Hcur|].
  cbn [Wide.last_component]. destruct (c =? 47)%N eqn:Hc.
  - now apply IH.
  - apply IH. rewrite forallb_app, Hcur. cbn [forallb]. now rewrite Hc.
Qed.

Lemma wide_last_component_split (p : Wide.str) : forall dir cur : Wide.str,
  (dir = [] \/ exists d, dir = d ++ [47%N]) ->
  exists dir',
    dir ++ cur ++ p = dir' ++ Wide.last_component cur p
    /\ (dir' = [] \/ exists d, dir' = d ++ [47%N]).
Proof.
  induction p as [|c p IH]; intros dir cur Hdir.
  - exists dir. now rewrite app_nil_r.
  - cbn [Wide.last_component]. destruct (N.eqb_spec c 47) as [->|Hc].
    + destruct (IH (dir ++ cur ++ [47%N]) []) as (dir' & E & H).
      { right. exists (dir ++ cur). now rewrite <- app_assoc. }
      exists dir'. split; [|exact H]. rewrite <- E.
      now rewrite <- !app_assoc.
    + destruct (IH dir (cur ++ [c]) Hdir) as (dir' & E & H).
      exists dir'. split; [|exact H]. rewrite <- E.
      now rewrite <- !app_assoc.
Qed.

Lemma wide_basename_last_component (f : Wide.str) :
  Wide.last_component_of f (Wide.basename f).
Proof.
  split; [now apply wide_last_component_no_slash|].
  destruct (wide_last_component_split f [] []) as (dir & E & H); [now left|].
  exists dir. split; [exact E | exact H].
Qed.

(** X23: whatever code points the names hold, Python reads back from
    the entry point, for the static labels and for the database
    files, the labels given and the last path components of the files
    given, each code point above U+FFFF having become the two halves
    of its surrogate pair; a name is read back as it is exactly when
    it holds no code point above U+FFFF. *)
Theorem names_as_python_reads (files : list Wide.str)
    (static : list (Wide.str * Wide.str))
    (settings : list (Wide.str * Wide.value))
    (template_dir plugins_dir : option string) (crossdb : bool) :
  exists text labels names,
    Wide.render_index files static settings template_dir plugins_dir crossdb
    = Some text
    /\ Wide.names text = Some (map Wide.as_read labels, map Wide.as_read names)
    /\ labels = map fst static
    /\ Forall2 Wide.last_component_of files names
    /\ (forall s, Wide.as_read s = s <-> Wide.in_bmp s = true).
Proof.
  rewrite wide_render_index_text. do 3 eexists. split; [reflexivity|].
  split; [apply names_entry_text|]. split; [reflexivity|].
  split; [|apply as_read_fixed].
  induction files as [|f files IH]; cbn [map]; constructor; [|exact IH].
  apply wide_basename_last_component.
Qed.
